(** * PERPHIVE order-flow worker: a shallow embedding and its properties

    The definitions below follow [src/perphive-worker/src/index.ts]
    (the Book Analyzer, Level Detector, Whale Consensus Scorer, Trend
    Tracker, Signal Synthesizer and the [OrderFlowDO] actor).

    Numbers.  A JavaScript [number] is modelled by [num]: an exact rational,
    one of the two infinities, or NaN.  The special values follow IEEE-754
    (0/0 is NaN, x/0 is an infinity, every comparison with NaN is false).
    Two things are abstracted: rounding of finite results (arithmetic on
    finite values is exact, so a literal such as 0.6 is the rational 3/5,
    and a finite sum never overflows to an infinity as a double beyond
    about 1.8e308 does), and the sign of zero.  Statements whose truth
    depends on a sum of sizes staying finite bound the sizes ([sizeBound])
    and show that the sums stay below the range of a double.  Timestamps
    are integers (milliseconds).
    [Date.now()] is an explicit argument of every function that reads the
    clock.  The venue adapters are outside the model: their results, an
    order book or [null] per venue and asset, are inputs ([Fetched]). *)

From Stdlib Require Import QArith Qround Qabs Lqa ZArith Lia.
From Stdlib Require Import Sorted.
From stdpp Require Import gmap strings list.

Open Scope Q_scope.

(** ** JavaScript numbers *)

Module JS.

Inductive num : Type :=
| Fin (q : Q)
| PInf
| NInf
| NaN.

Definition zero : num := Fin 0.
Definition ofZ (z : Z) : num := Fin (inject_Z z).

Definition neg (a : num) : num :=
  match a with
  | Fin x => Fin (- x)
  | PInf => NInf
  | NInf => PInf
  | NaN => NaN
  end.

Definition add (a b : num) : num :=
  match a, b with
  | NaN, _ | _, NaN => NaN
  | Fin x, Fin y => Fin (x + y)
  | PInf, NInf | NInf, PInf => NaN
  | PInf, _ | _, PInf => PInf
  | NInf, _ | _, NInf => NInf
  end.

Definition sub (a b : num) : num := add a (neg b).

(** Sign of a number: [Lt] negative, [Eq] zero (or NaN), [Gt] positive. *)
Definition sign (a : num) : comparison :=
  match a with
  | Fin x => x ?= 0
  | PInf => Gt
  | NInf => Lt
  | NaN => Eq
  end.

Definition mul (a b : num) : num :=
  match a, b with
  | NaN, _ | _, NaN => NaN
  | Fin x, Fin y => Fin (x * y)
  | _, _ =>
      match sign a, sign b with
      | Eq, _ | _, Eq => NaN                (* 0 * Infinity *)
      | Lt, Lt | Gt, Gt => PInf
      | _, _ => NInf
      end
  end.

Definition div (a b : num) : num :=
  match a, b with
  | NaN, _ | _, NaN => NaN
  | Fin x, Fin y =>
      if Qeq_bool y 0
      then match x ?= 0 with
           | Eq => NaN                      (* 0 / 0 *)
           | Gt => PInf
           | Lt => NInf
           end
      else Fin (x / y)
  | Fin _, (PInf | NInf) => Fin 0
  | PInf, Fin y => match y ?= 0 with Lt => NInf | _ => PInf end
  | NInf, Fin y => match y ?= 0 with Lt => PInf | _ => NInf end
  | _, _ => NaN                             (* Infinity / Infinity *)
  end.

Definition Qlt_bool (x y : Q) : bool :=
  match x ?= y with Lt => true | _ => false end.

(** [a < b]; false as soon as one side is NaN. *)
Definition lt (a b : num) : bool :=
  match a, b with
  | NaN, _ | _, NaN => false
  | Fin x, Fin y => Qlt_bool x y
  | NInf, (Fin _ | PInf) => true
  | Fin _, PInf => true
  | _, _ => false
  end.

Definition gt (a b : num) : bool := lt b a.

(** [a === b] on numbers. *)
Definition eq (a b : num) : bool :=
  match a, b with
  | Fin x, Fin y => Qeq_bool x y
  | PInf, PInf | NInf, NInf => true
  | _, _ => false
  end.

Definition ge (a b : num) : bool := gt a b || eq a b.
Definition le (a b : num) : bool := lt a b || eq a b.

(** [Math.abs]. *)
Definition abs (a : num) : num :=
  match a with
  | Fin x => Fin (Qabs x)
  | PInf | NInf => PInf
  | NaN => NaN
  end.

(** [Math.min] of two arguments. *)
Definition min (a b : num) : num :=
  match a, b with
  | NaN, _ | _, NaN => NaN
  | _, _ => if lt b a then b else a
  end.

(** [Math.round]: the nearest integer, halves towards +infinity. *)
Definition round (a : num) : num :=
  match a with
  | Fin x => ofZ (Qfloor (x + (1 # 2)))
  | _ => a
  end.

(** Truncation towards zero, used by [%]. *)
Definition Qtrunc (x : Q) : Z := Z.quot (Qnum x) (Zpos (Qden x)).

(** The remainder operator [a % b]; the result has the sign of [a]. *)
Definition rem (a b : num) : num :=
  match a, b with
  | Fin x, Fin y =>
      if Qeq_bool y 0 then NaN else Fin (x - y * inject_Z (Qtrunc (x / y)))
  | Fin x, (PInf | NInf) => Fin x
  | _, _ => NaN
  end.

(** Truthiness of a number: 0 and NaN are falsy. *)
Definition truthy (a : num) : bool :=
  match a with
  | Fin x => negb (Qeq_bool x 0)
  | PInf | NInf => true
  | NaN => false
  end.

(** [a || b] where [a] may be [undefined]. *)
Definition or_else (a : option num) (b : num) : num :=
  match a with
  | Some x => if truthy x then x else b
  | None => b
  end.

(** [xs.reduce((s, x) => s + x, 0)]. *)
Definition sum (xs : list num) : num := fold_left add xs zero.

(** SameValueZero, the equality a [Map] uses on its keys: NaN equals NaN. *)
Definition sameb (a b : num) : bool :=
  match a, b with
  | Fin x, Fin y => Qeq_bool x y
  | PInf, PInf | NInf, NInf | NaN, NaN => true
  | _, _ => false
  end.

(** [a] is a finite value in the closed interval [lo, hi]. *)
Definition within (lo hi : Q) (a : num) : Prop :=
  match a with
  | Fin x => lo <= x <= hi
  | _ => False
  end.

End JS.

Abbreviation num := JS.num.
Abbreviation Fin := JS.Fin.
Abbreviation NaN := JS.NaN.

(** ** Data model (the interfaces of index.ts) *)

Record OrderBook : Type := mkOrderBook {
  bids : list (num * num);   (* [price, size] *)
  asks : list (num * num);
  ob_timestamp : Z
}.

Record ExchangeData : Type := mkExchangeData {
  price : num;
  imbalance : num;
  bidDepth : num;
  askDepth : num;
  ed_timestamp : Z
}.

Inductive WhaleSide : Type := BID | ASK.

Record WhaleOrder : Type := mkWhaleOrder {
  exchange : string;
  side : WhaleSide;
  wo_price : num;
  wo_size : num
}.

Record Analysis : Type := mkAnalysis {
  an_imbalance : num;
  an_bidDepth : num;
  an_askDepth : num;
  midPrice : num;
  whales : list WhaleOrder
}.

(** ** Book Analyzer ([analyzeOrderBook], lines 547-577) *)

(** [book.bids.slice(0, 10).reduce((sum, [_, size]) => sum + size, 0)] *)
Definition depth (levels : list (num * num)) : num :=
  JS.sum (map snd (take 10 levels)).

(** [for (const [price, size] of levels.slice(0, 20)) if (size >= threshold) whales.push(...)] *)
Definition whalesOf (s : WhaleSide) (threshold : num) (levels : list (num * num))
  : list WhaleOrder :=
  map (fun o => mkWhaleOrder "" s (fst o) (snd o))
      (List.filter (fun o => JS.ge (snd o) threshold) (take 20 levels)).

Definition analyzeOrderBook (book : OrderBook) (whaleThreshold : num) : Analysis :=
  let bidDepth := depth (bids book) in
  let askDepth := depth (asks book) in
  let imbalance := JS.div (JS.sub bidDepth askDepth) (JS.add bidDepth askDepth) in
  let midPrice :=
    match bids book, asks book with
    | b :: _, a :: _ => JS.div (JS.add (fst b) (fst a)) (Fin 2)
    | _, _ => JS.zero
    end in
  mkAnalysis imbalance bidDepth askDepth midPrice
    (whalesOf BID whaleThreshold (bids book) ++ whalesOf ASK whaleThreshold (asks book)).

(** ** Level Detector ([detectLevels], lines 580-675) *)

Inductive BookSide : Type := SideBids | SideAsks.
Inductive Venue : Type := Hyperliquid | OKX | Kraken.
Inductive LevelType : Type := wall | round | cluster.

Record SupportLevel : Type := mkSupportLevel {
  sl_price : num;
  sl_strength : num;
  sl_type : LevelType;
  totalSize : num;
  exchangeCount : nat;
  isRoundNumber : bool
}.

(** The value type of the [levels] map. *)
Record Bucket : Type := mkBucket {
  b_size : num;
  hasHL : bool;
  hasOKX : bool;
  hasKraken : bool
}.

Definition freshBucket : Bucket := mkBucket JS.zero false false false.

(** A JavaScript [Map<number, V>]: entries in insertion order; [set] on a
    key that is present replaces the value and keeps the entry's place. *)
Fixpoint map_get {V : Type} (k : num) (m : list (num * V)) : option V :=
  match m with
  | [] => None
  | (k', v) :: m' => if JS.sameb k' k then Some v else map_get k m'
  end.

Fixpoint map_set {V : Type} (k : num) (v : V) (m : list (num * V)) : list (num * V) :=
  match m with
  | [] => [(k, v)]
  | (k', v') :: m' =>
      if JS.sameb k' k then (k', v) :: m' else (k', v') :: map_set k v m'
  end.

Definition roundToOf (asset : string) : num :=
  if String.eqb asset "BTC" then Fin 100 else Fin 10.

Definition sizeThresholdOf (asset : string) : num :=
  if String.eqb asset "BTC" then Fin 10 else Fin 100.

(** [Math.round(price / roundTo) * roundTo] *)
Definition roundedPrice (roundTo price : num) : num :=
  JS.mul (JS.round (JS.div price roundTo)) roundTo.

Definition markVenue (v : Venue) (b : Bucket) : Bucket :=
  match v with
  | Hyperliquid => mkBucket (b_size b) true (hasOKX b) (hasKraken b)
  | OKX => mkBucket (b_size b) (hasHL b) true (hasKraken b)
  | Kraken => mkBucket (b_size b) (hasHL b) (hasOKX b) true
  end.

(** One iteration of a [for (const [price, size] of orders)] loop. *)
Definition addOrder (roundTo : num) (v : Venue)
    (levels : list (num * Bucket)) (o : num * num) : list (num * Bucket) :=
  let key := roundedPrice roundTo (fst o) in
  let existing := default freshBucket (map_get key levels) in
  let existing := mkBucket (JS.add (b_size existing) (snd o))
                           (hasHL existing) (hasOKX existing) (hasKraken existing) in
  map_set key (markVenue v existing) levels.

Definition sideOrders (s : BookSide) (book : OrderBook) : list (num * num) :=
  match s with SideBids => bids book | SideAsks => asks book end.

(** [if (book) { ... for ... }] *)
Definition addBook (roundTo : num) (s : BookSide) (v : Venue)
    (book : option OrderBook) (levels : list (num * Bucket)) : list (num * Bucket) :=
  match book with
  | Some b => fold_left (addOrder roundTo v) (sideOrders s b) levels
  | None => levels
  end.

Definition collectLevels (hlBook okxBook krakenBook : option OrderBook)
    (s : BookSide) (asset : string) : list (num * Bucket) :=
  let roundTo := roundToOf asset in
  addBook roundTo s Kraken krakenBook
    (addBook roundTo s OKX okxBook
       (addBook roundTo s Hyperliquid hlBook [])).

(** [book?.bids[0]?.[0]] *)
Definition bestBid (book : option OrderBook) : option num :=
  match book with
  | Some b => match bids b with o :: _ => Some (fst o) | [] => None end
  | None => None
  end.

(** [hlBook?.bids[0]?.[0] || okxBook?.bids[0]?.[0] || krakenBook?.bids[0]?.[0] || 0] *)
Definition referencePrice (hlBook okxBook krakenBook : option OrderBook) : num :=
  JS.or_else (bestBid hlBook)
    (JS.or_else (bestBid okxBook)
       (JS.or_else (bestBid krakenBook) JS.zero)).

(** [midPrice > 0 && Math.abs(price - midPrice) / midPrice > 0.05] *)
Definition tooFar (midPrice price : num) : bool :=
  JS.gt midPrice JS.zero &&
  JS.gt (JS.div (JS.abs (JS.sub price midPrice)) midPrice) (Fin (5 # 100)).

Definition b2n (b : bool) : nat := if b then 1%nat else 0%nat.

(** The body of the scoring loop for one retained bucket. *)
Definition scoreLevel (asset : string) (price : num) (data : Bucket) : SupportLevel :=
  let strength := JS.zero in
  let sizeThreshold := sizeThresholdOf asset in
  let strength :=
    JS.add strength
      (JS.min (Fin 50) (JS.mul (JS.div (b_size data) sizeThreshold) (Fin 50))) in
  let exchangeCount := (b2n (hasHL data) + b2n (hasOKX data) + b2n (hasKraken data))%nat in
  let strength := if (2 <=? exchangeCount)%nat then JS.add strength (Fin 15) else strength in
  let strength := if (exchangeCount =? 3)%nat then JS.add strength (Fin 15) else strength in
  let isRoundNumber :=
    if String.eqb asset "BTC"
    then JS.eq (JS.rem price (Fin 1000)) JS.zero
    else JS.eq (JS.rem price (Fin 100)) JS.zero in
  let strength := if isRoundNumber then JS.add strength (Fin 30) else strength in
  let type :=
    if JS.ge (b_size data) (JS.mul sizeThreshold (Fin 2)) then wall
    else if isRoundNumber then round
    else if (2 <=? exchangeCount)%nat then cluster
    else cluster in
  mkSupportLevel price
    (JS.min (Fin 100) (JS.round strength))
    type
    (JS.div (JS.round (JS.mul (b_size data) (Fin 100))) (Fin 100))
    exchangeCount
    isRoundNumber.

(** The scoring loop: buckets further than 5% from the reference price are
    skipped, the others are scored in the map's iteration order. *)
Definition scoreLevels (asset : string) (midPrice : num)
    (levels : list (num * Bucket)) : list SupportLevel :=
  map (fun e => scoreLevel asset (fst e) (snd e))
      (List.filter (fun e => negb (tooFar midPrice (fst e))) levels).

(** [result.sort((a, b) => b.strength - a.strength)]: a stable sort; [a] is
    moved behind [b] only when the comparator is positive (a NaN comparator
    counts as 0). *)
Definition compareStrength (a b : SupportLevel) : num :=
  JS.sub (sl_strength b) (sl_strength a).

Fixpoint insertLevel (x : SupportLevel) (l : list SupportLevel) : list SupportLevel :=
  match l with
  | [] => [x]
  | y :: l' =>
      if JS.gt (compareStrength x y) JS.zero then y :: insertLevel x l' else x :: l
  end.

Fixpoint sortByStrength (l : list SupportLevel) : list SupportLevel :=
  match l with
  | [] => []
  | x :: l' => insertLevel x (sortByStrength l')
  end.

Definition detectLevels (hlBook okxBook krakenBook : option OrderBook)
    (s : BookSide) (asset : string) : list SupportLevel :=
  let levels := collectLevels hlBook okxBook krakenBook s asset in
  let midPrice := referencePrice hlBook okxBook krakenBook in
  take 5 (sortByStrength (scoreLevels asset midPrice levels)).

(** ** Whale Consensus Scorer ([calculateWhaleConsensus], lines 678-732) *)

Inductive Bias : Type := BiasLONG | BiasSHORT | BiasNEUTRAL.

Record WhaleConsensus : Type := mkWhaleConsensus {
  signal : Bias;
  wc_bidSize : num;
  wc_askSize : num;
  bidCount : nat;
  askCount : nat;
  exchangesWithBids : nat;
  exchangesWithAsks : nat;
  wc_strength : num
}.

Definition isBid (w : WhaleOrder) : bool :=
  match side w with BID => true | ASK => false end.
Definition isAsk (w : WhaleOrder) : bool :=
  match side w with ASK => true | BID => false end.

Definition whaleBids (whaleOrders : list WhaleOrder) : list WhaleOrder :=
  List.filter isBid whaleOrders.
Definition whaleAsks (whaleOrders : list WhaleOrder) : list WhaleOrder :=
  List.filter isAsk whaleOrders.

(** [ws.reduce((sum, w) => sum + w.size, 0)] *)
Definition whaleSize (ws : list WhaleOrder) : num := JS.sum (map wo_size ws).

(** [new Set(ws.map(w => w.exchange)).size] *)
Definition venueCount (ws : list WhaleOrder) : nat :=
  size (list_to_set (map exchange ws) : gset string).

(** [bidSize / totalSize], computed by the source only when [totalSize > 0]. *)
Definition bidRatio (whaleOrders : list WhaleOrder) : num :=
  let bidSize := whaleSize (whaleBids whaleOrders) in
  let askSize := whaleSize (whaleAsks whaleOrders) in
  JS.div bidSize (JS.add bidSize askSize).

Definition bonus3 (n : nat) : num := if (3 <=? n)%nat then Fin 10 else Fin 0.

Definition calculateWhaleConsensus (whaleOrders : list WhaleOrder) : WhaleConsensus :=
  let bids := whaleBids whaleOrders in
  let asks := whaleAsks whaleOrders in
  let bidSize := whaleSize bids in
  let askSize := whaleSize asks in
  let exchangesWithBids := venueCount bids in
  let exchangesWithAsks := venueCount asks in
  let totalSize := JS.add bidSize askSize in
  let '(signal, strength) :=
    if JS.gt totalSize JS.zero then
      let bidRatio := JS.div bidSize totalSize in
      let '(signal, strength) :=
        if JS.gt bidRatio (Fin (6 # 10)) && (2 <=? exchangesWithBids)%nat then
          (BiasLONG,
           JS.min (Fin 100) (JS.round
             (JS.add (JS.add (JS.mul (JS.sub bidRatio (Fin (5 # 10))) (Fin 100))
                             (JS.mul (JS.ofZ (Z.of_nat exchangesWithBids)) (Fin 15)))
                     (bonus3 (length bids)))))
        else if JS.lt bidRatio (Fin (4 # 10)) && (2 <=? exchangesWithAsks)%nat then
          (BiasSHORT,
           JS.min (Fin 100) (JS.round
             (JS.add (JS.add (JS.mul (JS.sub (Fin (5 # 10)) bidRatio) (Fin 100))
                             (JS.mul (JS.ofZ (Z.of_nat exchangesWithAsks)) (Fin 15)))
                     (bonus3 (length asks)))))
        else (BiasNEUTRAL, JS.zero) in
      let strength :=
        match signal with
        | BiasLONG =>
            if (exchangesWithBids =? 3)%nat
            then JS.min (Fin 100) (JS.add strength (Fin 15)) else strength
        | _ => strength
        end in
      let strength :=
        match signal with
        | BiasSHORT =>
            if (exchangesWithAsks =? 3)%nat
            then JS.min (Fin 100) (JS.add strength (Fin 15)) else strength
        | _ => strength
        end in
      (signal, strength)
    else (BiasNEUTRAL, JS.zero) in
  mkWhaleConsensus signal
    (JS.div (JS.round (JS.mul bidSize (Fin 100))) (Fin 100))
    (JS.div (JS.round (JS.mul askSize (Fin 100))) (Fin 100))
    (length bids) (length asks)
    exchangesWithBids exchangesWithAsks
    strength.

(** ** Signal Synthesizer ([generateSignal], lines 735-816) *)

Inductive Action : Type := LONG | SHORT | WAIT.
Inductive Trend : Type := BULLISH | BEARISH | NEUTRAL.

Record Signal : Type := mkSignal {
  asset : string;
  action : Action;
  confidence : num;
  hyperliquid : ExchangeData;
  okx : ExchangeData;
  kraken : ExchangeData;
  crossExchangeSpread : num;
  combinedImbalance : num;
  imbalance15m : num;
  trend : Trend;
  whaleOrders : list WhaleOrder;
  whaleConsensus : WhaleConsensus;
  supportLevels : list SupportLevel;
  resistanceLevels : list SupportLevel;
  timestamp : Z
}.

(** [xs.reduce(...) / xs.length], 0 for the empty list. *)
Definition averageOr0 (xs : list num) : num :=
  match xs with
  | [] => JS.zero
  | _ => JS.div (JS.sum xs) (JS.ofZ (Z.of_nat (length xs)))
  end.

Definition isAction (a b : Action) : bool :=
  match a, b with
  | LONG, LONG | SHORT, SHORT | WAIT, WAIT => true
  | _, _ => false
  end.

Definition isTrend (a b : Trend) : bool :=
  match a, b with
  | BULLISH, BULLISH | BEARISH, BEARISH | NEUTRAL, NEUTRAL => true
  | _, _ => false
  end.

(** [data && ((action === 'LONG' && d.imbalance > 0) || (action === 'SHORT' && d.imbalance < 0))] *)
Definition agrees (act : Action) (data : option ExchangeData) : bool :=
  match data with
  | Some d =>
      (isAction act LONG && JS.gt (imbalance d) JS.zero)
      || (isAction act SHORT && JS.lt (imbalance d) JS.zero)
  | None => false
  end.

(** [generateSignal]; [now] is the value [Date.now()] returns inside it. *)
Definition generateSignal (now : Z) (asset : string)
    (hlData okxData krakenData : option ExchangeData)
    (whaleOrders : list WhaleOrder)
    (supportLevels resistanceLevels : list SupportLevel)
    (imbalance15m : num) (trend : Trend) : Signal :=
  let emptyData := mkExchangeData JS.zero JS.zero JS.zero JS.zero now in
  let hl := default emptyData hlData in
  let okx := default emptyData okxData in
  let kraken := default emptyData krakenData in
  let spread :=
    if JS.gt (price hl) JS.zero && JS.gt (price okx) JS.zero
    then JS.mul (JS.div (JS.sub (price hl) (price okx)) (price okx)) (Fin 10000)
    else JS.zero in
  let validExchanges := omap id [hlData; okxData; krakenData] in
  let combinedImbalance := averageOr0 (map imbalance validExchanges) in
  let '(action, confidence) :=
    if isTrend trend BULLISH && JS.gt imbalance15m (Fin (10 # 100)) then
      (LONG, JS.min (Fin 95) (JS.add (Fin 50) (JS.mul imbalance15m (Fin 150))))
    else if isTrend trend BEARISH && JS.lt imbalance15m (Fin (-10 # 100)) then
      (SHORT, JS.min (Fin 95) (JS.add (Fin 50) (JS.mul (JS.abs imbalance15m) (Fin 150))))
    else (WAIT, JS.mul (JS.abs imbalance15m) (Fin 100)) in
  let confidence :=
    if negb (isAction action WAIT) then
      let confidence :=
        if (isAction action LONG && JS.gt combinedImbalance (Fin (1 # 10)))
           || (isAction action SHORT && JS.lt combinedImbalance (Fin (-1 # 10)))
        then JS.min (Fin 95) (JS.add confidence (Fin 10)) else confidence in
      let agreeing :=
        (b2n (agrees action hlData) + b2n (agrees action okxData)
         + b2n (agrees action krakenData))%nat in
      let confidence :=
        if (2 <=? agreeing)%nat
        then JS.min (Fin 95) (JS.add confidence (Fin 10)) else confidence in
      if (agreeing =? 3)%nat
      then JS.min (Fin 95) (JS.add confidence (Fin 5)) else confidence
    else confidence in
  let whaleConsensus := calculateWhaleConsensus whaleOrders in
  mkSignal asset action (JS.round confidence) hl okx kraken
    (JS.div (JS.round (JS.mul spread (Fin 10))) (Fin 10))
    (JS.div (JS.round (JS.mul combinedImbalance (Fin 1000))) (Fin 1000))
    (JS.div (JS.round (JS.mul imbalance15m (Fin 1000))) (Fin 1000))
    trend whaleOrders whaleConsensus supportLevels resistanceLevels now.

(** ** One fetch-and-synthesize pass ([fetchAllData], lines 819-922) *)

(** The six results of the venue adapters ([null] is [None]). *)
Record Fetched : Type := mkFetched {
  hlBtc : option OrderBook;
  hlEth : option OrderBook;
  okxBtc : option OrderBook;
  okxEth : option OrderBook;
  krakenBtc : option OrderBook;
  krakenEth : option OrderBook
}.

Record SignalPair : Type := mkSignalPair { sp_btc : Signal; sp_eth : Signal }.

(** [book ? analyzeOrderBook(book, threshold) : null] *)
Definition analyze (book : option OrderBook) (threshold : num) : option Analysis :=
  option_map (fun b => analyzeOrderBook b threshold) book.

(** [analysis ? { price: analysis.midPrice, ..., timestamp: book!.timestamp } : null] *)
Definition exchangeData (book : option OrderBook) (analysis : option Analysis)
  : option ExchangeData :=
  match analysis, book with
  | Some a, Some b =>
      Some (mkExchangeData (midPrice a) (an_imbalance a) (an_bidDepth a) (an_askDepth a)
                           (ob_timestamp b))
  | _, _ => None
  end.

(** [if (analysis) analysis.whales.forEach(w => { w.exchange = name; out.push(w); })] *)
Definition taggedWhales (name : string) (analysis : option Analysis) : list WhaleOrder :=
  match analysis with
  | Some a => map (fun w => mkWhaleOrder name (side w) (wo_price w) (wo_size w)) (whales a)
  | None => []
  end.

Definition collectWhales (hl okx kraken : option Analysis) : list WhaleOrder :=
  taggedWhales "Hyperliquid" hl ++ taggedWhales "OKX" okx ++ taggedWhales "Kraken" kraken.

(** [fetchAllData]: the REST fallback; [generateSignal] is called with its
    default arguments [imbalance15m = 0] and [trend = 'NEUTRAL']. [tBtc] and
    [tEth] are the clock readings of the two [generateSignal] calls. *)
Definition fetchAllData (f : Fetched) (tBtc tEth : Z) : SignalPair :=
  let hlBtcAnalysis := analyze (hlBtc f) (Fin 5) in
  let hlEthAnalysis := analyze (hlEth f) (Fin 50) in
  let okxBtcAnalysis := analyze (okxBtc f) (Fin 5) in
  let okxEthAnalysis := analyze (okxEth f) (Fin 50) in
  let krakenBtcAnalysis := analyze (krakenBtc f) (Fin 5) in
  let krakenEthAnalysis := analyze (krakenEth f) (Fin 50) in
  let btcWhales := collectWhales hlBtcAnalysis okxBtcAnalysis krakenBtcAnalysis in
  let ethWhales := collectWhales hlEthAnalysis okxEthAnalysis krakenEthAnalysis in
  let btcSupport := detectLevels (hlBtc f) (okxBtc f) (krakenBtc f) SideBids "BTC" in
  let btcResistance := detectLevels (hlBtc f) (okxBtc f) (krakenBtc f) SideAsks "BTC" in
  let ethSupport := detectLevels (hlEth f) (okxEth f) (krakenEth f) SideBids "ETH" in
  let ethResistance := detectLevels (hlEth f) (okxEth f) (krakenEth f) SideAsks "ETH" in
  mkSignalPair
    (generateSignal tBtc "BTC"
       (exchangeData (hlBtc f) hlBtcAnalysis) (exchangeData (okxBtc f) okxBtcAnalysis)
       (exchangeData (krakenBtc f) krakenBtcAnalysis)
       btcWhales btcSupport btcResistance JS.zero NEUTRAL)
    (generateSignal tEth "ETH"
       (exchangeData (hlEth f) hlEthAnalysis) (exchangeData (okxEth f) okxEthAnalysis)
       (exchangeData (krakenEth f) krakenEthAnalysis)
       ethWhales ethSupport ethResistance JS.zero NEUTRAL).

(** ** Trend Tracker ([calculateTrend], lines 932-962) *)

Record ImbalanceEntry : Type := mkImbalanceEntry {
  ie_timestamp : Z;
  btcImbalance : num;
  ethImbalance : num
}.

Inductive AssetKey : Type := btc | eth.

(** [asset === 'btc' ? h.btcImbalance : h.ethImbalance] *)
Definition reading (a : AssetKey) (h : ImbalanceEntry) : num :=
  match a with btc => btcImbalance h | eth => ethImbalance h end.

(** [history.filter(h => h.timestamp > now - 15 * 60 * 1000)] *)
Definition recentWindow (now : Z) (history : list ImbalanceEntry) : list ImbalanceEntry :=
  List.filter (fun h => (now - 15 * 60 * 1000 <? ie_timestamp h)%Z) history.

Definition countOf (p : num -> bool) (a : AssetKey) (l : list ImbalanceEntry) : nat :=
  length (List.filter (fun h => p (reading a h)) l).

(** [calculateTrend]; [now] is the value of [Date.now()] inside it. *)
Definition calculateTrend (now : Z) (history : list ImbalanceEntry) (a : AssetKey)
  : num * Trend :=
  match history with
  | [] => (JS.zero, NEUTRAL)
  | _ =>
      let recent := recentWindow now history in
      match recent with
      | [] => (JS.zero, NEUTRAL)
      | _ =>
          let sum := fold_left (fun s h => JS.add s (reading a h)) recent JS.zero in
          let avg := JS.div sum (JS.ofZ (Z.of_nat (length recent))) in
          let bullishCount := countOf (fun x => JS.gt x (Fin (5 # 100))) a recent in
          let bearishCount := countOf (fun x => JS.lt x (Fin (-5 # 100))) a recent in
          let totalCount := length recent in
          let ratio (n : nat) := JS.div (JS.ofZ (Z.of_nat n)) (JS.ofZ (Z.of_nat totalCount)) in
          if JS.gt (ratio bullishCount) (Fin (6 # 10)) && JS.gt avg (Fin (5 # 100))
          then (avg, BULLISH)
          else if JS.gt (ratio bearishCount) (Fin (6 # 10)) && JS.lt avg (Fin (-5 # 100))
          then (avg, BEARISH)
          else (avg, NEUTRAL)
      end
  end.

(** ** The aggregation actor ([OrderFlowDO], lines 965-1185) *)

(** A WebSocket is identified by a number. *)
Record OrderFlowDO : Type := mkOrderFlowDO {
  sessions : gset nat;
  lastData : option SignalPair;
  imbalanceHistory : list ImbalanceEntry
}.

(** The successive readings of [Date.now()] during one [fetchWithTrend]:
    when the history entry is recorded, in the two [calculateTrend] calls
    and in the two [generateSignal] calls. *)
Record CycleClock : Type := mkCycleClock {
  t_record : Z;
  t_trend_btc : Z;
  t_trend_eth : Z;
  t_signal_btc : Z;
  t_signal_eth : Z
}.

(** [[a?.imbalance, b?.imbalance, c?.imbalance].filter(i => i !== undefined)] *)
Definition definedImbalances (hl okx kraken : option Analysis) : list num :=
  omap (option_map an_imbalance) [hl; okx; kraken].

(** [fetchWithTrend] (lines 992-1117): returns the new signal pair and the updated
    [this.imbalanceHistory]; it touches no other field of the actor. *)
Definition fetchWithTrend (f : Fetched) (clk : CycleClock)
    (history : list ImbalanceEntry) : SignalPair * list ImbalanceEntry :=
  let hlBtcAnalysis := analyze (hlBtc f) (Fin 5) in
  let hlEthAnalysis := analyze (hlEth f) (Fin 50) in
  let okxBtcAnalysis := analyze (okxBtc f) (Fin 5) in
  let okxEthAnalysis := analyze (okxEth f) (Fin 50) in
  let krakenBtcAnalysis := analyze (krakenBtc f) (Fin 5) in
  let krakenEthAnalysis := analyze (krakenEth f) (Fin 50) in
  let btcImbalance :=
    averageOr0 (definedImbalances hlBtcAnalysis okxBtcAnalysis krakenBtcAnalysis) in
  let ethImbalance :=
    averageOr0 (definedImbalances hlEthAnalysis okxEthAnalysis krakenEthAnalysis) in
  let now := t_record clk in
  let history := history ++ [mkImbalanceEntry now btcImbalance ethImbalance] in
  let history :=
    List.filter (fun h => (now - 20 * 60 * 1000 <? ie_timestamp h)%Z) history in
  let btcTrend := calculateTrend (t_trend_btc clk) history btc in
  let ethTrend := calculateTrend (t_trend_eth clk) history eth in
  let btcWhales := collectWhales hlBtcAnalysis okxBtcAnalysis krakenBtcAnalysis in
  let ethWhales := collectWhales hlEthAnalysis okxEthAnalysis krakenEthAnalysis in
  let btcSupport := detectLevels (hlBtc f) (okxBtc f) (krakenBtc f) SideBids "BTC" in
  let btcResistance := detectLevels (hlBtc f) (okxBtc f) (krakenBtc f) SideAsks "BTC" in
  let ethSupport := detectLevels (hlEth f) (okxEth f) (krakenEth f) SideBids "ETH" in
  let ethResistance := detectLevels (hlEth f) (okxEth f) (krakenEth f) SideAsks "ETH" in
  (mkSignalPair
     (generateSignal (t_signal_btc clk) "BTC"
        (exchangeData (hlBtc f) hlBtcAnalysis) (exchangeData (okxBtc f) okxBtcAnalysis)
        (exchangeData (krakenBtc f) krakenBtcAnalysis)
        btcWhales btcSupport btcResistance (fst btcTrend) (snd btcTrend))
     (generateSignal (t_signal_eth clk) "ETH"
        (exchangeData (hlEth f) hlEthAnalysis) (exchangeData (okxEth f) okxEthAnalysis)
        (exchangeData (krakenEth f) krakenEthAnalysis)
        ethWhales ethSupport ethResistance (fst ethTrend) (snd ethTrend)),
   history).

(** [broadcast] (lines 1119-1128): every registered socket is sent the message; a socket whose
    [send] throws ([sendOk ws = false]) is deleted from [this.sessions].
    Returns the new actor state and the set of sockets that were served. *)
Definition broadcast (sendOk : nat -> bool) (data : SignalPair) (st : OrderFlowDO)
  : OrderFlowDO * gset nat :=
  let alive := filter (fun ws => sendOk ws = true) (sessions st) in
  (mkOrderFlowDO alive (lastData st) (imbalanceHistory st), alive).

Inductive Request : Type :=
| UpgradeWebSocket (server : nat)    (* [Upgrade: websocket]; [server] is the new socket *)
| Rest.

Inductive Response : Type :=
| SwitchingProtocols (pushed : option SignalPair)   (* status 101 *)
| Json (body : SignalPair).

(** [OrderFlowDO.fetch] (lines 1130-1169).  [f], [tBtc] and [tEth] are what [fetchAllData]
    would observe (venue results and clock) if it is called. *)
Definition OrderFlowDO_fetch (req : Request) (f : Fetched) (tBtc tEth : Z)
    (st : OrderFlowDO) : Response * OrderFlowDO :=
  match req with
  | UpgradeWebSocket server =>
      (SwitchingProtocols (lastData st),
       mkOrderFlowDO ({[ server ]} ∪ sessions st) (lastData st) (imbalanceHistory st))
  | Rest =>
      match lastData st with
      | Some d => (Json d, st)
      | None =>
          let data := fetchAllData f tBtc tEth in
          (Json data, mkOrderFlowDO (sessions st) (Some data) (imbalanceHistory st))
      end
  end.

(** *** The polling loop ([startPolling], lines 979-990) *)

Inductive Outcome (A : Type) : Type :=
| Returned (a : A)
| Thrown (e : string).
Arguments Returned {A} a.
Arguments Thrown {A} e.

Inductive Event : Type :=
| EvBroadcast (data : SignalPair) (served : gset nat)
| EvConsoleError (e : string)
| EvSleep (ms : Z).

(** What one cycle observes from outside the actor. *)
Record CycleInput : Type := mkCycleInput {
  ci_fetched : Fetched;
  ci_clock : CycleClock;
  ci_sendOk : nat -> bool
}.

Section Polling.

(** The awaited call [this.fetchWithTrend()]: it either returns a signal
    pair or throws; in both cases it may have updated the history, the
    only field it writes. *)
Variable cycleBody :
  CycleInput -> list ImbalanceEntry -> Outcome SignalPair * list ImbalanceEntry.

(** [JSON.stringify(data)], the first statement of [broadcast] and the only
    one that is not inside the [try] of the send loop: it returns the
    message or throws. *)
Variable stringify : SignalPair -> Outcome unit.

(** The call [this.broadcast(this.lastData)]: a throw of [JSON.stringify]
    leaves [broadcast] before any socket is touched; the send loop itself
    cannot throw, every [send] having its own [try]. *)
Definition broadcastCall (sendOk : nat -> bool) (data : SignalPair) (st : OrderFlowDO)
  : Outcome (OrderFlowDO * gset nat) :=
  match stringify data with
  | Returned _ => Returned (broadcast sendOk data st)
  | Thrown e => Thrown e
  end.

(** One iteration of [while (true) { try { ... } catch (e) { ... } await sleep(2000) }].
    The [try] block has two statements: the assignment
    [this.lastData = await this.fetchWithTrend()] and the call of [broadcast];
    a throw of the second one finds [this.lastData] already assigned. *)
Definition pollCycle (inp : CycleInput) (st : OrderFlowDO) : OrderFlowDO * list Event :=
  match cycleBody inp (imbalanceHistory st) with
  | (Returned data, h) =>
      let st1 := mkOrderFlowDO (sessions st) (Some data) h in
      match broadcastCall (ci_sendOk inp) data st1 with
      | Returned (st2, served) => (st2, [EvBroadcast data served; EvSleep 2000])
      | Thrown e => (st1, [EvConsoleError e; EvSleep 2000])
      end
  | (Thrown e, h) =>
      (mkOrderFlowDO (sessions st) (lastData st) h,
       [EvConsoleError e; EvSleep 2000])
  end.

(** The first [length inputs] iterations of [startPolling]. *)
Fixpoint startPolling (inputs : list CycleInput) (st : OrderFlowDO)
  : OrderFlowDO * list Event :=
  match inputs with
  | [] => (st, [])
  | inp :: rest =>
      let '(st1, ev1) := pollCycle inp st in
      let '(st2, ev2) := startPolling rest st1 in
      (st2, ev1 ++ ev2)
  end.

End Polling.

(** The cycle body of the source: [fetchWithTrend] has no [throw] of its own. *)
Definition fetchWithTrendBody (inp : CycleInput) (history : list ImbalanceEntry)
  : Outcome SignalPair * list ImbalanceEntry :=
  let '(data, h) := fetchWithTrend (ci_fetched inp) (ci_clock inp) history in
  (Returned data, h).

(** [JSON.stringify] on a pair built by [fetchWithTrend]: a finite tree of
    numbers, strings, booleans, arrays and plain objects, on which it
    returns. *)
Definition stringifySignals (data : SignalPair) : Outcome unit := Returned tt.

(** *** WebSocket callbacks ([webSocketClose], [webSocketError], lines 1178-1184) *)

(** [this.sessions.delete(ws)] *)
Definition webSocketClose (ws : nat) (st : OrderFlowDO) : OrderFlowDO :=
  mkOrderFlowDO (sessions st ∖ {[ ws ]}) (lastData st) (imbalanceHistory st).

Definition webSocketError (ws : nat) (st : OrderFlowDO) : OrderFlowDO :=
  mkOrderFlowDO (sessions st ∖ {[ ws ]}) (lastData st) (imbalanceHistory st).

(** ** Enrichment feeds *)

(** What a [try] block observes of a remote request: the request or the
    decoding of the reply throws, or the reply is decoded and holds the
    wanted record ([Some]) or not ([None]). *)
Inductive Remote (A : Type) : Type :=
| RemoteThrows
| RemoteReply (item : option A).
Arguments RemoteThrows {A}.
Arguments RemoteReply {A} item.

(** A [cache.put(key, JSON.stringify(value), { expirationTtl })]; the
    write itself is taken to succeed. *)
Record CachePut (A : Type) : Type := mkCachePut {
  put_key : string;
  put_value : A;
  put_ttl : Z
}.
Arguments mkCachePut {A} put_key put_value put_ttl.
Arguments put_key {A} c.
Arguments put_value {A} c.
Arguments put_ttl {A} c.

(** *** Precious metals ([fetchMetalsData], lines 235-275) *)

Record MetalsData : Type := mkMetalsData {
  gold : num;
  silver : num;
  goldChange : num;
  silverChange : num;
  goldChangePct : num;
  silverChangePct : num;
  md_timestamp : Z
}.

(** [data.items[0]] of the reply. *)
Record MetalsItem : Type := mkMetalsItem {
  xauPrice : num;
  xagPrice : num;
  chgXau : num;
  chgXag : num;
  pcXau : num;
  pcXag : num
}.

(** [fetchMetalsData].  [cached] is what [cache.get('metals_data', 'json')]
    returned, [nowCheck] the clock of the freshness test, [remote] what the
    [try] block observes and [nowBuild] the clock when the record is built.
    Returns the result and the cache write, if any. *)
Definition fetchMetalsData (cached : option MetalsData) (nowCheck : Z)
    (remote : Remote MetalsItem) (nowBuild : Z)
  : option MetalsData * option (CachePut MetalsData) :=
  let refresh :=
    match remote with
    | RemoteReply (Some item) =>
        let metals :=
          mkMetalsData (xauPrice item) (xagPrice item) (chgXau item) (chgXag item)
                       (pcXau item) (pcXag item) nowBuild in
        (Some metals, Some (mkCachePut "metals_data" metals 300))
    | RemoteReply None => (cached, None)
    | RemoteThrows => (cached, None)
    end in
  match cached with
  | Some c => if (nowCheck - md_timestamp c <? 60000)%Z then (Some c, None) else refresh
  | None => refresh
  end.

(** *** Miner companies ([fetchMinerCompanyData], [fetchAllMinerData], lines 286-386) *)

Record MinerCompanyData : Type := mkMinerCompanyData {
  ticker : string;
  name : string;
  date : string;
  totalRewards : num;
  monthlyRewards : num;
  dailyRewardsUSD : num;
  monthlyRewardsUSD : num;
  activeAddresses : num
}.

(** [MINER_INFO], in the order of [Object.keys]. *)
Definition MINER_INFO : list (string * (string * string)) :=
  [("mara", ("MARA", "Marathon Digital"));
   ("riot", ("RIOT", "Riot Platforms"));
   ("core", ("CORZ", "Core Scientific"));
   ("hive", ("HIVE", "HIVE Digital"));
   ("clsk", ("CLSK", "CleanSpark"));
   ("bitf", ("BITF", "Bitfarms"));
   ("cipher", ("CIFR", "Cipher Mining"));
   ("wulf", ("WULF", "TeraWulf"));
   ("iren", ("IREN", "Iris Energy"))].

(** [MINER_INFO[minerCode]] *)
Fixpoint minerInfo (minerCode : string) (table : list (string * (string * string)))
  : option (string * string) :=
  match table with
  | [] => None
  | (code, info) :: rest =>
      if String.eqb code minerCode then Some info else minerInfo minerCode rest
  end.

(** [toUpperCase] on ASCII letters. *)
Definition upperAscii (c : Ascii.ascii) : Ascii.ascii :=
  let n := Ascii.nat_of_ascii c in
  if ((97 <=? n) && (n <=? 122))%nat then Ascii.ascii_of_nat (n - 32) else c.

Fixpoint toUpperCase (s : string) : string :=
  match s with
  | EmptyString => EmptyString
  | String c rest => String (upperAscii c) (toUpperCase rest)
  end.

(** [data.result.data[0]] of a miner reply; a field may be missing. *)
Record MinerRow : Type := mkMinerRow {
  row_date : string;
  total_rewards : option num;
  accumulated_monthly_rewards : option num;
  total_daily_rewards_closing_usd : option num;
  accumulated_monthly_rewards_closing_usd : option num;
  active_address_count : option num
}.

(** [fetchMinerCompanyData]; [Some d] in the reply stands for
    [data.status?.code === 200 && data.result?.data?.[0]]. *)
Definition fetchMinerCompanyData (minerCode : string) (remote : Remote MinerRow)
  : option MinerCompanyData :=
  match remote with
  | RemoteReply (Some d) =>
      let info := default (toUpperCase minerCode, minerCode)
                          (minerInfo minerCode MINER_INFO) in
      Some (mkMinerCompanyData (fst info) (snd info) (row_date d)
              (JS.or_else (total_rewards d) JS.zero)
              (JS.or_else (accumulated_monthly_rewards d) JS.zero)
              (JS.or_else (total_daily_rewards_closing_usd d) JS.zero)
              (JS.or_else (accumulated_monthly_rewards_closing_usd d) JS.zero)
              (JS.or_else (active_address_count d) JS.zero))
  | RemoteReply None => None
  | RemoteThrows => None
  end.

(** [xs.sort((a, b) => key(b) - key(a))]: the stable sort of [detectLevels],
    for any record and key. *)
Section SortDescending.

Context {A : Type} (key : A -> num).

Fixpoint insertDescending (x : A) (l : list A) : list A :=
  match l with
  | [] => [x]
  | y :: l' =>
      if JS.gt (JS.sub (key y) (key x)) JS.zero
      then y :: insertDescending x l' else x :: l
  end.

Fixpoint sortDescending (l : list A) : list A :=
  match l with
  | [] => []
  | x :: l' => insertDescending x (sortDescending l')
  end.

End SortDescending.

(** [fetchAllMinerData]; [replies code] is what the request for [code]
    observes. *)
Definition fetchAllMinerData (replies : string -> Remote MinerRow)
  : list MinerCompanyData :=
  let minerCodes := map fst MINER_INFO in
  let results := map (fun code => fetchMinerCompanyData code (replies code)) minerCodes in
  sortDescending totalRewards (omap id results).

(** *** On-chain data ([fetchOnChainData], lines 277-284 and 388-416) *)



(** * Vocabulary of the statements *)

(** ** Book Analyzer *)

(** Every level of one side of a book has a finite, positive size (the
    invariant of the data model). *)
Definition positiveSizes (levels : list (num * num)) : Prop :=
  Forall (fun o => exists q, snd o = Fin q /\ 0 < q) levels.

(** ** Level Detector *)

(** [orders] of a venue on one side ([[]] when the venue is absent). *)
Definition ordersOf (s : BookSide) (book : option OrderBook) : list (num * num) :=
  match book with Some b => sideOrders s b | None => [] end.

(** The orders that the detector puts into the bucket with key [key]. *)
Definition bucketOrders (roundTo key : num) (orders : list (num * num))
  : list (num * num) :=
  List.filter (fun o => JS.sameb (roundedPrice roundTo (fst o)) key) orders.

(** The bucket after one more order of size [sz] from venue [v]. *)
Definition bump (v : Venue) (existing : option Bucket) (sz : num) : Bucket :=
  let e := default freshBucket existing in
  markVenue v (mkBucket (JS.add (b_size e) sz) (hasHL e) (hasOKX e) (hasKraken e)).

(** The levels [detectLevels] has scored before it sorts and cuts them. *)
Definition scoredLevels (hlBook okxBook krakenBook : option OrderBook)
    (s : BookSide) (asset : string) : list SupportLevel :=
  scoreLevels asset (referencePrice hlBook okxBook krakenBook)
    (collectLevels hlBook okxBook krakenBook s asset).

(** Venue [book] places exactly the order [o] in bucket [key] of the BTC grid. *)
Definition placesOnly (o : num * num) (key : num) (s : BookSide)
    (book : option OrderBook) : Prop :=
  bucketOrders (Fin 100) key (ordersOf s book) = [o].

Definition placesNothing (key : num) (s : BookSide) (book : option OrderBook) : Prop :=
  bucketOrders (Fin 100) key (ordersOf s book) = [].

(** Exactly two of the three venues place 12 units at exactly 96000 and no
    other order of any venue falls into that bucket. *)
Definition twoVenuesAt96000 (hlBook okxBook krakenBook : option OrderBook)
    (s : BookSide) : Prop :=
  let o := (Fin 96000, Fin 12) in
  let k := Fin 96000 in
  (placesOnly o k s hlBook /\ placesOnly o k s okxBook /\ placesNothing k s krakenBook) \/
  (placesOnly o k s hlBook /\ placesNothing k s okxBook /\ placesOnly o k s krakenBook) \/
  (placesNothing k s hlBook /\ placesOnly o k s okxBook /\ placesOnly o k s krakenBook).

(** A level at price 96000 with exchangeCount 2, isRoundNumber true, type
    wall and strength at least 95. *)
Definition isWallAt96000 (l : SupportLevel) : Prop :=
  JS.eq (sl_price l) (Fin 96000) = true /\ exchangeCount l = 2%nat /\
  isRoundNumber l = true /\ sl_type l = wall /\
  JS.ge (sl_strength l) (Fin 95) = true.

(** The size of an order is a finite number. *)
Definition finiteSize (o : num * num) : Prop := exists q, snd o = Fin q.

Definition finiteBucket (e : num * Bucket) : Prop := exists q, b_size (snd e) = Fin q.

Definition finiteStrength (l : SupportLevel) : Prop := exists q, sl_strength l = Fin q.

(** The strength of a level as a rational (0 when it is not finite). *)
Definition strengthQ (l : SupportLevel) : Q :=
  match sl_strength l with Fin q => q | _ => 0 end.

(** [l.strength >= 95] *)
Definition scores95 (l : SupportLevel) : bool := JS.ge (sl_strength l) (Fin 95).

(** ** Whale Consensus Scorer *)

(** [bidSize + askSize], the [totalSize] of [calculateWhaleConsensus]. *)
Definition totalWhaleSize (ws : list WhaleOrder) : num :=
  JS.add (whaleSize (whaleBids ws)) (whaleSize (whaleAsks ws)).

(** ** The Trend Tracker in the spec's words

    "Compute the arithmetic mean of the asset's imbalance over the filtered
    window.  Classify BULLISH only if more than 60% of the filtered readings
    individually exceed +0.05 AND the window average itself exceeds +0.05;
    symmetric thresholds for BEARISH; otherwise NEUTRAL."

    The definitions of this part are written from these words and from the
    description of the window ("the last 15 minutes"), without the helpers
    of the code. *)

(** The window: for the asset named, the imbalance that each entry recorded
    less than 15 minutes (900 000 ms) before [now] holds for that asset, in
    the order of the history. *)
Fixpoint last15Minutes (now : Z) (history : list ImbalanceEntry) (a : AssetKey)
  : list num :=
  match history with
  | [] => []
  | mkImbalanceEntry recorded btcReading ethReading :: earlier =>
      if (now - recorded <? 900000)%Z
      then match a with btc => btcReading | eth => ethReading end
             :: last15Minutes now earlier a
      else last15Minutes now earlier a
  end.

(** The arithmetic mean. *)
Definition meanOf (xs : list num) : num :=
  JS.div (JS.sum xs) (JS.ofZ (Z.of_nat (length xs))).

(** More than 60% of the readings satisfy [p]. *)
Definition moreThan60Percent (p : num -> bool) (xs : list num) : Prop :=
  (60 * length xs < 100 * length (List.filter p xs))%nat.

Definition bullishSpec (now : Z) (history : list ImbalanceEntry) (a : AssetKey) : Prop :=
  moreThan60Percent (fun x => JS.gt x (Fin (5 # 100))) (last15Minutes now history a) /\
  JS.gt (meanOf (last15Minutes now history a)) (Fin (5 # 100)) = true.

Definition bearishSpec (now : Z) (history : list ImbalanceEntry) (a : AssetKey) : Prop :=
  moreThan60Percent (fun x => JS.lt x (Fin (-5 # 100))) (last15Minutes now history a) /\
  JS.lt (meanOf (last15Minutes now history a)) (Fin (-5 # 100)) = true.

(** ** The window of the code *)

(** The readings [calculateTrend] computes with. *)
Definition windowReadings (now : Z) (history : list ImbalanceEntry) (a : AssetKey)
  : list num :=
  map (reading a) (recentWindow now history).

Definition windowMean (now : Z) (history : list ImbalanceEntry) (a : AssetKey) : num :=
  let xs := windowReadings now history a in
  JS.div (JS.sum xs) (JS.ofZ (Z.of_nat (length xs))).

(** Every reading of asset [a] in the 15-minute window ending at [now] is 0. *)
Definition quietWindow (now : Z) (history : list ImbalanceEntry) (a : AssetKey) : Prop :=
  Forall (fun h => JS.eq (reading a h) JS.zero = true) (recentWindow now history).

(** ** Aggregation actor *)

(** The event is the 2000 ms pause that ends a cycle. *)
Definition isSleep (ev : Event) : bool :=
  match ev with EvSleep 2000 => true | _ => false end.

(** The awaited [fetchWithTrend] of the cycle throws [e]. *)
Definition fetchThrows
    (body : CycleInput -> list ImbalanceEntry -> Outcome SignalPair * list ImbalanceEntry)
    (inp : CycleInput) (st : OrderFlowDO) (e : string) : Prop :=
  exists h, body inp (imbalanceHistory st) = (Thrown e, h).

(** [fetchWithTrend] returns [d] and the broadcast of [d] throws [e]. *)
Definition broadcastThrows
    (body : CycleInput -> list ImbalanceEntry -> Outcome SignalPair * list ImbalanceEntry)
    (stringify : SignalPair -> Outcome unit)
    (inp : CycleInput) (st : OrderFlowDO) (d : SignalPair) (e : string) : Prop :=
  (exists h, body inp (imbalanceHistory st) = (Returned d, h)) /\ stringify d = Thrown e.

(** Some statement of the [try] block of the cycle throws [e]. *)
Definition cycleThrows
    (body : CycleInput -> list ImbalanceEntry -> Outcome SignalPair * list ImbalanceEntry)
    (stringify : SignalPair -> Outcome unit)
    (inp : CycleInput) (st : OrderFlowDO) (e : string) : Prop :=
  fetchThrows body inp st e \/ exists d, broadcastThrows body stringify inp st d e.

(** * Example inputs *)

(** What [fetchHyperliquidOrderBook] builds when the reply has no [levels]
    ([data.levels || [[], []]]). *)
Definition emptyBook (ts : Z) : OrderBook := mkOrderBook [] [] ts.

(** A cycle in which every venue adapter returned [null]. *)
Definition allAbsent : Fetched := mkFetched None None None None None None.

(** A cycle in which only Hyperliquid answers, with an empty book. *)
Definition emptyHyperliquid : Fetched :=
  mkFetched (Some (emptyBook 0)) None None None None None.

(** The five clock readings of a cycle, all equal to [t]. *)
Definition clockAt (t : Z) : CycleClock := mkCycleClock t t t t t.

(** Whale lists. *)
Definition whalesTwoVenueBids : list WhaleOrder :=
  [mkWhaleOrder "Hyperliquid" BID (Fin 96000) (Fin 10);
   mkWhaleOrder "OKX" BID (Fin 95900) (Fin 10)].


Definition whalesOneVenueBids : list WhaleOrder :=
  [mkWhaleOrder "Hyperliquid" BID (Fin 96000) (Fin 10);
   mkWhaleOrder "Hyperliquid" BID (Fin 95900) (Fin 10)].

(** Histories: every entry is recorded at [ts] with the same reading for
    both assets. *)
Definition historyOf (ts : Z) (xs : list Q) : list ImbalanceEntry :=
  map (fun x => mkImbalanceEntry ts (Fin x) (Fin x)) xs.

(** Ten readings, eight of them above +0.05, with mean 0.07 (a scenario of
    the spec), and the mirror image. *)
Definition bullishHistory : list ImbalanceEntry :=
  historyOf 1000000
    [8 # 100; 8 # 100; 8 # 100; 8 # 100; 8 # 100; 8 # 100; 8 # 100; 8 # 100; 3 # 100; 3 # 100].

Definition bearishHistory : list ImbalanceEntry :=
  historyOf 1000000
    [-8 # 100; -8 # 100; -8 # 100; -8 # 100; -8 # 100; -8 # 100; -8 # 100; -8 # 100;
     -3 # 100; -3 # 100].

(** Six readings of ten above +0.05 (exactly 60%) although the mean is 0.4. *)
Definition sixOfTenHistory : list ImbalanceEntry :=
  historyOf 1000000
    [64 # 100; 64 # 100; 64 # 100; 64 # 100; 64 # 100; 64 # 100;
     4 # 100; 4 # 100; 4 # 100; 4 # 100].

(** Three readings of +0.5 for both assets, recorded one second before a
    cycle at clock 1000000. *)
Definition bullishPrior : list ImbalanceEntry :=
  historyOf 999000 [1 # 2; 1 # 2; 1 # 2].

(** Actor states and cycles. *)

(** The actor right after construction: no socket, no snapshot, no history. *)
Definition idleActor : OrderFlowDO := mkOrderFlowDO ∅ None [].

(** An actor holding a snapshot, with one subscriber. *)
Definition servingActor : OrderFlowDO :=
  mkOrderFlowDO {[ 7%nat ]} (Some (fetchAllData allAbsent 1000 1000)) [].

Definition quietCycle (t : Z) : CycleInput :=
  mkCycleInput allAbsent (clockAt t) (fun _ => true).

(** A cycle body that always fails, standing for a synthesis bug. *)
Definition failingBody (inp : CycleInput) (history : list ImbalanceEntry)
  : Outcome SignalPair * list ImbalanceEntry :=
  (Thrown "synthesis bug", history).

(** A serialisation that always fails, standing for a bug in the broadcast. *)
Definition failingStringify (data : SignalPair) : Outcome unit :=
  Thrown "serialisation bug".

(** Order books.  The scenario of the spec: the bid of 12 at 96000 is the
    only order of the book. *)
Definition loneBook : OrderBook := mkOrderBook [(Fin 96000, Fin 12)] [] 0.

(** Five round levels above 96000, within 5% of the best bid 101000. *)
Definition fiveRoundBids : list (num * num) :=
  [(Fin 101000, Fin 10); (Fin 100000, Fin 10); (Fin 99000, Fin 10);
   (Fin 98000, Fin 10); (Fin 97000, Fin 10)].

Definition crowdedBook : OrderBook :=
  mkOrderBook (fiveRoundBids ++ [(Fin 96000, Fin 12)]) [] 0.

Definition crowdedBookWithout96000 : OrderBook := mkOrderBook fiveRoundBids [] 0.

(** Seven buckets within 5% of the best bid; only the one at 96000 is strong. *)
Definition busyBook : OrderBook :=
  mkOrderBook
    [(Fin 96650, Fin 1); (Fin 96540, Fin 2); (Fin 96410, Fin 1); (Fin 96333, Fin 3);
     (Fin 96180, Fin 1); (Fin 96000, Fin 12); (Fin 95870, Fin 2)]
    [(Fin 96700, Fin 1)] 0.

(** ** Further vocabulary and examples *)

(** Ten levels of size 1 at descending (bids) or ascending (asks) prices. *)
Definition tenBids : list (num * num) :=
  map (fun p => (Fin (inject_Z p), Fin 1))
      [96000; 95990; 95980; 95970; 95960; 95950; 95940; 95930; 95920; 95910]%Z.

Definition tenAsks : list (num * num) :=
  map (fun p => (Fin (inject_Z p), Fin 2))
      [96010; 96020; 96030; 96040; 96050; 96060; 96070; 96080; 96090; 96100]%Z.

(** A book with bids only. *)
Definition bidsOnlyBook : OrderBook := mkOrderBook tenBids [] 0.

(** The size of an order is a finite number that is not negative. *)
Definition nonnegSize (o : num * num) : Prop := exists q, snd o = Fin q /\ 0 <= q.

Definition nonnegBucket (b : Bucket) : Prop := exists q, b_size b = Fin q /\ 0 <= q.

(** At least one venue flag of the bucket is set. *)
Definition flagged (b : Bucket) : Prop := hasHL b || hasOKX b || hasKraken b = true.

(** All orders of the three venues on side [s]. *)
Definition allOrders (hlBook okxBook krakenBook : option OrderBook) (s : BookSide)
  : list (num * num) :=
  ordersOf s hlBook ++ ordersOf s okxBook ++ ordersOf s krakenBook.

(** Strengths never increase along the list. *)
Definition descending (l : list SupportLevel) : Prop :=
  StronglySorted (fun a b => strengthQ b <= strengthQ a) l.

(** Three venues with three bid levels each, one of them shared. *)
Definition bookA : OrderBook :=
  mkOrderBook [(Fin 96020, Fin 3); (Fin 95910, Fin 8); (Fin 95000, Fin 25)]
              [(Fin 96110, Fin 4)] 0.
Definition bookB : OrderBook :=
  mkOrderBook [(Fin 96010, Fin 2); (Fin 95790, Fin 1); (Fin 95020, Fin 6)]
              [(Fin 96120, Fin 1)] 0.
Definition bookC : OrderBook :=
  mkOrderBook [(Fin 95990, Fin 1); (Fin 95510, Fin 2); (Fin 90000, Fin 40)]
              [(Fin 96130, Fin 9)] 0.

(** No level of the list has the price of a later one ([Map] keys compare by
    SameValueZero). *)
Definition distinctPrices (l : list SupportLevel) : Prop :=
  StronglySorted (fun a b => JS.sameb (sl_price a) (sl_price b) = false) l.

Definition distinctKeys {V : Type} (m : list (num * V)) : Prop :=
  StronglySorted (fun a b => JS.sameb (fst a) (fst b) = false) m.

(** The names the pipeline gives to the three venues. *)
Definition venueNames : list string := ["Hyperliquid"; "OKX"; "Kraken"].

(** Every whale carries a venue name and reaches the threshold. *)
Definition whalesTagged (threshold : num) (ws : list WhaleOrder) : Prop :=
  Forall (fun w => In (exchange w) venueNames /\ JS.ge (wo_size w) threshold = true) ws.

(** Both venue counts of a consensus are at most 3. *)
Definition atMostThreeVenues (c : WhaleConsensus) : Prop :=
  (exchangesWithBids c <= 3)%nat /\ (exchangesWithAsks c <= 3)%nat.

(** The venue is absent or its imbalance is a finite number in [-1, 1]. *)
Definition imbalanceInRange (data : option ExchangeData) : Prop :=
  match data with
  | Some d => JS.within (-1) 1 (imbalance d)
  | None => True
  end.

(** The venue is absent or its price is not positive. *)
Definition noPrice (data : option ExchangeData) : Prop :=
  match data with
  | Some d => JS.gt (price d) JS.zero = false
  | None => True
  end.

(** Venue data for the examples. *)
Definition bullishVenue : ExchangeData :=
  mkExchangeData (Fin 96000) (Fin (3 # 10)) (Fin 13) (Fin 7) 0.
Definition bearishVenue : ExchangeData :=
  mkExchangeData (Fin 96010) (Fin (-1 # 2)) (Fin 5) (Fin 15) 0.

(** Two readings that left the 15-minute window of clock 2000000, before
    the bullish ones. *)
Definition staleThenBullish : list ImbalanceEntry :=
  historyOf 1000 [-9 # 10; -9 # 10] ++ historyOf 1990000 [8 # 100; 8 # 100; 8 # 100].

(** The entry a cycle appends to the history. *)
Definition recordedEntry (f : Fetched) (clk : CycleClock) : ImbalanceEntry :=
  mkImbalanceEntry (t_record clk)
    (averageOr0 (definedImbalances (analyze (hlBtc f) (Fin 5)) (analyze (okxBtc f) (Fin 5))
                                   (analyze (krakenBtc f) (Fin 5))))
    (averageOr0 (definedImbalances (analyze (hlEth f) (Fin 50)) (analyze (okxEth f) (Fin 50))
                                   (analyze (krakenEth f) (Fin 50)))).

(** The fields of two signals that do not depend on the trend or the clock
    are the same. *)
Definition sameMarketView (s s' : Signal) : Prop :=
  crossExchangeSpread s = crossExchangeSpread s' /\
  combinedImbalance s = combinedImbalance s' /\
  whaleOrders s = whaleOrders s' /\
  whaleConsensus s = whaleConsensus s' /\
  supportLevels s = supportLevels s' /\
  resistanceLevels s = resistanceLevels s'.

(** A signal that proposes no trade. *)
Definition noTrade (s : Signal) : Prop :=
  action s = WAIT /\ confidence s = Fin 0 /\ trend s = NEUTRAL /\
  JS.eq (imbalance15m s) JS.zero = true.

(** A cycle in which all venues answer. *)
Definition fetchedABC : Fetched :=
  mkFetched (Some bookA) (Some bookA) (Some bookB) (Some bookB) (Some bookC) (Some bookC).

(** [this.imbalanceHistory.filter(h => h.timestamp > now - 20 * 60 * 1000)] *)
Definition trimmed (now : Z) (history : list ImbalanceEntry) : list ImbalanceEntry :=
  List.filter (fun h => (now - 20 * 60 * 1000 <? ie_timestamp h)%Z) history.

(** Every entry was recorded at least [gap] milliseconds before each later one. *)
Definition spaced (gap : Z) (history : list ImbalanceEntry) : Prop :=
  StronglySorted (fun a b => (ie_timestamp a + gap <= ie_timestamp b)%Z) history.

(** A history of three cycles two seconds apart, the first one 25 minutes old
    at clock 2000000. *)
Definition steadyHistory : list ImbalanceEntry :=
  [mkImbalanceEntry 500000 (Fin (1 # 10)) (Fin 0);
   mkImbalanceEntry 1996000 (Fin (2 # 10)) (Fin 0);
   mkImbalanceEntry 1998000 (Fin (3 # 10)) (Fin 0)].

(** The sets of sockets served by the broadcasts of a trace, in order. *)
Definition servedSets (ev : list Event) : list (gset nat) :=
  omap (fun e => match e with EvBroadcast _ served => Some served | _ => None end) ev.

Definition isError (ev : Event) : bool :=
  match ev with EvConsoleError _ => true | _ => false end.

(** The largest size the statements on depths admit, ten to the 300: twenty
    such sizes add up to 2e301, far below the largest double (about
    1.8e308), so neither a depth nor the sum of two depths overflows. *)
Definition sizeBound : Q := inject_Z (10 ^ 300).

(** Every size is a positive number of at most [sizeBound]. *)
Definition boundedSizes (levels : list (num * num)) : Prop :=
  Forall (fun o => exists q, snd o = Fin q /\ 0 < q /\ q <= sizeBound) levels.

(** The number is finite, not negative and at most ten times [sizeBound]. *)
Definition depthBounded (d : num) : Prop :=
  exists q, d = Fin q /\ 0 <= q /\ q <= 10 * sizeBound.

(** The venue is absent, or its book has positive sizes of at most
    [sizeBound] and at least one level. *)
Definition wellFormedBook (book : option OrderBook) : Prop :=
  match book with
  | Some b => boundedSizes (bids b) /\ boundedSizes (asks b) /\
              (bids b <> [] \/ asks b <> [])
  | None => True
  end.

Definition wellFormedFetch (f : Fetched) : Prop :=
  wellFormedBook (hlBtc f) /\ wellFormedBook (hlEth f) /\
  wellFormedBook (okxBtc f) /\ wellFormedBook (okxEth f) /\
  wellFormedBook (krakenBtc f) /\ wellFormedBook (krakenEth f).

(** Both readings of every entry lie in [-1, 1]. *)
Definition readingsInRange (history : list ImbalanceEntry) : Prop :=
  Forall (fun e => JS.within (-1) 1 (btcImbalance e) /\ JS.within (-1) 1 (ethImbalance e))
         history.

(** The imbalance figures of a signal all lie in [-1, 1]. *)
Definition imbalancesInRange (s : Signal) : Prop :=
  JS.within (-1) 1 (combinedImbalance s) /\ JS.within (-1) 1 (imbalance15m s) /\
  JS.within (-1) 1 (imbalance (hyperliquid s)) /\
  JS.within (-1) 1 (imbalance (okx s)) /\
  JS.within (-1) 1 (imbalance (kraken s)).

(** The six depths of a signal are finite and at most ten times [sizeBound]. *)
Definition depthsBounded (s : Signal) : Prop :=
  Forall (fun d => depthBounded (bidDepth d) /\ depthBounded (askDepth d))
         [hyperliquid s; okx s; kraken s].

(** Three cycles; the second socket of [twoSubscribers] fails in the second. *)
Definition twoSubscribers : OrderFlowDO := mkOrderFlowDO {[ 1%nat; 2%nat ]} None [].

Definition threeCycles : list CycleInput :=
  [mkCycleInput fetchedABC (clockAt 1000000) (fun _ => true);
   mkCycleInput allAbsent (clockAt 1002000) (fun ws => negb (ws =? 2)%nat);
   mkCycleInput fetchedABC (clockAt 1004000) (fun _ => true)].

(** ** Enrichment feeds *)

(** The cached metals record no longer passes the one-minute test. *)
Definition staleMetals (cached : option MetalsData) (now : Z) : Prop :=
  match cached with
  | Some c => (60000 <= now - md_timestamp c)%Z
  | None => True
  end.


(** The record a reply delivers, if any. *)
Definition delivered {A : Type} (r : Remote A) : option A :=
  match r with
  | RemoteReply (Some d) => Some d
  | RemoteReply None => None
  | RemoteThrows => None
  end.

(** The ticker and the name are an entry of [MINER_INFO]. *)
Definition knownMiner (m : MinerCompanyData) : Prop :=
  In (ticker m, name m) (map snd MINER_INFO).

(** None of the five figures of a company is [NaN]. *)
Definition figuresNotNaN (m : MinerCompanyData) : Prop :=
  totalRewards m <> NaN /\ monthlyRewards m <> NaN /\ dailyRewardsUSD m <> NaN /\
  monthlyRewardsUSD m <> NaN /\ activeAddresses m <> NaN.

(** The sort key as a rational (0 when it is not finite). *)
Definition keyQ {A : Type} (key : A -> num) (x : A) : Q :=
  match key x with Fin q => q | _ => 0 end.

Definition finiteKey {A : Type} (key : A -> num) (x : A) : Prop :=
  exists q, key x = Fin q.

(** Largest key first. *)
Definition descendingBy {A : Type} (key : A -> num) (l : list A) : Prop :=
  StronglySorted (fun a b => keyQ key b <= keyQ key a) l.

(** The reply reports no infinite [total_rewards]. *)
Definition finiteRewards (r : Remote MinerRow) : Prop :=
  match delivered r with
  | Some d => total_rewards d <> Some JS.PInf /\ total_rewards d <> Some JS.NInf
  | None => True
  end.

(** The companies whose request delivered a row, in the order of [MINER_INFO]. *)
Definition deliveredMiners (replies : string -> Remote MinerRow) : list string :=
  List.filter (fun code => match delivered (replies code) with Some _ => true | None => false end)
              (map fst MINER_INFO).

Definition sampleItem : MetalsItem :=
  mkMetalsItem (Fin 2650) (Fin 31) (Fin 12) (Fin (1 # 2)) (Fin (45 # 100)) (Fin (16 # 10)).

Definition staleMetalsRecord : MetalsData :=
  mkMetalsData (Fin 2600) (Fin 30) (Fin 0) (Fin 0) (Fin 0) (Fin 0) 1000.

Definition sampleRow (day : string) (rewards : option num) : MinerRow :=
  mkMinerRow day rewards (Some (Fin 300)) (Some (Fin 1000000)) (Some (Fin 30000000)) None.

(** Two companies report, one reports without a reward figure, one request
    throws and the others deliver nothing. *)
Definition sampleReplies (code : string) : Remote MinerRow :=
  if String.eqb code "mara" then RemoteReply (Some (sampleRow "2025-01-02" (Some (Fin 18))))
  else if String.eqb code "riot" then RemoteReply (Some (sampleRow "2025-01-02" (Some (Fin 25))))
  else if String.eqb code "clsk" then RemoteReply (Some (sampleRow "2025-01-02" None))
  else if String.eqb code "core" then RemoteThrows
  else RemoteReply None.





(** * Properties *)

(** ** Numbers *)

Lemma Qlt_bool_iff (x y : Q) : JS.Qlt_bool x y = true <-> x < y.
Proof.
  unfold JS.Qlt_bool. rewrite Qlt_alt. destruct (x ?= y); split; congruence.
Qed.

Lemma Qlt_bool_false (x y : Q) : JS.Qlt_bool x y = false <-> y <= x.
Proof.
  split; intros H.
  - apply Qnot_lt_le. intros Hlt. apply Qlt_bool_iff in Hlt. congruence.
  - destruct (JS.Qlt_bool x y) eqn:E; [|reflexivity].
    apply Qlt_bool_iff in E. lra.
Qed.

(** ** Book Analyzer *)

(** C1 (the code diverges): on an order book with no bids and no asks both
    top-10 depths are 0 and [analyzeOrderBook] divides 0 by 0: the imbalance
    is NaN, which is neither 0 nor a member of [-1, 1]. *)
Theorem analyzeOrderBook_empty_book_imbalance_NaN :
  forall ts threshold,
    let r := analyzeOrderBook (emptyBook ts) threshold in
    an_bidDepth r = Fin 0 /\ an_askDepth r = Fin 0 /\
    an_imbalance r = NaN /\
    JS.eq (an_imbalance r) (Fin 0) = false /\
    ~ JS.within (-1) 1 (an_imbalance r).
Proof.
  intros ts threshold. cbn. repeat split; auto.
Qed.

Lemma sum_positive (xs : list num) (s : Q) :
  Forall (fun x => exists q, x = Fin q /\ 0 < q) xs ->
  exists d, fold_left JS.add xs (Fin s) = Fin d /\ s <= d /\ (xs <> [] -> s < d).
Proof.
  intros HF. revert s. induction HF as [|x xs (q & -> & Hq) _ IH]; intros s.
  - exists s. split; [reflexivity|]. split; [lra|]. intros H. elim H. reflexivity.
  - cbn [fold_left JS.add]. destruct (IH (s + q)) as (d & E & Hle & _).
    exists d. split; [exact E|]. split; [lra|]. intros _. lra.
Qed.

Lemma depth_positive (levels : list (num * num)) :
  positiveSizes levels ->
  exists d, depth levels = Fin d /\ 0 <= d /\ (levels <> [] -> 0 < d).
Proof.
  intros HF. unfold depth, JS.sum, JS.zero.
  destruct (sum_positive (map snd (take 10 levels)) 0) as (d & E & Hle & Hlt).
  - apply Forall_map. apply Forall_take. exact HF.
  - exists d. split; [exact E|]. split; [exact Hle|].
    intros Hne. apply Hlt. destruct levels; [elim Hne; reflexivity|discriminate].
Qed.

(** Away from the empty book the first two parts of C1 hold: on a book with
    positive sizes and at least one level the imbalance is the quotient
    (bidDepth - askDepth) / (bidDepth + askDepth) and lies in [-1, 1]. *)
Lemma analyzeOrderBook_imbalance_range (book : OrderBook) (threshold : num) :
  positiveSizes (bids book) -> positiveSizes (asks book) ->
  bids book <> [] \/ asks book <> [] ->
  let r := analyzeOrderBook book threshold in
  exists bd ad,
    an_bidDepth r = Fin bd /\ an_askDepth r = Fin ad /\ 0 < bd + ad /\
    an_imbalance r = Fin ((bd - ad) / (bd + ad)) /\
    JS.within (-1) 1 (an_imbalance r).
Proof.
  intros Hb Ha Hne r. subst r. unfold analyzeOrderBook. cbv zeta.
  cbn [an_bidDepth an_askDepth an_imbalance].
  destruct (depth_positive _ Hb) as (bd & Eb & Hb0 & Hb1).
  destruct (depth_positive _ Ha) as (ad & Ea & Ha0 & Ha1).
  rewrite Eb, Ea. exists bd, ad.
  assert (Hpos : 0 < bd + ad).
  { destruct Hne as [H|H]; [specialize (Hb1 H)|specialize (Ha1 H)]; lra. }
  assert (Ediv : JS.div (JS.sub (Fin bd) (Fin ad)) (JS.add (Fin bd) (Fin ad))
                 = Fin ((bd - ad) / (bd + ad))).
  { cbn. destruct (Qeq_bool (bd + ad) 0) eqn:E; [|reflexivity].
    apply Qeq_bool_iff in E. lra. }
  rewrite Ediv. repeat split; try reflexivity; try exact Hpos.
  - apply Qle_shift_div_l; [exact Hpos|]. lra.
  - apply Qle_shift_div_r; [exact Hpos|]. lra.
Qed.

(** The NaN of an empty book spreads: it is stored in the venue's data and
    in the imbalance history, and the combined imbalance, the 15-minute
    average and the confidence of the signal are NaN as well. *)
Lemma empty_book_poisons_cycle :
  let r := fetchWithTrend emptyHyperliquid (clockAt 1000000) [] in
  imbalance (hyperliquid (sp_btc (fst r))) = NaN /\
  combinedImbalance (sp_btc (fst r)) = NaN /\
  imbalance15m (sp_btc (fst r)) = NaN /\
  confidence (sp_btc (fst r)) = NaN /\
  map btcImbalance (snd r) = [NaN].
Proof. vm_compute. repeat split; reflexivity. Qed.

(** ** Whale Consensus Scorer *)





Ltac js_cbn :=
  cbn -[JS.gt JS.lt JS.ge JS.le JS.eq JS.div JS.add JS.min JS.round JS.mul JS.sub
        JS.abs JS.rem Nat.leb Nat.eqb].

(** The decision taken by [calculateWhaleConsensus], branch by branch. *)
Lemma whale_signal_cases (ws : list WhaleOrder) :
  let c := calculateWhaleConsensus ws in
  (signal c = BiasLONG /\
   JS.gt (totalWhaleSize ws) JS.zero = true /\
   JS.gt (bidRatio ws) (Fin (6 # 10)) = true /\
   (2 <= venueCount (whaleBids ws))%nat)
  \/
  (signal c = BiasSHORT /\
   JS.gt (totalWhaleSize ws) JS.zero = true /\
   JS.lt (bidRatio ws) (Fin (4 # 10)) = true /\
   (2 <= venueCount (whaleAsks ws))%nat)
  \/
  (signal c = BiasNEUTRAL /\ wc_strength c = Fin 0 /\
   (JS.gt (totalWhaleSize ws) JS.zero = false \/
    (JS.gt (bidRatio ws) (Fin (6 # 10)) && (2 <=? venueCount (whaleBids ws))%nat = false /\
     JS.lt (bidRatio ws) (Fin (4 # 10)) && (2 <=? venueCount (whaleAsks ws))%nat = false))).
Proof.
  unfold calculateWhaleConsensus, bidRatio, totalWhaleSize.
  set (bs := whaleSize (whaleBids ws)). set (az := whaleSize (whaleAsks ws)).
  set (vb := venueCount (whaleBids ws)). set (va := venueCount (whaleAsks ws)).
  destruct (JS.gt (JS.add bs az) JS.zero) eqn:Htot; js_cbn; [|auto 10].
  destruct (JS.gt (JS.div bs (JS.add bs az)) (Fin (6 # 10))) eqn:Hr;
    destruct (2 <=? vb)%nat eqn:Hvb; js_cbn;
    try (left; repeat split; auto; apply Nat.leb_le; assumption);
    (destruct (JS.lt (JS.div bs (JS.add bs az)) (Fin (4 # 10))) eqn:Hl;
     destruct (2 <=? va)%nat eqn:Hva; js_cbn;
     try (right; left; repeat split; auto; apply Nat.leb_le; assumption);
     right; right; repeat split; auto).
Qed.

Lemma whale_consensus_counts (ws : list WhaleOrder) :
  exchangesWithBids (calculateWhaleConsensus ws) = venueCount (whaleBids ws) /\
  exchangesWithAsks (calculateWhaleConsensus ws) = venueCount (whaleAsks ws).
Proof.
  unfold calculateWhaleConsensus.
  destruct (JS.gt _ JS.zero); [|split; reflexivity].
  destruct (_ && _); [split; reflexivity|].
  destruct (_ && _); split; reflexivity.
Qed.






(** C10: a NEUTRAL consensus always carries strength 0 (so does an empty
    whale list or a total whale size that is not positive); a strength other
    than 0 only comes with LONG or SHORT. *)
Theorem whale_neutral_strength_zero (ws : list WhaleOrder) :
  let c := calculateWhaleConsensus ws in
  (signal c = BiasNEUTRAL -> wc_strength c = Fin 0) /\
  (JS.eq (wc_strength c) JS.zero = false -> signal c = BiasLONG \/ signal c = BiasSHORT) /\
  (JS.gt (totalWhaleSize ws) JS.zero = false ->
   signal c = BiasNEUTRAL /\ wc_strength c = Fin 0) /\
  (ws = [] -> signal c = BiasNEUTRAL /\ wc_strength c = Fin 0).
Proof.
  intros c.
  pose proof (whale_signal_cases ws) as H. cbv zeta in H. fold c in H.
  split; [|split; [|split]].
  - intros HN.
    destruct H as [(? & ? & ? & ?)|[(? & ? & ? & ?)|(? & ? & ?)]]; congruence.
  - intros HN.
    destruct H as [(? & ? & ? & ?)|[(? & ? & ? & ?)|(? & E & ?)]]; auto.
    rewrite E in HN. cbn in HN. discriminate.
  - intros HN. unfold totalWhaleSize in *.
    destruct H as [(? & ? & ? & ?)|[(? & ? & ? & ?)|(? & ? & ?)]];
      try congruence; auto.
  - intros E. subst c. rewrite E. split; reflexivity.
Qed.

(** C10 at concrete whale lists: one venue only gives NEUTRAL with strength
    0; the strength 80 of the two-venue list comes with LONG. *)
Lemma whale_neutral_strength_zero_witness :
  wc_strength (calculateWhaleConsensus whalesOneVenueBids) = Fin 0 /\
  wc_strength (calculateWhaleConsensus whalesTwoVenueBids) = Fin 80 /\
  (signal (calculateWhaleConsensus whalesTwoVenueBids) = BiasLONG \/
   signal (calculateWhaleConsensus whalesTwoVenueBids) = BiasSHORT).
Proof.
  split; [|split].
  - apply (proj1 (whale_neutral_strength_zero whalesOneVenueBids)).
    vm_compute. reflexivity.
  - vm_compute. reflexivity.
  - apply (proj1 (proj2 (whale_neutral_strength_zero whalesTwoVenueBids))).
    vm_compute. reflexivity.
Defined.


(** ** Trend Tracker *)

Lemma fold_left_reading (a : AssetKey) (l : list ImbalanceEntry) (s : num) :
  fold_left (fun s h => JS.add s (reading a h)) l s =
  fold_left JS.add (map (reading a) l) s.
Proof.
  revert s. induction l as [|h l IH]; intros s; cbn; [reflexivity|apply IH].
Qed.

Lemma countOf_readings (p : num -> bool) (a : AssetKey) (l : list ImbalanceEntry) :
  countOf p a l = length (List.filter p (map (reading a) l)).
Proof.
  unfold countOf. induction l as [|h l IH]; cbn; [reflexivity|].
  destruct (p (reading a h)); cbn; rewrite IH; reflexivity.
Qed.

(** [n / t > 0.6] on counts is "more than 60%". *)
Lemma ratio_gt_60 (n t : nat) :
  (0 < t)%nat ->
  JS.gt (JS.div (JS.ofZ (Z.of_nat n)) (JS.ofZ (Z.of_nat t))) (Fin (6 # 10)) = true
  <-> (60 * t < 100 * n)%nat.
Proof.
  intros Ht. unfold JS.gt, JS.div, JS.ofZ.
  assert (Hq : 0 < inject_Z (Z.of_nat t)).
  { change 0 with (inject_Z 0). rewrite <- Zlt_Qlt. lia. }
  destruct (Qeq_bool (inject_Z (Z.of_nat t)) 0) eqn:E.
  { apply Qeq_bool_iff in E. lra. }
  cbn [JS.lt]. rewrite Qlt_bool_iff.
  split; intros H.
  - apply (Qmult_lt_r _ _ _ Hq) in H.
    assert (E2 : inject_Z (Z.of_nat n) / inject_Z (Z.of_nat t) * inject_Z (Z.of_nat t)
                 == inject_Z (Z.of_nat n)) by (field; lra).
    rewrite E2 in H.
    assert (H3 : inject_Z (6 * Z.of_nat t) < inject_Z (10 * Z.of_nat n)).
    { rewrite !inject_Z_mult. change (inject_Z 6) with 6. change (inject_Z 10) with 10.
      lra. }
    rewrite <- Zlt_Qlt in H3. lia.
  - apply Qlt_shift_div_l; [exact Hq|].
    assert (H3 : inject_Z (6 * Z.of_nat t) < inject_Z (10 * Z.of_nat n)).
    { rewrite <- Zlt_Qlt. lia. }
    rewrite !inject_Z_mult in H3. change (inject_Z 6) with 6 in H3.
    change (inject_Z 10) with 10 in H3. lra.
Qed.

Lemma gt_lt_exclusive (x : num) (lo hi : Q) :
  lo <= hi -> JS.gt x (Fin hi) = true -> JS.lt x (Fin lo) = true -> False.
Proof.
  intros Hle. destruct x as [q| | |]; cbn; try discriminate.
  rewrite !Qlt_bool_iff. lra.
Qed.

(** What [calculateTrend] returns on a non-empty window. *)
Lemma calculateTrend_window (now : Z) (history : list ImbalanceEntry) (a : AssetKey) :
  recentWindow now history <> [] ->
  calculateTrend now history a =
    (windowMean now history a,
     if JS.gt (JS.div (JS.ofZ (Z.of_nat (countOf (fun x => JS.gt x (Fin (5 # 100))) a
                                               (recentWindow now history))))
                      (JS.ofZ (Z.of_nat (length (recentWindow now history)))))
              (Fin (6 # 10))
        && JS.gt (windowMean now history a) (Fin (5 # 100))
     then BULLISH
     else if JS.gt (JS.div (JS.ofZ (Z.of_nat (countOf (fun x => JS.lt x (Fin (-5 # 100))) a
                                                      (recentWindow now history))))
                           (JS.ofZ (Z.of_nat (length (recentWindow now history)))))
                   (Fin (6 # 10))
             && JS.lt (windowMean now history a) (Fin (-5 # 100))
     then BEARISH else NEUTRAL).
Proof.
  intros Hne. unfold calculateTrend, windowMean, windowReadings, JS.sum.
  rewrite length_map, <- fold_left_reading.
  destruct history as [|h0 hs]; [elim Hne; reflexivity|].
  destruct (recentWindow now (h0 :: hs)) as [|r rs] eqn:Er; [elim Hne; reflexivity|].
  cbv zeta.
  destruct (_ && _); [reflexivity|]. destruct (_ && _); reflexivity.
Qed.

Lemma calculateTrend_empty_window (now : Z) (history : list ImbalanceEntry) (a : AssetKey) :
  recentWindow now history = [] -> calculateTrend now history a = (Fin 0, NEUTRAL).
Proof.
  intros E. unfold calculateTrend. rewrite E. destruct history; reflexivity.
Qed.

(** The classification in terms of the window the code computes with. *)
Lemma calculateTrend_on_window
    (now : Z) (history : list ImbalanceEntry) (a : AssetKey) :
  let r := calculateTrend now history a in
  let xs := windowReadings now history a in
  let m := windowMean now history a in
  let bullish := moreThan60Percent (fun x => JS.gt x (Fin (5 # 100))) xs /\
                 JS.gt m (Fin (5 # 100)) = true in
  let bearish := moreThan60Percent (fun x => JS.lt x (Fin (-5 # 100))) xs /\
                 JS.lt m (Fin (-5 # 100)) = true in
  (snd r = BULLISH <-> bullish) /\
  (snd r = BEARISH <-> bearish) /\
  (~ bullish -> ~ bearish -> snd r = NEUTRAL) /\
  (recentWindow now history = [] -> r = (Fin 0, NEUTRAL)) /\
  (recentWindow now history <> [] -> fst r = m).
Proof.
  intros r xs m bullish bearish. subst r xs m bullish bearish.
  unfold moreThan60Percent, windowReadings.
  rewrite length_map, <- !countOf_readings.
  destruct (recentWindow now history) as [|h0 w] eqn:Ew.
  - rewrite (calculateTrend_empty_window _ _ _ Ew). cbn.
    split; [|split; [|split; [|split]]]; try tauto; try (split; [discriminate|lia]).
  - assert (Hne : recentWindow now history <> []) by (rewrite Ew; discriminate).
    rewrite (calculateTrend_window _ _ _ Hne). rewrite Ew.
    set (w' := h0 :: w). set (m := windowMean now history a).
    assert (Hlen : (0 < length w')%nat) by (cbn; lia).
    pose proof (ratio_gt_60 (countOf (fun x => JS.gt x (Fin (5 # 100))) a w') _ Hlen) as Hb.
    pose proof (ratio_gt_60 (countOf (fun x => JS.lt x (Fin (-5 # 100))) a w') _ Hlen) as Hs.
    cbn [fst snd].
    destruct (JS.gt (JS.div (JS.ofZ (Z.of_nat (countOf (fun x => JS.gt x _) a w'))) _) _) eqn:Eb;
    destruct (JS.gt (JS.div (JS.ofZ (Z.of_nat (countOf (fun x => JS.lt x _) a w'))) _) _) eqn:Es;
    destruct (JS.gt m (Fin (5 # 100))) eqn:Emb;
    destruct (JS.lt m (Fin (-5 # 100))) eqn:Ems;
    try (exfalso; apply (gt_lt_exclusive m (-5 # 100) (5 # 100)); [lra|assumption|assumption]);
    cbn [andb];
    (split; [|split; [|split; [|split]]]);
    try reflexivity; try discriminate; try tauto;
    try (split; [discriminate|]); try (split; [|reflexivity]);
    try (intros [? ?]; first [discriminate | (apply Hb in H; discriminate) | (apply Hs in H; discriminate)]);
    try (intros _; split; [first [apply Hb | apply Hs]; reflexivity | reflexivity]);
    try (intros Hnb Hns; first [ elim Hnb; split; [apply Hb; reflexivity|reflexivity]
                                | elim Hns; split; [apply Hs; reflexivity|reflexivity] ]).
Qed.

(** The code computes with the window of the spec: the entries newer than
    [now - 15 * 60 * 1000], and of each the reading of the asset asked for. *)
Lemma windowReadings_last15Minutes
    (now : Z) (history : list ImbalanceEntry) (a : AssetKey) :
  windowReadings now history a = last15Minutes now history a.
Proof.
  unfold windowReadings, recentWindow.
  induction history as [|[ts b e] earlier IH]; [reflexivity|].
  cbn [List.filter last15Minutes ie_timestamp].
  destruct (Z.ltb_spec (now - 15 * 60 * 1000) ts) as [H|H];
    destruct (Z.ltb_spec (now - ts) 900000) as [H'|H']; try lia.
  - cbn [map]. rewrite IH. destruct a; reflexivity.
  - exact IH.
Qed.

(** C6: the trend is BULLISH exactly when more than 60% of the readings that
    the asset has in the last 15 minutes exceed +0.05 and their mean exceeds
    +0.05, BEARISH exactly under the mirrored conditions, and NEUTRAL in
    every other case; without a reading in the last 15 minutes the result is
    average 0 and NEUTRAL, otherwise the average is the mean of these
    readings. *)
Theorem calculateTrend_classification
    (now : Z) (history : list ImbalanceEntry) (a : AssetKey) :
  let r := calculateTrend now history a in
  (snd r = BULLISH <-> bullishSpec now history a) /\
  (snd r = BEARISH <-> bearishSpec now history a) /\
  (~ bullishSpec now history a -> ~ bearishSpec now history a -> snd r = NEUTRAL) /\
  (last15Minutes now history a = [] -> r = (Fin 0, NEUTRAL)) /\
  (last15Minutes now history a <> [] -> fst r = meanOf (last15Minutes now history a)).
Proof.
  intros r. subst r. unfold bullishSpec, bearishSpec.
  rewrite <- (windowReadings_last15Minutes now history a).
  change (meanOf (windowReadings now history a)) with (windowMean now history a).
  destruct (calculateTrend_on_window now history a) as (H1 & H2 & H3 & H4 & H5).
  assert (Hnil : windowReadings now history a = [] <-> recentWindow now history = []).
  { unfold windowReadings. destruct (recentWindow now history); cbn; split; congruence. }
  split; [exact H1|]. split; [exact H2|]. split; [exact H3|].
  split.
  - intros E. apply H4, Hnil, E.
  - intros N. apply H5. intros E. apply N, Hnil, E.
Qed.

(** C6 on concrete windows: eight readings of ten above +0.05 with mean
    0.07 are BULLISH, the mirrored window is BEARISH, six of ten (exactly
    60%) stay NEUTRAL although the mean is 0.4, and two strongly negative
    readings that are older than 15 minutes do not keep three recent
    positive ones from being BULLISH. *)
Lemma calculateTrend_classification_witness :
  snd (calculateTrend 1000500 bullishHistory btc) = BULLISH /\
  snd (calculateTrend 1000500 bearishHistory eth) = BEARISH /\
  snd (calculateTrend 1000500 sixOfTenHistory btc) = NEUTRAL /\
  snd (calculateTrend 2000000 staleThenBullish btc) = BULLISH.
Proof.
  split; [|split; [|split]].
  - apply (proj1 (calculateTrend_classification 1000500 bullishHistory btc)).
    split; [apply Nat.ltb_lt; vm_compute; reflexivity | vm_compute; reflexivity].
  - apply (proj1 (proj2 (calculateTrend_classification 1000500 bearishHistory eth))).
    split; [apply Nat.ltb_lt; vm_compute; reflexivity | vm_compute; reflexivity].
  - apply (proj1 (proj2 (proj2 (calculateTrend_classification 1000500 sixOfTenHistory btc)))).
    + intros [H _]. apply Nat.ltb_lt in H. vm_compute in H. discriminate.
    + intros [_ H]. vm_compute in H. discriminate.
  - apply (proj1 (calculateTrend_classification 2000000 staleThenBullish btc)).
    split; [apply Nat.ltb_lt; vm_compute; reflexivity | vm_compute; reflexivity].
Defined.


(** ** Signal Synthesizer *)

(** [Math.min(95, c + k)] keeps a finite [c] finite and caps it at 95. *)
Lemma min95_add_within (lo hi k : Q) (c : num) :
  JS.within lo hi c -> 0 <= k -> lo <= 95 ->
  JS.within lo 95 (JS.min (Fin 95) (JS.add c (Fin k))).
Proof.
  destruct c as [x| | |]; cbn; try tauto.
  intros [Hlo Hhi] Hk H95.
  destruct (JS.Qlt_bool (x + k) 95) eqn:E; cbn.
  - apply Qlt_bool_iff in E. lra.
  - lra.
Qed.

(** [Math.round] of a finite number between two integers is an integer
    between them. *)
Lemma round_within (lo hi : Z) (c : num) :
  JS.within (inject_Z lo) (inject_Z hi) c ->
  exists z : Z, JS.round c = JS.ofZ z /\ (lo <= z <= hi)%Z.
Proof.
  destruct c as [x| | |]; cbn; try tauto.
  intros [Hlo Hhi]. exists (Qfloor (x + (1 # 2))). split; [reflexivity|].
  split.
  - rewrite <- (Qfloor_Z lo). apply Qfloor_resp_le. lra.
  - assert (H : (Qfloor (x + (1 # 2)) < hi + 1)%Z).
    { rewrite Zlt_Qlt, inject_Z_plus.
      pose proof (Qfloor_le (x + (1 # 2))) as Hf. change (inject_Z 1) with 1. lra. }
    lia.
Qed.

Lemma abs_within (q : Q) : -1 <= q <= 1 -> 0 <= Qabs q <= 1.
Proof.
  intros [H1 H2]. split; [apply Qabs_nonneg|]. apply Qabs_Qle_condition. lra.
Qed.

(** The action and the confidence of a signal before rounding, for a finite
    15-minute average in [-1, 1]. *)
Lemma generateSignal_action_confidence
    (now : Z) (asset : string) (hlData okxData krakenData : option ExchangeData)
    (ws : list WhaleOrder) (sup res : list SupportLevel) (q : Q) (tr : Trend) :
  -1 <= q <= 1 ->
  let s := generateSignal now asset hlData okxData krakenData ws sup res (Fin q) tr in
  (action s = WAIT /\ confidence s = JS.round (Fin (Qabs q * 100))) \/
  (action s <> WAIT /\ exists c, confidence s = JS.round c /\ JS.within 65 95 c).
Proof.
  intros Hq. pose proof (abs_within q Hq) as Ha.
  unfold generateSignal. cbv zeta.
  set (ci := averageOr0 _).
  destruct (isTrend tr BULLISH && JS.gt (Fin q) (Fin (10 # 100))) eqn:EL.
  - right. apply andb_prop in EL as [_ EL]. cbn in EL. apply Qlt_bool_iff in EL.
    js_cbn. split; [discriminate|].
    eexists. split; [reflexivity|].
    set (c0 := JS.min (Fin 95) (JS.add (Fin 50) (JS.mul (Fin q) (Fin 150)))).
    assert (H0 : JS.within 65 95 c0).
    { subst c0. cbn. destruct (JS.Qlt_bool _ _) eqn:E; cbn; [|lra].
      apply Qlt_bool_iff in E. lra. }
    set (c1 := if _ || _ then _ else c0).
    assert (H1 : JS.within 65 95 c1).
    { subst c1. destruct (_ || _); [eapply min95_add_within; [eassumption|lra|lra]|assumption]. }
    set (ag := (_ + _ + _)%nat).
    set (c2 := if (2 <=? ag)%nat then _ else c1).
    assert (H2 : JS.within 65 95 c2).
    { subst c2. destruct (2 <=? ag)%nat; [eapply min95_add_within; [eassumption|lra|lra]|assumption]. }
    destruct (ag =? 3)%nat; [eapply min95_add_within; [eassumption|lra|lra]|assumption].
  - destruct (isTrend tr BEARISH && JS.lt (Fin q) (Fin (-10 # 100))) eqn:ES.
    + right. apply andb_prop in ES as [_ ES]. cbn in ES. apply Qlt_bool_iff in ES.
      js_cbn. split; [discriminate|].
      eexists. split; [reflexivity|].
      set (c0 := JS.min (Fin 95) (JS.add (Fin 50) (JS.mul (JS.abs (Fin q)) (Fin 150)))).
      assert (H0 : JS.within 65 95 c0).
      { subst c0. cbn.
        assert (Habs : Qabs q == - q) by (apply Qabs_neg; lra).
        destruct (JS.Qlt_bool _ _) eqn:E; cbn; [|lra].
        apply Qlt_bool_iff in E. lra. }
      set (c1 := if JS.lt ci _ then _ else c0).
      assert (H1 : JS.within 65 95 c1).
      { subst c1. destruct (JS.lt ci _); [eapply min95_add_within; [eassumption|lra|lra]|assumption]. }
      set (ag := (_ + _ + _)%nat).
      set (c2 := if (2 <=? ag)%nat then _ else c1).
      assert (H2 : JS.within 65 95 c2).
      { subst c2. destruct (2 <=? ag)%nat; [eapply min95_add_within; [eassumption|lra|lra]|assumption]. }
      destruct (ag =? 3)%nat; [eapply min95_add_within; [eassumption|lra|lra]|assumption].
    + left. js_cbn. split; reflexivity.
Qed.

(** C2 as stated fails: with trend NEUTRAL and a 15-minute average of 1 the
    action is WAIT and the confidence is |1| * 100 = 100, above 95. *)
Lemma wait_confidence_exceeds_95 :
  ~ (forall now asset hlData okxData krakenData ws sup res (q : Q) tr,
       -1 <= q <= 1 ->
       exists z : Z,
         confidence (generateSignal now asset hlData okxData krakenData ws sup res
                                    (Fin q) tr) = JS.ofZ z /\
         (0 <= z <= 95)%Z).
Proof.
  intros H.
  destruct (H 0%Z "BTC" None None None [] [] [] 1 NEUTRAL) as (z & Hz & Hr); [lra|].
  vm_compute in Hz. injection Hz as Hz. lia.
Qed.

(** C2, amended: for a 15-minute average in [-1, 1] the confidence is an
    integer in [0, 100]; it lies in [65, 95] when the action is LONG or
    SHORT, and when the action is WAIT it is |avg| * 100 rounded, which the
    code does not cap. *)
Theorem generateSignal_confidence_range
    (now : Z) (asset : string) (hlData okxData krakenData : option ExchangeData)
    (ws : list WhaleOrder) (sup res : list SupportLevel) (q : Q) (tr : Trend) :
  -1 <= q <= 1 ->
  let s := generateSignal now asset hlData okxData krakenData ws sup res (Fin q) tr in
  exists z : Z,
    confidence s = JS.ofZ z /\ (0 <= z <= 100)%Z /\
    (action s <> WAIT -> (65 <= z <= 95)%Z) /\
    (action s = WAIT -> z = Qfloor (Qabs q * 100 + (1 # 2))).
Proof.
  intros Hq s.
  pose proof (generateSignal_action_confidence now asset hlData okxData krakenData
                ws sup res q tr Hq) as H.
  cbv zeta in H. fold s in H.
  pose proof (abs_within q Hq) as Ha.
  destruct H as [[Hw Hc]|[Hnw (c & Hc & Hin)]].
  - assert (Hin : JS.within 0 100 (Fin (Qabs q * 100))) by (cbn [JS.within]; lra).
    destruct (round_within 0 100 _ Hin) as (z & Hz & Hr).
    exists z. rewrite Hc. split; [exact Hz|]. split; [exact Hr|].
    split; [intros Hn; elim Hn; exact Hw|].
    intros _. unfold JS.round, JS.ofZ, inject_Z in Hz. injection Hz as Hz. symmetry. exact Hz.
  - destruct (round_within 65 95 c Hin) as (z & Hz & Hr).
    exists z. rewrite Hc. split; [exact Hz|]. split; [lia|].
    split; [intros _; exact Hr|]. intros Hw. elim Hnw. exact Hw.
Qed.

(** C2 amended, at a BULLISH input with average 0.5 and no venue data. *)
Lemma generateSignal_confidence_range_witness :
  -1 <= 1 # 2 <= 1 /\
  exists z : Z,
    confidence (generateSignal 0 "BTC" None None None [] [] [] (Fin (1 # 2)) BULLISH)
      = JS.ofZ z /\ (0 <= z <= 100)%Z.
Proof.
  assert (Hq : -1 <= 1 # 2 <= 1) by lra.
  split; [exact Hq|].
  destruct (generateSignal_confidence_range 0 "BTC" None None None [] [] []
              (1 # 2) BULLISH Hq) as (z & Hz & Hr & _).
  exists z. split; [exact Hz|exact Hr].
Defined.


(** The fields [generateSignal] copies from its arguments. *)
Lemma generateSignal_passthrough
    (now : Z) (asset0 : string) (hlData okxData krakenData : option ExchangeData)
    (ws : list WhaleOrder) (sup res : list SupportLevel) (avg : num) (tr : Trend) :
  let s := generateSignal now asset0 hlData okxData krakenData ws sup res avg tr in
  asset s = asset0 /\ trend s = tr /\ whaleOrders s = ws /\
  whaleConsensus s = calculateWhaleConsensus ws /\
  supportLevels s = sup /\ resistanceLevels s = res /\ timestamp s = now /\
  hyperliquid s = default (mkExchangeData JS.zero JS.zero JS.zero JS.zero now) hlData /\
  okx s = default (mkExchangeData JS.zero JS.zero JS.zero JS.zero now) okxData /\
  kraken s = default (mkExchangeData JS.zero JS.zero JS.zero JS.zero now) krakenData.
Proof.
  unfold generateSignal. cbv zeta.
  destruct (isTrend tr BULLISH && _); [repeat split|].
  destruct (isTrend tr BEARISH && _); repeat split.
Qed.

(** C4 as stated fails: two runs on the same arguments that read the clock
    at different instants return signals with different timestamps. *)
Lemma two_runs_differ_in_timestamp :
  ~ (forall now1 now2 asset hlData okxData krakenData ws sup res avg tr,
       generateSignal now1 asset hlData okxData krakenData ws sup res avg tr =
       generateSignal now2 asset hlData okxData krakenData ws sup res avg tr).
Proof.
  intros H.
  specialize (H 0%Z 2000%Z "BTC" None None None [] [] [] JS.zero NEUTRAL).
  apply (f_equal timestamp) in H. cbn in H. discriminate.
Qed.

(** C4, amended: two runs on the same arguments agree on every field that
    is not a clock reading: asset, action, confidence, spread, both
    imbalances, trend, whale orders and consensus, both level lists and the
    data of every venue that is present.  The timestamp of the signal and of
    the zeroed placeholder of an absent venue is the clock reading of the
    run, so the two outputs are identical exactly when these readings are. *)
Theorem generateSignal_deterministic_up_to_clock
    (now1 now2 : Z) (asset0 : string) (hlData okxData krakenData : option ExchangeData)
    (ws : list WhaleOrder) (sup res : list SupportLevel) (avg : num) (tr : Trend) :
  let s1 := generateSignal now1 asset0 hlData okxData krakenData ws sup res avg tr in
  let s2 := generateSignal now2 asset0 hlData okxData krakenData ws sup res avg tr in
  let placeholder now := mkExchangeData JS.zero JS.zero JS.zero JS.zero now in
  (asset s1 = asset s2 /\ action s1 = action s2 /\ confidence s1 = confidence s2 /\
   crossExchangeSpread s1 = crossExchangeSpread s2 /\
   combinedImbalance s1 = combinedImbalance s2 /\ imbalance15m s1 = imbalance15m s2 /\
   trend s1 = trend s2 /\ whaleOrders s1 = whaleOrders s2 /\
   whaleConsensus s1 = whaleConsensus s2 /\
   supportLevels s1 = supportLevels s2 /\ resistanceLevels s1 = resistanceLevels s2) /\
  (hyperliquid s1 = default (placeholder now1) hlData /\
   hyperliquid s2 = default (placeholder now2) hlData /\
   okx s1 = default (placeholder now1) okxData /\
   okx s2 = default (placeholder now2) okxData /\
   kraken s1 = default (placeholder now1) krakenData /\
   kraken s2 = default (placeholder now2) krakenData) /\
  (timestamp s1 = now1 /\ timestamp s2 = now2) /\
  (s1 = s2 <-> now1 = now2).
Proof.
  intros s1 s2 placeholder.
  pose proof (generateSignal_passthrough now1 asset0 hlData okxData krakenData
                ws sup res avg tr) as P1.
  pose proof (generateSignal_passthrough now2 asset0 hlData okxData krakenData
                ws sup res avg tr) as P2.
  cbv zeta in P1, P2. fold s1 in P1. fold s2 in P2.
  destruct P1 as (A1 & T1 & W1 & C1 & S1 & R1 & N1 & H1 & O1 & K1).
  destruct P2 as (A2 & T2 & W2 & C2 & S2 & R2 & N2 & H2 & O2 & K2).
  split; [|split; [|split]].
  - repeat split; try congruence;
      subst s1 s2; unfold generateSignal; cbv zeta;
      destruct hlData, okxData, krakenData;
      (destruct (isTrend tr BULLISH && _); [reflexivity|]);
      (destruct (isTrend tr BEARISH && _); reflexivity).
  - subst placeholder. cbv beta. repeat split; assumption.
  - split; assumption.
  - split; intros E.
    + rewrite E in N1. congruence.
    + subst s1 s2. rewrite E. reflexivity.
Qed.


(** ** The aggregation actor: synchronous reads *)

(** C3 as stated fails: the REST path assigns the freshly computed pair to
    [this.lastData], so the stored last-signal field changes. *)
Lemma first_rest_read_stores_lastData :
  ~ (forall f tBtc tEth st,
       lastData st = None ->
       let st' := snd (OrderFlowDO_fetch Rest f tBtc tEth st) in
       lastData st' = lastData st /\
       imbalanceHistory st' = imbalanceHistory st /\
       sessions st' = sessions st).
Proof.
  intros H.
  destruct (H allAbsent 0%Z 0%Z idleActor eq_refl) as [E _].
  cbn in E. discriminate.
Qed.

(** C3, amended: a REST read that finds no stored pair answers with the
    result of one [fetchAllData] pass, whose two signals carry trend NEUTRAL,
    leaves the imbalance history and the subscriber registry unchanged, and
    stores the returned pair as the last signal. *)
Theorem rest_read_without_snapshot
    (f : Fetched) (tBtc tEth : Z) (st : OrderFlowDO) :
  lastData st = None ->
  let data := fetchAllData f tBtc tEth in
  let r := OrderFlowDO_fetch Rest f tBtc tEth st in
  fst r = Json data /\
  trend (sp_btc data) = NEUTRAL /\ trend (sp_eth data) = NEUTRAL /\
  imbalanceHistory (snd r) = imbalanceHistory st /\
  sessions (snd r) = sessions st /\
  lastData (snd r) = Some data.
Proof.
  intros Hnone data r. subst r. unfold OrderFlowDO_fetch. rewrite Hnone. cbn [fst snd].
  repeat split; try reflexivity.
Qed.

Lemma rest_read_without_snapshot_witness :
  lastData idleActor = None /\
  lastData (snd (OrderFlowDO_fetch Rest allAbsent 0 0 idleActor))
    = Some (fetchAllData allAbsent 0 0).
Proof.
  split; [reflexivity|].
  exact (proj2 (proj2 (proj2 (proj2 (proj2
           (rest_read_without_snapshot allAbsent 0 0 idleActor eq_refl)))))).
Defined.

(** A REST read that finds a stored pair returns it and changes nothing. *)
Lemma rest_read_with_snapshot
    (f : Fetched) (tBtc tEth : Z) (st : OrderFlowDO) (d : SignalPair) :
  lastData st = Some d ->
  OrderFlowDO_fetch Rest f tBtc tEth st = (Json d, st).
Proof. intros H. unfold OrderFlowDO_fetch. rewrite H. reflexivity. Qed.

(** ** The aggregation actor: the polling loop *)

(** Every cycle ends with the 2000 ms sleep and the loop goes on to the next
    one, whatever the cycle bodies did. *)
Lemma startPolling_runs_every_cycle
    (body : CycleInput -> list ImbalanceEntry -> Outcome SignalPair * list ImbalanceEntry)
    (stringify : SignalPair -> Outcome unit)
    (inputs : list CycleInput) (st : OrderFlowDO) :
  length (List.filter isSleep (snd (startPolling body stringify inputs st))) = length inputs.
Proof.
  revert st. induction inputs as [|inp rest IH]; intros st; [reflexivity|].
  cbn [startPolling].
  destruct (pollCycle body stringify inp st) as [st1 ev1] eqn:E1.
  specialize (IH st1). destruct (startPolling body stringify rest st1) as [st2 ev2].
  cbn [snd] in *. rewrite List.filter_app, length_app, IH.
  unfold pollCycle, broadcastCall in E1.
  destruct (body inp (imbalanceHistory st)) as [[d|e] h].
  - destruct (stringify d) as [u|e].
    + destruct (broadcast _ _ _) as [st' served]. injection E1 as <- <-. reflexivity.
    + injection E1 as <- <-. reflexivity.
  - injection E1 as <- <-. reflexivity.
Qed.

(** The loop goes on after a cycle, whatever the cycle did. *)
Lemma startPolling_cons
    (body : CycleInput -> list ImbalanceEntry -> Outcome SignalPair * list ImbalanceEntry)
    (stringify : SignalPair -> Outcome unit)
    (inp : CycleInput) (rest : list CycleInput) (st : OrderFlowDO) :
  startPolling body stringify (inp :: rest) st =
    (fst (startPolling body stringify rest (fst (pollCycle body stringify inp st))),
     snd (pollCycle body stringify inp st)
       ++ snd (startPolling body stringify rest (fst (pollCycle body stringify inp st)))).
Proof.
  cbn [startPolling]. destruct (pollCycle body stringify inp st) as [st1 ev1].
  cbn [fst snd]. destruct (startPolling body stringify rest st1) as [st2 ev2]. reflexivity.
Qed.

(** C9 as stated fails: when the throw comes from the broadcast, the second
    statement of the [try] block, the pair returned by [fetchWithTrend] has
    already been assigned to [this.lastData]. *)
Lemma broadcast_throw_replaces_snapshot :
  ~ (forall body stringify inp st e,
       cycleThrows body stringify inp st e ->
       lastData (fst (pollCycle body stringify inp st)) = lastData st).
Proof.
  intros H.
  assert (Hthrow : cycleThrows fetchWithTrendBody failingStringify (quietCycle 5000)
                     servingActor "serialisation bug").
  { right. eexists. split; [eexists; reflexivity|reflexivity]. }
  apply H in Hthrow. vm_compute in Hthrow. discriminate.
Qed.

(** C9, amended: a throw in a cycle is caught and logged, the subscriber
    registry is what it was, the cycle still ends with the 2000 ms sleep and
    the loop carries on with the remaining cycles.  When the throw comes
    from [fetchWithTrend], the stored signal pair is exactly what it was;
    when it comes from the broadcast that follows, the stored pair is the
    complete pair [fetchWithTrend] has just returned. *)
Theorem pollCycle_error_keeps_snapshot
    (body : CycleInput -> list ImbalanceEntry -> Outcome SignalPair * list ImbalanceEntry)
    (stringify : SignalPair -> Outcome unit)
    (inp : CycleInput) (st : OrderFlowDO) (e : string) :
  cycleThrows body stringify inp st e ->
  let r := pollCycle body stringify inp st in
  snd r = [EvConsoleError e; EvSleep 2000] /\
  sessions (fst r) = sessions st /\
  (fetchThrows body inp st e -> lastData (fst r) = lastData st) /\
  (forall d, broadcastThrows body stringify inp st d e -> lastData (fst r) = Some d) /\
  forall rest : list CycleInput,
    startPolling body stringify (inp :: rest) st =
      (fst (startPolling body stringify rest (fst r)),
       snd r ++ snd (startPolling body stringify rest (fst r))) /\
    length (List.filter isSleep (snd (startPolling body stringify (inp :: rest) st)))
      = S (length rest).
Proof.
  intros Hthrow r.
  assert (Hrest : forall rest : list CycleInput,
    startPolling body stringify (inp :: rest) st =
      (fst (startPolling body stringify rest (fst r)),
       snd r ++ snd (startPolling body stringify rest (fst r))) /\
    length (List.filter isSleep (snd (startPolling body stringify (inp :: rest) st)))
      = S (length rest)).
  { intros rest. split; [apply startPolling_cons|].
    apply (startPolling_runs_every_cycle body stringify (inp :: rest) st). }
  subst r. unfold fetchThrows, broadcastThrows in *.
  destruct Hthrow as [[h Hb]|(d & [h Hb] & Hs)].
  - unfold pollCycle in *. rewrite Hb in *. cbn [fst snd] in *.
    repeat split; try reflexivity; try apply Hrest.
    intros d ([h' Hb'] & _). congruence.
  - unfold pollCycle, broadcastCall in *. rewrite Hb in *. rewrite Hs in *.
    cbn [fst snd] in *.
    repeat split; try reflexivity; try apply Hrest.
    + intros [h' Hb']. congruence.
    + intros d' ([h' Hb'] & _). injection Hb' as <- <-. reflexivity.
Qed.

Lemma pollCycle_error_keeps_snapshot_witness :
  (lastData (fst (pollCycle failingBody stringifySignals (quietCycle 5000) servingActor))
     = lastData servingActor /\
   snd (pollCycle failingBody stringifySignals (quietCycle 5000) servingActor)
     = [EvConsoleError "synthesis bug"; EvSleep 2000]) /\
  (lastData (fst (pollCycle fetchWithTrendBody failingStringify (quietCycle 5000) servingActor))
     = Some (fst (fetchWithTrend allAbsent (clockAt 5000) [])) /\
   snd (pollCycle fetchWithTrendBody failingStringify (quietCycle 5000) servingActor)
     = [EvConsoleError "serialisation bug"; EvSleep 2000]).
Proof.
  split.
  - assert (Hf : fetchThrows failingBody (quietCycle 5000) servingActor "synthesis bug").
    { exists []. reflexivity. }
    destruct (pollCycle_error_keeps_snapshot failingBody stringifySignals (quietCycle 5000)
                servingActor "synthesis bug" (or_introl Hf)) as (H1 & _ & H3 & _).
    split; [exact (H3 Hf)|exact H1].
  - assert (Hb : broadcastThrows fetchWithTrendBody failingStringify (quietCycle 5000)
                   servingActor (fst (fetchWithTrend allAbsent (clockAt 5000) []))
                   "serialisation bug").
    { split; [eexists; reflexivity|reflexivity]. }
    destruct (pollCycle_error_keeps_snapshot fetchWithTrendBody failingStringify
                (quietCycle 5000) servingActor "serialisation bug"
                (or_intror (ex_intro (fun d => broadcastThrows _ _ _ _ d _) _ Hb)))
      as (H1 & _ & _ & H4 & _).
    split; [exact (H4 _ Hb)|exact H1].
Defined.

(** The cycle body of the source always returns. *)
Lemma fetchWithTrendBody_returns (inp : CycleInput) (history : list ImbalanceEntry) :
  exists data h, fetchWithTrendBody inp history = (Returned data, h).
Proof.
  unfold fetchWithTrendBody.
  destruct (fetchWithTrend (ci_fetched inp) (ci_clock inp) history) as [data h].
  exists data, h. reflexivity.
Qed.

(** A cycle whose body returns replaces the stored pair by the returned one
    as a whole and broadcasts it. *)
Lemma pollCycle_success_replaces_snapshot
    (body : CycleInput -> list ImbalanceEntry -> Outcome SignalPair * list ImbalanceEntry)
    (stringify : SignalPair -> Outcome unit)
    (inp : CycleInput) (st : OrderFlowDO) (d : SignalPair) (h : list ImbalanceEntry) :
  body inp (imbalanceHistory st) = (Returned d, h) ->
  lastData (fst (pollCycle body stringify inp st)) = Some d /\
  imbalanceHistory (fst (pollCycle body stringify inp st)) = h.
Proof.
  intros H. unfold pollCycle, broadcastCall. rewrite H.
  destruct (stringify d); cbn; split; reflexivity.
Qed.


(** ** A cycle without any venue *)

Lemma sum_zero_readings (xs : list num) (s : Q) :
  Forall (fun x => JS.eq x JS.zero = true) xs -> s == 0 ->
  exists q, fold_left JS.add xs (Fin s) = Fin q /\ q == 0.
Proof.
  intros HF. revert s. induction HF as [|x xs Hx _ IH]; intros s Hs.
  - exists s. split; [reflexivity|exact Hs].
  - destruct x as [y| | |]; cbn in Hx; try discriminate.
    apply Qeq_bool_iff in Hx. cbn [fold_left JS.add].
    apply IH. lra.
Qed.

(** On a window whose readings are all 0 the tracker reports a zero average
    and NEUTRAL. *)
Lemma calculateTrend_quiet (now : Z) (history : list ImbalanceEntry) (a : AssetKey) :
  quietWindow now history a ->
  exists q, calculateTrend now history a = (Fin q, NEUTRAL) /\ q == 0.
Proof.
  intros HQ. unfold quietWindow in HQ.
  destruct (recentWindow now history) as [|h0 w] eqn:Ew.
  - exists 0. split; [apply calculateTrend_empty_window; exact Ew|reflexivity].
  - assert (Hne : recentWindow now history <> []) by (rewrite Ew; discriminate).
    rewrite (calculateTrend_window _ _ _ Hne).
    assert (Hm : exists q, windowMean now history a = Fin q /\ q == 0).
    { unfold windowMean, windowReadings, JS.sum. rewrite Ew.
      destruct (sum_zero_readings (map (reading a) (h0 :: w)) 0) as (s & Es & Hs).
      - apply Forall_map. exact HQ.
      - reflexivity.
      - unfold JS.zero. rewrite Es. rewrite length_map.
        unfold JS.div, JS.ofZ.
        assert (Hpos : 0 < inject_Z (Z.of_nat (length (h0 :: w)))).
        { change 0 with (inject_Z 0). rewrite <- Zlt_Qlt. cbn [length]. lia. }
        destruct (Qeq_bool _ 0) eqn:E.
        + apply Qeq_bool_iff in E. lra.
        + eexists. split; [reflexivity|]. rewrite Hs. field. lra. }
    destruct Hm as (q & Eq & Hq). rewrite Eq.
    exists q. split; [|exact Hq].
    assert (G : JS.gt (Fin q) (Fin (5 # 100)) = false) by (cbn; apply Qlt_bool_false; lra).
    assert (L : JS.lt (Fin q) (Fin (-5 # 100)) = false) by (cbn; apply Qlt_bool_false; lra).
    rewrite G, L, !andb_false_r. reflexivity.
Qed.

(** With trend NEUTRAL the action is WAIT and the confidence is
    [|avg| * 100] rounded. *)
Lemma generateSignal_neutral
    (now : Z) (asset0 : string) (hlData okxData krakenData : option ExchangeData)
    (ws : list WhaleOrder) (sup res : list SupportLevel) (avg : num) :
  let s := generateSignal now asset0 hlData okxData krakenData ws sup res avg NEUTRAL in
  action s = WAIT /\ confidence s = JS.round (JS.mul (JS.abs avg) (Fin 100)).
Proof. split; reflexivity. Qed.

Lemma round_abs_zero (q : Q) :
  q == 0 -> JS.round (JS.mul (JS.abs (Fin q)) (Fin 100)) = Fin 0.
Proof.
  intros Hq. unfold JS.round, JS.mul, JS.abs, JS.ofZ.
  assert (E : Qabs q * 100 + (1 # 2) == 1 # 2) by (rewrite Hq; reflexivity).
  rewrite (Qfloor_comp _ _ E). reflexivity.
Qed.

Lemma quietWindow_after_record
    (now tTrend : Z) (history : list ImbalanceEntry) (a : AssetKey) :
  quietWindow tTrend history a ->
  quietWindow tTrend
    (List.filter (fun h => (now - 20 * 60 * 1000 <? ie_timestamp h)%Z)
       (history ++ [mkImbalanceEntry now JS.zero JS.zero])) a.
Proof.
  unfold quietWindow, recentWindow. rewrite !List.Forall_forall.
  intros HQ h Hin.
  apply filter_In in Hin as [Hin Hw]. apply filter_In in Hin as [Hin _].
  apply in_app_or in Hin as [Hin|[<-|[]]].
  - apply HQ. apply filter_In. split; assumption.
  - destruct a; reflexivity.
Qed.

Lemma detectLevels_no_book (s : BookSide) (asset0 : string) :
  detectLevels None None None s asset0 = [].
Proof. reflexivity. Qed.

(** C5 as stated fails: after three readings of +0.5 a cycle without any
    venue still sees a BULLISH window (mean 0.375) and signals LONG with
    confidence 95. *)
Lemma outage_cycle_can_signal_long :
  ~ (forall clk history,
       let sp := fst (fetchWithTrend allAbsent clk history) in
       (action (sp_btc sp) = WAIT /\ confidence (sp_btc sp) = Fin 0 /\
        trend (sp_btc sp) = NEUTRAL) /\
       (action (sp_eth sp) = WAIT /\ confidence (sp_eth sp) = Fin 0 /\
        trend (sp_eth sp) = NEUTRAL)).
Proof.
  intros H.
  destruct (H (clockAt 1000000) bullishPrior) as [[Ha _] _].
  vm_compute in Ha. discriminate.
Qed.

(** What the cycle of the counterexample produces. *)
Lemma outage_cycle_after_bullish_readings :
  let sp := fst (fetchWithTrend allAbsent (clockAt 1000000) bullishPrior) in
  action (sp_btc sp) = LONG /\ confidence (sp_btc sp) = Fin 95 /\
  trend (sp_btc sp) = BULLISH.
Proof. vm_compute. repeat split; reflexivity. Qed.

(** C5, amended: in a cycle where every venue is absent both signals have
    empty support, resistance and whale lists whatever the history is; they
    have action WAIT, confidence 0 and trend NEUTRAL when the readings of the
    asset recorded in the last 15 minutes are all 0, in particular when the
    history is empty. *)
Theorem all_absent_cycle (clk : CycleClock) (history : list ImbalanceEntry) :
  let sp := fst (fetchWithTrend allAbsent clk history) in
  (supportLevels (sp_btc sp) = [] /\ resistanceLevels (sp_btc sp) = [] /\
   whaleOrders (sp_btc sp) = [] /\
   supportLevels (sp_eth sp) = [] /\ resistanceLevels (sp_eth sp) = [] /\
   whaleOrders (sp_eth sp) = []) /\
  (quietWindow (t_trend_btc clk) history btc ->
   action (sp_btc sp) = WAIT /\ confidence (sp_btc sp) = Fin 0 /\
   trend (sp_btc sp) = NEUTRAL) /\
  (quietWindow (t_trend_eth clk) history eth ->
   action (sp_eth sp) = WAIT /\ confidence (sp_eth sp) = Fin 0 /\
   trend (sp_eth sp) = NEUTRAL) /\
  (history = [] ->
   action (sp_btc sp) = WAIT /\ confidence (sp_btc sp) = Fin 0 /\
   trend (sp_btc sp) = NEUTRAL /\
   action (sp_eth sp) = WAIT /\ confidence (sp_eth sp) = Fin 0 /\
   trend (sp_eth sp) = NEUTRAL).
Proof.
  intros sp. subst sp. unfold fetchWithTrend.
  change (analyze (hlBtc allAbsent) (Fin 5)) with (@None Analysis).
  change (analyze (hlEth allAbsent) (Fin 50)) with (@None Analysis).
  change (analyze (okxBtc allAbsent) (Fin 5)) with (@None Analysis).
  change (analyze (okxEth allAbsent) (Fin 50)) with (@None Analysis).
  change (analyze (krakenBtc allAbsent) (Fin 5)) with (@None Analysis).
  change (analyze (krakenEth allAbsent) (Fin 50)) with (@None Analysis).
  cbv zeta.
  change (averageOr0 (definedImbalances None None None)) with JS.zero.
  set (h' := List.filter _ (history ++ _)).
  cbn [fst sp_btc sp_eth].
  assert (Qb : quietWindow (t_trend_btc clk) history btc ->
               exists q, calculateTrend (t_trend_btc clk) h' btc = (Fin q, NEUTRAL) /\ q == 0).
  { intros HQ. apply calculateTrend_quiet. apply quietWindow_after_record. exact HQ. }
  assert (Qe : quietWindow (t_trend_eth clk) history eth ->
               exists q, calculateTrend (t_trend_eth clk) h' eth = (Fin q, NEUTRAL) /\ q == 0).
  { intros HQ. apply calculateTrend_quiet. apply quietWindow_after_record. exact HQ. }
  assert (Gb : quietWindow (t_trend_btc clk) history btc ->
    action (generateSignal (t_signal_btc clk) "BTC" None None None [] [] []
              (fst (calculateTrend (t_trend_btc clk) h' btc))
              (snd (calculateTrend (t_trend_btc clk) h' btc))) = WAIT /\
    confidence (generateSignal (t_signal_btc clk) "BTC" None None None [] [] []
              (fst (calculateTrend (t_trend_btc clk) h' btc))
              (snd (calculateTrend (t_trend_btc clk) h' btc))) = Fin 0 /\
    trend (generateSignal (t_signal_btc clk) "BTC" None None None [] [] []
              (fst (calculateTrend (t_trend_btc clk) h' btc))
              (snd (calculateTrend (t_trend_btc clk) h' btc))) = NEUTRAL).
  { intros HQ. destruct (Qb HQ) as (q & -> & Hq). cbn [fst snd].
    destruct (generateSignal_neutral (t_signal_btc clk) "BTC" None None None [] [] [] (Fin q))
      as [Ha Hc].
    split; [exact Ha|]. split; [|reflexivity].
    rewrite Hc. apply round_abs_zero. exact Hq. }
  assert (Ge : quietWindow (t_trend_eth clk) history eth ->
    action (generateSignal (t_signal_eth clk) "ETH" None None None [] [] []
              (fst (calculateTrend (t_trend_eth clk) h' eth))
              (snd (calculateTrend (t_trend_eth clk) h' eth))) = WAIT /\
    confidence (generateSignal (t_signal_eth clk) "ETH" None None None [] [] []
              (fst (calculateTrend (t_trend_eth clk) h' eth))
              (snd (calculateTrend (t_trend_eth clk) h' eth))) = Fin 0 /\
    trend (generateSignal (t_signal_eth clk) "ETH" None None None [] [] []
              (fst (calculateTrend (t_trend_eth clk) h' eth))
              (snd (calculateTrend (t_trend_eth clk) h' eth))) = NEUTRAL).
  { intros HQ. destruct (Qe HQ) as (q & -> & Hq). cbn [fst snd].
    destruct (generateSignal_neutral (t_signal_eth clk) "ETH" None None None [] [] [] (Fin q))
      as [Ha Hc].
    split; [exact Ha|]. split; [|reflexivity].
    rewrite Hc. apply round_abs_zero. exact Hq. }
  split; [|split; [|split]].
  - pose proof (generateSignal_passthrough (t_signal_btc clk) "BTC" None None None [] [] []
                  (fst (calculateTrend (t_trend_btc clk) h' btc))
                  (snd (calculateTrend (t_trend_btc clk) h' btc))) as Pb.
    pose proof (generateSignal_passthrough (t_signal_eth clk) "ETH" None None None [] [] []
                  (fst (calculateTrend (t_trend_eth clk) h' eth))
                  (snd (calculateTrend (t_trend_eth clk) h' eth))) as Pe.
    cbv zeta in Pb, Pe.
    destruct Pb as (_ & _ & Wb & _ & Sb & Rb & _).
    destruct Pe as (_ & _ & We & _ & Se & Re & _).
    repeat split; assumption.
  - exact Gb.
  - exact Ge.
  - intros ->.
    destruct Gb as (? & ? & ?); [constructor|].
    destruct Ge as (? & ? & ?); [constructor|].
    repeat split; assumption.
Qed.

(** C5 amended, on the first cycle of an actor (empty history). *)
Lemma all_absent_cycle_witness :
  let sp := fst (fetchWithTrend allAbsent (clockAt 1000000) []) in
  action (sp_btc sp) = WAIT /\ confidence (sp_btc sp) = Fin 0 /\
  trend (sp_btc sp) = NEUTRAL /\
  action (sp_eth sp) = WAIT /\ confidence (sp_eth sp) = Fin 0 /\
  trend (sp_eth sp) = NEUTRAL.
Proof.
  exact (proj2 (proj2 (proj2 (all_absent_cycle (clockAt 1000000) []))) eq_refl).
Defined.


(** ** Level Detector *)

Lemma sameb_refl (a : num) : JS.sameb a a = true.
Proof. destruct a; cbn; try reflexivity. apply Qeq_bool_iff. reflexivity. Qed.

Lemma sameb_sym (a b : num) : JS.sameb a b = JS.sameb b a.
Proof.
  destruct a, b; cbn; try reflexivity.
  destruct (Qeq_bool q q0) eqn:E1, (Qeq_bool q0 q) eqn:E2; try reflexivity.
  - apply Qeq_bool_iff in E1. symmetry in E1. apply Qeq_bool_iff in E1. congruence.
  - apply Qeq_bool_iff in E2. symmetry in E2. apply Qeq_bool_iff in E2. congruence.
Qed.

Lemma sameb_trans (a b c : num) :
  JS.sameb a b = true -> JS.sameb b c = true -> JS.sameb a c = true.
Proof.
  destruct a, b, c; cbn; try discriminate; try reflexivity.
  rewrite !Qeq_bool_iff. intros H1 H2. rewrite H1. exact H2.
Qed.

(** Two keys the map identifies select the same entries. *)
Lemma sameb_cong (a b c : num) :
  JS.sameb a b = true -> JS.sameb a c = JS.sameb b c.
Proof.
  intros H. destruct (JS.sameb b c) eqn:E.
  - eapply sameb_trans; eassumption.
  - destruct (JS.sameb a c) eqn:E2; [|reflexivity].
    rewrite sameb_sym in H. rewrite (sameb_trans _ _ _ H E2) in E. discriminate.
Qed.

Section MapLaws.

Context {V : Type}.
Implicit Types (m : list (num * V)) (k : num) (v : V).

Lemma map_get_sameb k k' m : JS.sameb k k' = true -> map_get k m = map_get k' m.
Proof.
  intros H. induction m as [|[k0 v0] m IH]; cbn; [reflexivity|].
  rewrite (sameb_sym k0 k), (sameb_sym k0 k'), (sameb_cong _ _ _ H), IH. reflexivity.
Qed.

Lemma map_get_set k k' v m :
  map_get k (map_set k' v m) = if JS.sameb k' k then Some v else map_get k m.
Proof.
  induction m as [|[k0 v0] m IH]; cbn.
  - reflexivity.
  - destruct (JS.sameb k0 k') eqn:E0; cbn.
    + rewrite (sameb_cong _ _ k E0). destruct (JS.sameb k' k); reflexivity.
    + rewrite IH. destruct (JS.sameb k0 k) eqn:E1; [|reflexivity].
      destruct (JS.sameb k' k) eqn:E2; [|reflexivity].
      rewrite sameb_sym in E2. rewrite (sameb_trans _ _ _ E1 E2) in E0. discriminate.
Qed.

(** [set] introduces no key other than its argument. *)
Lemma map_set_keys k k' v m :
  In k (map fst (map_set k' v m)) -> In k (map fst m) \/ k = k'.
Proof.
  induction m as [|[k0 v0] m IH]; cbn.
  - intros [<-|[]]. right. reflexivity.
  - destruct (JS.sameb k0 k'); cbn.
    + intros [<-|H]; auto.
    + intros [<-|H]; auto. destruct (IH H); auto.
Qed.

Lemma map_get_Some_In k v m :
  map_get k m = Some v -> exists k0, In (k0, v) m /\ JS.sameb k0 k = true.
Proof.
  induction m as [|[k0 v0] m IH]; cbn; [discriminate|].
  destruct (JS.sameb k0 k) eqn:E.
  - intros [= <-]. exists k0. auto.
  - intros H. destruct (IH H) as (k1 & Hin & Hs). exists k1. auto.
Qed.

End MapLaws.

(** The bucket at [key] after one more order. *)
Lemma addOrder_get (roundTo : num) (v : Venue) (key : num)
    (levels : list (num * Bucket)) (o : num * num) :
  map_get key (addOrder roundTo v levels o) =
    if JS.sameb (roundedPrice roundTo (fst o)) key
    then Some (bump v (map_get key levels) (snd o))
    else map_get key levels.
Proof.
  unfold addOrder. rewrite map_get_set.
  destruct (JS.sameb (roundedPrice roundTo (fst o)) key) eqn:E; [|reflexivity].
  rewrite (map_get_sameb _ _ _ E). reflexivity.
Qed.

(** The bucket at [key] after a venue's orders: only the orders that fall
    into the bucket matter. *)
Lemma addOrders_get (roundTo : num) (v : Venue) (key : num)
    (orders : list (num * num)) (levels : list (num * Bucket)) :
  map_get key (fold_left (addOrder roundTo v) orders levels) =
    fold_left (fun ob o => Some (bump v ob (snd o)))
              (bucketOrders roundTo key orders) (map_get key levels).
Proof.
  revert levels. induction orders as [|o os IH]; intros levels; cbn; [reflexivity|].
  rewrite IH, addOrder_get.
  destruct (JS.sameb (roundedPrice roundTo (fst o)) key); reflexivity.
Qed.

Lemma addBook_get (roundTo : num) (s : BookSide) (v : Venue) (key : num)
    (book : option OrderBook) (levels : list (num * Bucket)) :
  map_get key (addBook roundTo s v book levels) =
    fold_left (fun ob o => Some (bump v ob (snd o)))
              (bucketOrders roundTo key (ordersOf s book)) (map_get key levels).
Proof.
  destruct book as [b|]; cbn; [apply addOrders_get|reflexivity].
Qed.

(** Every key of the map is the rounded price of an order that was added. *)
Lemma addOrders_keys (roundTo : num) (v : Venue) (k : num)
    (orders : list (num * num)) (levels : list (num * Bucket)) :
  In k (map fst (fold_left (addOrder roundTo v) orders levels)) ->
  In k (map fst levels) \/ exists o, In o orders /\ k = roundedPrice roundTo (fst o).
Proof.
  revert levels. induction orders as [|o os IH]; intros levels; cbn; [auto|].
  intros H. destruct (IH _ H) as [H1|(o' & Hin & E)].
  - unfold addOrder in H1. apply map_set_keys in H1 as [H1|H1]; [auto|].
    right. exists o. auto.
  - right. exists o'. auto.
Qed.

Lemma addBook_keys (roundTo : num) (s : BookSide) (v : Venue) (k : num)
    (book : option OrderBook) (levels : list (num * Bucket)) :
  In k (map fst (addBook roundTo s v book levels)) ->
  In k (map fst levels) \/
  exists o, In o (ordersOf s book) /\ k = roundedPrice roundTo (fst o).
Proof.
  destruct book as [b|]; cbn; [apply addOrders_keys|auto].
Qed.

(** The sort only rearranges. *)
Lemma insertLevel_In (x y : SupportLevel) (l : list SupportLevel) :
  In y (insertLevel x l) <-> y = x \/ In y l.
Proof.
  induction l as [|z l IH]; cbn [insertLevel]; [cbn; intuition|].
  destruct (JS.gt (compareStrength x z) JS.zero).
  - split.
    + intros [<-|H]; [right; left; reflexivity|].
      apply IH in H as [H|H]; [left; exact H|right; right; exact H].
    + intros [->|[<-|H]]; [right; apply IH; left; reflexivity|left; reflexivity|].
      right. apply IH. right. exact H.
  - cbn. intuition.
Qed.

Lemma insertLevel_length (x : SupportLevel) (l : list SupportLevel) :
  length (insertLevel x l) = S (length l).
Proof.
  induction l as [|z l IH]; cbn [insertLevel]; [reflexivity|].
  destruct (JS.gt (compareStrength x z) JS.zero); cbn [length]; [rewrite IH|]; reflexivity.
Qed.

Lemma sortByStrength_In (y : SupportLevel) (l : list SupportLevel) :
  In y (sortByStrength l) <-> In y l.
Proof.
  induction l as [|x l IH]; cbn [sortByStrength]; [reflexivity|].
  rewrite insertLevel_In, IH. cbn. intuition.
Qed.

Lemma sortByStrength_length (l : list SupportLevel) :
  length (sortByStrength l) = length l.
Proof.
  induction l as [|x l IH]; cbn [sortByStrength]; [reflexivity|].
  rewrite insertLevel_length, IH. reflexivity.
Qed.

(** A retained bucket is scored. *)
Lemma scoreLevels_In (asset0 : string) (midPrice0 k : num) (b : Bucket)
    (levels : list (num * Bucket)) :
  In (k, b) levels -> tooFar midPrice0 k = false ->
  In (scoreLevel asset0 k b) (scoreLevels asset0 midPrice0 levels).
Proof.
  intros Hin Hfar. unfold scoreLevels.
  apply (in_map (fun e => scoreLevel asset0 (fst e) (snd e)) _ (k, b)).
  apply filter_In. split; [exact Hin|]. cbn. rewrite Hfar. reflexivity.
Qed.

(** Under [twoVenuesAt96000] the bucket 96000 holds 24 units from exactly
    two venues. *)
Lemma bucket_96000_contents (hlBook okxBook krakenBook : option OrderBook) (s : BookSide) :
  twoVenuesAt96000 hlBook okxBook krakenBook s ->
  exists b, map_get (Fin 96000) (collectLevels hlBook okxBook krakenBook s "BTC") = Some b /\
            b_size b = Fin 24 /\
            (b2n (hasHL b) + b2n (hasOKX b) + b2n (hasKraken b) = 2)%nat.
Proof.
  unfold twoVenuesAt96000, placesOnly, placesNothing, collectLevels.
  change (roundToOf "BTC") with (Fin 100).
  intros H. rewrite !addBook_get.
  destruct H as [(-> & -> & ->)|[(-> & -> & ->)|(-> & -> & ->)]];
    eexists; (split; [reflexivity|]); split; reflexivity.
Qed.

(** Under [twoVenuesAt96000] the key of that bucket is the number 96000
    itself. *)
Lemma bucket_96000_key (hlBook okxBook krakenBook : option OrderBook) (s : BookSide)
    (k : num) :
  twoVenuesAt96000 hlBook okxBook krakenBook s ->
  In k (map fst (collectLevels hlBook okxBook krakenBook s "BTC")) ->
  JS.sameb k (Fin 96000) = true -> k = Fin 96000.
Proof.
  intros H Hin Hs. unfold collectLevels in Hin.
  change (roundToOf "BTC") with (Fin 100) in Hin.
  assert (Hord : forall book o,
             In book [hlBook; okxBook; krakenBook] ->
             In o (ordersOf s book) -> k = roundedPrice (Fin 100) (fst o) ->
             k = Fin 96000).
  { intros book o Hb Ho ->.
    assert (Hf : In o (bucketOrders (Fin 100) (Fin 96000) (ordersOf s book))).
    { apply filter_In. split; assumption. }
    unfold twoVenuesAt96000, placesOnly, placesNothing in H.
    cbn in Hb.
    destruct H as [(H1 & H2 & H3)|[(H1 & H2 & H3)|(H1 & H2 & H3)]];
      destruct Hb as [<-|[<-|[<-|[]]]];
      rewrite ?H1, ?H2, ?H3 in Hf; cbn in Hf;
      try contradiction; destruct Hf as [<-|[]]; reflexivity. }
  apply addBook_keys in Hin as [Hin|(o & Ho & E)];
    [|eapply (Hord krakenBook); [cbn; auto|eassumption|exact E]].
  apply addBook_keys in Hin as [Hin|(o & Ho & E)];
    [|eapply (Hord okxBook); [cbn; auto|eassumption|exact E]].
  apply addBook_keys in Hin as [Hin|(o & Ho & E)];
    [|eapply (Hord hlBook); [cbn; auto|eassumption|exact E]].
  destruct Hin.
Qed.

(** The score of a bucket at 96000 with 24 units from two venues. *)
Lemma score_96000 (b : Bucket) :
  b_size b = Fin 24 ->
  (b2n (hasHL b) + b2n (hasOKX b) + b2n (hasKraken b) = 2)%nat ->
  let l := scoreLevel "BTC" (Fin 96000) b in
  sl_price l = Fin 96000 /\ sl_strength l = Fin 95 /\ sl_type l = wall /\
  exchangeCount l = 2%nat /\ isRoundNumber l = true.
Proof.
  destruct b as [sz h o k]. cbn [b_size hasHL hasOKX hasKraken].
  intros -> Hc.
  destruct h, o, k; cbn in Hc; try discriminate; vm_compute; repeat split; reflexivity.
Qed.


(** Finite order sizes give finite bucket sizes and finite strengths. *)
Lemma map_set_Forall {V : Type} (P : num * V -> Prop) (k : num) (v : V)
    (m : list (num * V)) :
  (forall k', P (k', v)) -> Forall P m -> Forall P (map_set k v m).
Proof.
  intros Hv HF. induction HF as [|[k0 v0] m H0 HF IH]; cbn.
  - constructor; [apply Hv|constructor].
  - destruct (JS.sameb k0 k); constructor; auto.
Qed.

Lemma addOrder_finite (roundTo : num) (v : Venue) (levels : list (num * Bucket))
    (o : num * num) :
  finiteSize o -> Forall finiteBucket levels ->
  Forall finiteBucket (addOrder roundTo v levels o).
Proof.
  intros [q Hq] HF. unfold addOrder. apply map_set_Forall; [|exact HF].
  intros k'. unfold finiteBucket. cbn [snd].
  assert (He : exists e, b_size (default freshBucket
                 (map_get (roundedPrice roundTo (fst o)) levels)) = Fin e).
  { destruct (map_get _ levels) as [b|] eqn:E; cbn.
    - apply map_get_Some_In in E as (k0 & Hin & _).
      rewrite List.Forall_forall in HF. exact (HF _ Hin).
    - exists 0. reflexivity. }
  destruct He as [e He]. rewrite Hq.
  destruct v; cbn; rewrite He; eexists; reflexivity.
Qed.

Lemma addBook_finite (roundTo : num) (s : BookSide) (v : Venue)
    (book : option OrderBook) (levels : list (num * Bucket)) :
  Forall finiteSize (ordersOf s book) -> Forall finiteBucket levels ->
  Forall finiteBucket (addBook roundTo s v book levels).
Proof.
  destruct book as [b|]; cbn; [|auto].
  generalize (sideOrders s b). intros os Hos. revert levels.
  induction Hos as [|o os Ho Hos IH]; intros levels HF; cbn; [exact HF|].
  apply IH. apply addOrder_finite; assumption.
Qed.

Lemma fin_add (a b : num) :
  (exists x, a = Fin x) -> (exists y, b = Fin y) -> exists z, JS.add a b = Fin z.
Proof. intros [x ->] [y ->]. eexists. reflexivity. Qed.

Lemma fin_mul (a b : num) :
  (exists x, a = Fin x) -> (exists y, b = Fin y) -> exists z, JS.mul a b = Fin z.
Proof. intros [x ->] [y ->]. eexists. reflexivity. Qed.

Lemma fin_min (a b : num) :
  (exists x, a = Fin x) -> (exists y, b = Fin y) -> exists z, JS.min a b = Fin z.
Proof.
  intros [x ->] [y ->]. cbn. destruct (JS.Qlt_bool y x); eexists; reflexivity.
Qed.

Lemma fin_round (a : num) : (exists x, a = Fin x) -> exists z, JS.round a = Fin z.
Proof. intros [x ->]. eexists. reflexivity. Qed.

Lemma fin_if (c : bool) (a b : num) :
  (exists x, a = Fin x) -> (exists y, b = Fin y) ->
  exists z, (if c then a else b) = Fin z.
Proof. destruct c; auto. Qed.

Lemma scoreLevel_finite (k : num) (b : Bucket) :
  finiteBucket (k, b) -> finiteStrength (scoreLevel "BTC" k b).
Proof.
  intros [q Hq]. cbn in Hq. unfold finiteStrength, scoreLevel. cbv zeta.
  cbn [sl_strength]. rewrite Hq.
  change (sizeThresholdOf "BTC") with (Fin 10).
  change (JS.div (Fin q) (Fin 10)) with (Fin (q / 10)).
  apply fin_min; [eexists; reflexivity|]. apply fin_round.
  assert (H1 : exists z, JS.add JS.zero (JS.min (Fin 50) (JS.mul (Fin (q / 10)) (Fin 50)))
                         = Fin z).
  { apply fin_add; [eexists; reflexivity|].
    apply fin_min; [eexists; reflexivity|]. apply fin_mul; eexists; reflexivity. }
  repeat (apply fin_if; [apply fin_add; [|eexists; reflexivity]|]); exact H1.
Qed.

Lemma scoreLevels_finite (hlBook okxBook krakenBook : option OrderBook) (s : BookSide)
    (midPrice0 : num) :
  Forall finiteSize (ordersOf s hlBook) ->
  Forall finiteSize (ordersOf s okxBook) ->
  Forall finiteSize (ordersOf s krakenBook) ->
  Forall finiteStrength
    (scoreLevels "BTC" midPrice0 (collectLevels hlBook okxBook krakenBook s "BTC")).
Proof.
  intros H1 H2 H3.
  assert (HF : Forall finiteBucket (collectLevels hlBook okxBook krakenBook s "BTC")).
  { unfold collectLevels. repeat (apply addBook_finite; [assumption|]). constructor. }
  unfold scoreLevels. rewrite List.Forall_forall in *.
  intros l Hl. apply in_map_iff in Hl as ([k b] & <- & Hin).
  apply filter_In in Hin as [Hin _]. apply scoreLevel_finite. exact (HF _ Hin).
Qed.

(** On finite strengths the comparator orders by strength. *)
Lemma compareStrength_gt (x y : SupportLevel) :
  finiteStrength x -> finiteStrength y ->
  (JS.gt (compareStrength x y) JS.zero = true <-> strengthQ x < strengthQ y).
Proof.
  intros [a Ha] [b Hb]. unfold compareStrength, strengthQ. rewrite Ha, Hb. cbn.
  rewrite Qlt_bool_iff. split; intros H; lra.
Qed.

Lemma ge_fin (a b : Q) : JS.ge (Fin a) (Fin b) = true <-> b <= a.
Proof.
  unfold JS.ge, JS.gt. cbn. rewrite orb_true_iff, Qlt_bool_iff, Qeq_bool_iff.
  split; [intros [H|H]; lra|].
  intros H. destruct (Qlt_le_dec b a) as [Hlt|Hle]; [left; exact Hlt|right; lra].
Qed.

(** Inserting a level keeps every level that was ahead of [t] at least as
    strong as [t]. *)
Lemma insertLevel_keeps_prefix (x t : SupportLevel) (pre post : list SupportLevel) :
  finiteStrength x -> finiteStrength t ->
  Forall finiteStrength pre ->
  Forall (fun y => strengthQ t <= strengthQ y) pre ->
  exists pre' post',
    insertLevel x (pre ++ t :: post) = pre' ++ t :: post' /\
    Forall finiteStrength pre' /\
    Forall (fun y => strengthQ t <= strengthQ y) pre'.
Proof.
  intros Hx Ht Hfin Hge. induction pre as [|y pre IH]; cbn [app insertLevel].
  - destruct (JS.gt (compareStrength x t) JS.zero) eqn:E.
    + exists [], (insertLevel x post). cbn. auto.
    + exists [x], post. cbn. repeat split; auto.
      constructor; [|constructor].
      apply Qnot_lt_le. intros Hlt. apply (compareStrength_gt x t Hx Ht) in Hlt. congruence.
  - inversion Hfin as [|? ? Hy Hfin']; subst. inversion Hge as [|? ? Hyt Hge']; subst.
    destruct (JS.gt (compareStrength x y) JS.zero) eqn:E.
    + destruct (IH Hfin' Hge') as (pre' & post' & E' & F1 & F2).
      exists (y :: pre'), post'. rewrite E'. cbn. auto.
    + exists (x :: y :: pre), post. cbn. repeat split; auto.
      constructor; [|constructor; assumption].
      assert (strengthQ y <= strengthQ x).
      { apply Qnot_lt_le. intros Hlt. apply (compareStrength_gt x y Hx Hy) in Hlt. congruence. }
      lra.
Qed.

(** A freshly inserted level only has stronger levels ahead of it. *)
Lemma insertLevel_prefix (x : SupportLevel) (l : list SupportLevel) :
  finiteStrength x -> Forall finiteStrength l ->
  exists pre post,
    insertLevel x l = pre ++ x :: post /\
    Forall finiteStrength pre /\
    Forall (fun y => strengthQ x <= strengthQ y) pre.
Proof.
  intros Hx Hl. induction Hl as [|y l Hy Hl IH]; cbn [insertLevel].
  - exists [], []. cbn. auto.
  - destruct (JS.gt (compareStrength x y) JS.zero) eqn:E.
    + destruct IH as (pre & post & E' & F1 & F2).
      exists (y :: pre), post. rewrite E'. cbn. repeat split; auto.
      constructor; [|exact F2].
      apply (compareStrength_gt x y Hx Hy) in E. lra.
    + exists [], (y :: l). cbn. auto.
Qed.

Lemma sortByStrength_finite (l : list SupportLevel) :
  Forall finiteStrength l -> Forall finiteStrength (sortByStrength l).
Proof.
  rewrite !List.Forall_forall. intros H x Hx. apply H, sortByStrength_In, Hx.
Qed.

(** After the sort, every level ahead of [t] is at least as strong as [t]. *)
Lemma sortByStrength_prefix (t : SupportLevel) (l : list SupportLevel) :
  Forall finiteStrength l -> In t l ->
  exists pre post,
    sortByStrength l = pre ++ t :: post /\
    Forall finiteStrength pre /\
    Forall (fun y => strengthQ t <= strengthQ y) pre.
Proof.
  intros Hl. induction Hl as [|x l Hx Hl IH]; intros Hin; [destruct Hin|].
  cbn [sortByStrength]. destruct Hin as [<-|Hin].
  - apply insertLevel_prefix; [exact Hx|]. apply sortByStrength_finite. exact Hl.
  - destruct (IH Hin) as (pre & post & E & F1 & F2). rewrite E.
    apply insertLevel_keeps_prefix; auto.
    rewrite List.Forall_forall in Hl. exact (Hl _ Hin).
Qed.

Lemma filter_length_insertLevel (p : SupportLevel -> bool) (x : SupportLevel)
    (l : list SupportLevel) :
  length (List.filter p (insertLevel x l)) = length (List.filter p (x :: l)).
Proof.
  induction l as [|y l IH]; cbn [insertLevel]; [reflexivity|].
  destruct (JS.gt (compareStrength x y) JS.zero); [|reflexivity].
  cbn [List.filter] in *. destruct (p y), (p x); cbn [length] in *; lia.
Qed.

Lemma filter_length_sortByStrength (p : SupportLevel -> bool) (l : list SupportLevel) :
  length (List.filter p (sortByStrength l)) = length (List.filter p l).
Proof.
  induction l as [|x l IH]; cbn [sortByStrength]; [reflexivity|].
  rewrite filter_length_insertLevel. cbn [List.filter].
  destruct (p x); cbn [length]; rewrite IH; reflexivity.
Qed.

Lemma filter_all_length {A : Type} (p : A -> bool) (l : list A) :
  Forall (fun x => p x = true) l -> length (List.filter p l) = length l.
Proof.
  induction 1 as [|x l Hx _ IH]; cbn; [reflexivity|]. rewrite Hx. cbn. rewrite IH. reflexivity.
Qed.

(** A level of strength 95 survives the top-5 cut when at most five levels
    score 95 or more. *)
Lemma top5_keeps_strength_95 (t : SupportLevel) (l : list SupportLevel) :
  Forall finiteStrength l -> In t l -> sl_strength t = Fin 95 ->
  (length (List.filter scores95 l) <= 5)%nat ->
  In t (take 5 (sortByStrength l)).
Proof.
  intros Hl Hin Ht Hcnt.
  destruct (sortByStrength_prefix t l Hl Hin) as (pre & post & E & F1 & F2).
  assert (Hpre : Forall (fun y => scores95 y = true) pre).
  { rewrite List.Forall_forall in *. intros y Hy.
    destruct (F1 y Hy) as [q Hq]. specialize (F2 y Hy).
    unfold strengthQ in F2. rewrite Ht, Hq in F2.
    unfold scores95. rewrite Hq. apply ge_fin. exact F2. }
  assert (Hlen : (length pre < 5)%nat).
  { rewrite <- (filter_length_sortByStrength scores95), E in Hcnt.
    rewrite List.filter_app, length_app, (filter_all_length _ _ Hpre) in Hcnt.
    cbn [List.filter] in Hcnt.
    assert (Et : scores95 t = true) by (unfold scores95; rewrite Ht; apply ge_fin; lra).
    rewrite Et in Hcnt. cbn [length] in Hcnt. lia. }
  rewrite E. apply list_elem_of_In. apply (list_elem_of_lookup_2 _ (length pre)).
  rewrite lookup_take_lt by exact Hlen.
  rewrite lookup_app_r by lia. rewrite Nat.sub_diag. reflexivity.
Qed.


(** C8 as stated fails: with five round levels shared by all three venues
    above it (each scoring 100), the bucket 96000 of the two venues scores 95,
    is sixth after the sort and is cut by [slice(0, 5)]. *)
Lemma top5_cut_drops_level_at_96000 :
  ~ (forall hlBook okxBook krakenBook s,
       twoVenuesAt96000 hlBook okxBook krakenBook s ->
       exists l, In l (detectLevels hlBook okxBook krakenBook s "BTC") /\
                 isWallAt96000 l).
Proof.
  intros H.
  destruct (H (Some crowdedBook) (Some crowdedBook) (Some crowdedBookWithout96000) SideBids)
    as (l & Hin & Hp & _).
  { left. repeat split; reflexivity. }
  vm_compute in Hin.
  repeat (destruct Hin as [<-|Hin]; [vm_compute in Hp; discriminate|]).
  exact Hin.
Qed.

(** C8, amended: when exactly two venues place 12 units at exactly 96000,
    nothing else falls into that bucket and the order sizes are finite, the
    detector returns a level at 96000 with exchangeCount 2, isRoundNumber
    true, type wall and strength 95, provided the bucket is not further than
    5% from the reference price and at most five of the scored levels (this
    one included) have strength 95 or more, so that the top-5 cut keeps it. *)
Theorem detectLevels_wall_at_96000
    (hlBook okxBook krakenBook : option OrderBook) (s : BookSide) :
  twoVenuesAt96000 hlBook okxBook krakenBook s ->
  Forall finiteSize (ordersOf s hlBook ++ ordersOf s okxBook ++ ordersOf s krakenBook) ->
  tooFar (referencePrice hlBook okxBook krakenBook) (Fin 96000) = false ->
  (length (List.filter scores95 (scoredLevels hlBook okxBook krakenBook s "BTC")) <= 5)%nat ->
  exists l, In l (detectLevels hlBook okxBook krakenBook s "BTC") /\
            isWallAt96000 l /\
            sl_price l = Fin 96000 /\ sl_strength l = Fin 95.
Proof.
  intros Htwo Hfin Hfar Hcnt.
  apply Forall_app in Hfin as [Hf1 Hfin]. apply Forall_app in Hfin as [Hf2 Hf3].
  destruct (bucket_96000_contents _ _ _ _ Htwo) as (b & Hget & Hsz & Hcount).
  apply map_get_Some_In in Hget as (k0 & Hin & Hk).
  assert (Ek : k0 = Fin 96000).
  { apply (bucket_96000_key hlBook okxBook krakenBook s); [exact Htwo| |exact Hk].
    apply (in_map fst) in Hin. exact Hin. }
  subst k0.
  destruct (score_96000 b Hsz Hcount) as (Hp & Hst & Hty & Hec & Hrn).
  exists (scoreLevel "BTC" (Fin 96000) b).
  split.
  - unfold detectLevels. cbv zeta.
    apply top5_keeps_strength_95.
    + apply scoreLevels_finite; assumption.
    + apply scoreLevels_In; assumption.
    + exact Hst.
    + exact Hcnt.
  - unfold isWallAt96000. rewrite Hp, Hst, Hty, Hec, Hrn.
    repeat split; reflexivity.
Qed.

(** C8 amended, on the scenario of the spec (Hyperliquid and OKX each bid 12
    at 96000, Kraken is absent) and on a book where the level is kept among
    other, weaker levels. *)
Lemma detectLevels_wall_at_96000_witness :
  (exists l, In l (detectLevels (Some loneBook) (Some loneBook) None SideBids "BTC") /\
             isWallAt96000 l) /\
  (exists l, In l (detectLevels (Some busyBook) None (Some busyBook) SideBids "BTC") /\
             isWallAt96000 l).
Proof.
  split.
  - destruct (detectLevels_wall_at_96000 (Some loneBook) (Some loneBook) None SideBids)
      as (l & Hin & Hw & _).
    + left. repeat split; reflexivity.
    + repeat constructor; eexists; reflexivity.
    + reflexivity.
    + apply Nat.leb_le. vm_compute. reflexivity.
    + exists l. split; assumption.
  - destruct (detectLevels_wall_at_96000 (Some busyBook) None (Some busyBook) SideBids)
      as (l & Hin & Hw & _).
    + right. left. repeat split; reflexivity.
    + repeat constructor; eexists; reflexivity.
    + vm_compute. reflexivity.
    + apply Nat.leb_le. vm_compute. reflexivity.
    + exists l. split; assumption.
Defined.


(** * Further properties of the code *)

(** ** Book Analyzer *)

(** X1: the depths, the imbalance and the mid price only see the ten best
    levels of each side: levels appended to a side behind ten or more
    existing ones change none of them, whatever the other side holds. *)
Theorem analyzeOrderBook_ignores_levels_beyond_10
    (bs as_ moreBids moreAsks : list (num * num)) (ts ts' : Z) (threshold : num) :
  moreBids = [] \/ (10 <= length bs)%nat ->
  moreAsks = [] \/ (10 <= length as_)%nat ->
  let r := analyzeOrderBook (mkOrderBook bs as_ ts) threshold in
  let r' := analyzeOrderBook (mkOrderBook (bs ++ moreBids) (as_ ++ moreAsks) ts') threshold in
  an_bidDepth r' = an_bidDepth r /\ an_askDepth r' = an_askDepth r /\
  an_imbalance r' = an_imbalance r /\ midPrice r' = midPrice r.
Proof.
  intros Hb Ha r r'. subst r r'. unfold analyzeOrderBook, depth. cbn [bids asks].
  cbn [an_bidDepth an_askDepth an_imbalance midPrice].
  assert (Eb : take 10 (bs ++ moreBids) = take 10 bs).
  { destruct Hb as [-> | Hb]; [rewrite app_nil_r; reflexivity|apply take_app_le; exact Hb]. }
  assert (Ea : take 10 (as_ ++ moreAsks) = take 10 as_).
  { destruct Ha as [-> | Ha]; [rewrite app_nil_r; reflexivity|apply take_app_le; exact Ha]. }
  rewrite Eb, Ea. repeat split; try reflexivity.
  assert (Hb' : bs ++ moreBids = bs \/ exists b bs', bs = b :: bs').
  { destruct Hb as [-> | Hb]; [left; apply app_nil_r|right].
    destruct bs as [|b bs']; [cbn in Hb; lia|eauto]. }
  assert (Ha' : as_ ++ moreAsks = as_ \/ exists a as', as_ = a :: as').
  { destruct Ha as [-> | Ha]; [left; apply app_nil_r|right].
    destruct as_ as [|a as']; [cbn in Ha; lia|eauto]. }
  destruct Hb' as [-> | (b & bs' & ->)]; destruct Ha' as [-> | (a & as' & ->)];
    reflexivity.
Qed.

Lemma analyzeOrderBook_ignores_levels_beyond_10_witness :
  an_imbalance (analyzeOrderBook
                  (mkOrderBook (tenBids ++ [(Fin 95000, Fin 500)])
                               [(Fin 96010, Fin 2)] 5) (Fin 5))
  = an_imbalance (analyzeOrderBook (mkOrderBook tenBids [(Fin 96010, Fin 2)] 0) (Fin 5)).
Proof.
  refine (proj1 (proj2 (proj2
    (analyzeOrderBook_ignores_levels_beyond_10 tenBids [(Fin 96010, Fin 2)]
       [(Fin 95000, Fin 500)] [] 0 5 (Fin 5) _ _)))).
  - right. cbn. lia.
  - left. reflexivity.
Defined.

Lemma in_whalesOf (s : WhaleSide) (threshold : num) (levels : list (num * num))
    (w : WhaleOrder) :
  In w (whalesOf s threshold levels) <->
  exists p sz, In (p, sz) (take 20 levels) /\ JS.ge sz threshold = true /\
               w = mkWhaleOrder "" s p sz.
Proof.
  unfold whalesOf. rewrite in_map_iff. split.
  - intros ([p sz] & <- & Hin). apply filter_In in Hin as [Hin Hge].
    exists p, sz. auto.
  - intros (p & sz & Hin & Hge & ->). exists (p, sz). split; [reflexivity|].
    apply filter_In. auto.
Qed.

(** X2: the whale list is exactly the top-20 levels of each side whose size
    reaches the threshold: every such level is reported with its side, price
    and size (and an empty exchange name), nothing else is, and the bid
    whales precede the ask whales. *)
Theorem analyzeOrderBook_whales_exact (book : OrderBook) (threshold : num) :
  let r := analyzeOrderBook book threshold in
  (forall w, In w (whales r) <->
     exists p sz,
       (side w = BID /\ In (p, sz) (take 20 (bids book)) \/
        side w = ASK /\ In (p, sz) (take 20 (asks book))) /\
       JS.ge sz threshold = true /\
       w = mkWhaleOrder "" (side w) p sz) /\
  (forall w, In w (whales r) -> JS.ge (wo_size w) threshold = true) /\
  whales r = List.filter isBid (whales r) ++ List.filter isAsk (whales r) /\
  (length (whales r) <= 40)%nat.
Proof.
  intros r. subst r. unfold analyzeOrderBook. cbn [whales].
  assert (Hiff : forall w,
    In w (whalesOf BID threshold (bids book) ++ whalesOf ASK threshold (asks book)) <->
    exists p sz,
      (side w = BID /\ In (p, sz) (take 20 (bids book)) \/
       side w = ASK /\ In (p, sz) (take 20 (asks book))) /\
      JS.ge sz threshold = true /\ w = mkWhaleOrder "" (side w) p sz).
  { intros w. rewrite in_app_iff, !in_whalesOf. split.
    - intros [(p & sz & Hin & Hge & ->)|(p & sz & Hin & Hge & ->)];
        exists p, sz; cbn; auto.
    - intros (p & sz & [[Hs Hin]|[Hs Hin]] & Hge & E); rewrite Hs in E;
        [left|right]; exists p, sz; auto. }
  split; [exact Hiff|]. split; [|split].
  - intros w Hw. apply Hiff in Hw as (p & sz & _ & Hge & ->). exact Hge.
  - assert (Hb : forall l, List.filter isBid (whalesOf BID threshold l) = whalesOf BID threshold l
                        /\ List.filter isAsk (whalesOf BID threshold l) = []).
    { intros l. unfold whalesOf. induction (List.filter _ (take 20 l)) as [|o os [IH1 IH2]];
        [split; reflexivity|]. cbn. rewrite IH1, IH2. split; reflexivity. }
    assert (Hk : forall l, List.filter isAsk (whalesOf ASK threshold l) = whalesOf ASK threshold l
                        /\ List.filter isBid (whalesOf ASK threshold l) = []).
    { intros l. unfold whalesOf. induction (List.filter _ (take 20 l)) as [|o os [IH1 IH2]];
        [split; reflexivity|]. cbn. rewrite IH1, IH2. split; reflexivity. }
    rewrite !List.filter_app.
    rewrite (proj1 (Hb _)), (proj2 (Hb _)), (proj1 (Hk _)), (proj2 (Hk _)).
    rewrite app_nil_r. reflexivity.
  - rewrite length_app. unfold whalesOf. rewrite !length_map.
    pose proof (List.filter_length_le (fun o => JS.ge (snd o) threshold) (take 20 (bids book))).
    pose proof (List.filter_length_le (fun o => JS.ge (snd o) threshold) (take 20 (asks book))).
    rewrite length_take in *. lia.
Qed.

Lemma boundedSizes_positive (levels : list (num * num)) :
  boundedSizes levels -> positiveSizes levels.
Proof.
  unfold boundedSizes, positiveSizes. intros H. eapply Forall_impl; [exact H|].
  intros o (q & E & Hq & _). exists q. auto.
Qed.

Lemma sizeBound_nonneg : 0 <= sizeBound.
Proof.
  unfold sizeBound. change 0 with (inject_Z 0). rewrite <- Zle_Qle.
  apply Z.pow_nonneg. lia.
Qed.

Lemma sum_bounded (B : Q) (xs : list num) (s : Q) :
  Forall (fun x => exists q, x = Fin q /\ 0 < q /\ q <= B) xs ->
  exists d, fold_left JS.add xs (Fin s) = Fin d /\
            d <= s + inject_Z (Z.of_nat (length xs)) * B.
Proof.
  intros HF. revert s. induction HF as [|x xs (q & -> & Hq & HB) _ IH]; intros s.
  - exists s. split; [reflexivity|]. cbn [length]. change (inject_Z (Z.of_nat 0)) with 0. lra.
  - cbn [fold_left JS.add length]. destruct (IH (s + q)) as (d & E & Hle).
    exists d. split; [exact E|].
    rewrite Nat2Z.inj_succ. unfold Z.succ. rewrite inject_Z_plus.
    change (inject_Z 1) with 1. lra.
Qed.

(** With sizes of at most [sizeBound] a depth, the sum of at most ten
    sizes, is at most ten times [sizeBound]. *)
Lemma depth_bounded (levels : list (num * num)) :
  boundedSizes levels ->
  exists d, depth levels = Fin d /\ 0 <= d /\ d <= 10 * sizeBound /\
            (levels <> [] -> 0 < d).
Proof.
  intros HB.
  destruct (depth_positive levels (boundedSizes_positive _ HB)) as (d & E & H0 & H1).
  exists d. split; [exact E|]. split; [exact H0|]. split; [|exact H1].
  unfold depth, JS.sum, JS.zero in E.
  destruct (sum_bounded sizeBound (map snd (take 10 levels)) 0) as (d' & E' & Hle).
  { apply Forall_map. apply Forall_take. exact HB. }
  rewrite E in E'. injection E' as <-.
  assert (Hlen : inject_Z (Z.of_nat (length (map snd (take 10 levels)))) <= 10).
  { change 10 with (inject_Z 10). rewrite <- Zle_Qle. rewrite length_map, length_take. lia. }
  pose proof sizeBound_nonneg as HB0.
  assert (inject_Z (Z.of_nat (length (map snd (take 10 levels)))) * sizeBound
          <= 10 * sizeBound).
  { apply Qmult_le_compat_r; assumption. }
  lra.
Qed.

(** X3: a book with one empty side has mid price 0; if the sizes of the
    other side are positive and at most [sizeBound], its depth is a positive
    number of at most ten times [sizeBound] and the imbalance is +1 (bids
    only) or -1 (asks only). *)
Theorem analyzeOrderBook_one_sided (book : OrderBook) (threshold : num) :
  bids book = [] \/ asks book = [] ->
  let r := analyzeOrderBook book threshold in
  midPrice r = Fin 0 /\
  (bids book <> [] -> boundedSizes (bids book) ->
   depthBounded (an_bidDepth r) /\ JS.eq (an_imbalance r) (Fin 1) = true) /\
  (asks book <> [] -> boundedSizes (asks book) ->
   depthBounded (an_askDepth r) /\ JS.eq (an_imbalance r) (Fin (-1)) = true).
Proof.
  intros Hside r. subst r. unfold analyzeOrderBook. cbv zeta.
  cbn [midPrice an_imbalance an_bidDepth an_askDepth].
  split; [|split].
  - destruct Hside as [-> | ->]; [reflexivity|]. destruct (bids book); reflexivity.
  - intros Hne Hb. destruct Hside as [E|E]; [contradiction|].
    destruct (depth_bounded _ Hb) as (bd & Eb & Hb0 & Hb2 & Hb1).
    specialize (Hb1 Hne). rewrite E. rewrite Eb.
    split; [exists bd; auto|].
    change (depth []) with (Fin 0). cbn.
    destruct (Qeq_bool (bd + 0) 0) eqn:Ez; [apply Qeq_bool_iff in Ez; lra|].
    cbn. apply Qeq_bool_iff. field. lra.
  - intros Hne Ha. destruct Hside as [E|E]; [|contradiction].
    destruct (depth_bounded _ Ha) as (ad & Ea & Ha0 & Ha2 & Ha1).
    specialize (Ha1 Hne). rewrite E. rewrite Ea.
    split; [exists ad; auto|].
    change (depth []) with (Fin 0). cbn.
    destruct (Qeq_bool (0 + ad) 0) eqn:Ez; [apply Qeq_bool_iff in Ez; lra|].
    cbn. apply Qeq_bool_iff. field. lra.
Qed.

Lemma analyzeOrderBook_one_sided_witness :
  midPrice (analyzeOrderBook bidsOnlyBook (Fin 5)) = Fin 0 /\
  JS.eq (an_imbalance (analyzeOrderBook bidsOnlyBook (Fin 5))) (Fin 1) = true.
Proof.
  assert (Hb : boundedSizes (bids bidsOnlyBook)).
  { repeat constructor; eexists;
      (split; [reflexivity|split; [reflexivity|apply Qle_bool_iff; vm_compute; reflexivity]]). }
  destruct (analyzeOrderBook_one_sided bidsOnlyBook (Fin 5) (or_intror eq_refl))
    as (H1 & H2 & _).
  split; [exact H1|]. apply H2; [discriminate|exact Hb].
Defined.


(** ** Level Detector *)

Lemma sortByStrength_Permutation (l : list SupportLevel) : sortByStrength l ≡ₚ l.
Proof.
  induction l as [|x l IH]; cbn [sortByStrength]; [reflexivity|].
  rewrite <- IH at 2. clear IH.
  induction (sortByStrength l) as [|y s IH]; cbn [insertLevel]; [reflexivity|].
  destruct (JS.gt (compareStrength x y) JS.zero); [|reflexivity].
  rewrite IH. apply Permutation_swap.
Qed.

(** X4: the detector returns at most five levels, each of them one of the
    scored buckets; when at most five buckets are scored, it returns all of
    them. *)
Theorem detectLevels_at_most_5
    (hlBook okxBook krakenBook : option OrderBook) (s : BookSide) (asset0 : string) :
  let r := detectLevels hlBook okxBook krakenBook s asset0 in
  let scored := scoredLevels hlBook okxBook krakenBook s asset0 in
  (length r <= 5)%nat /\
  (forall l, In l r -> In l scored) /\
  ((length scored <= 5)%nat -> r ≡ₚ scored).
Proof.
  intros r scored. subst r scored. unfold detectLevels, scoredLevels. cbv zeta.
  set (L := scoreLevels _ _ _).
  split; [|split].
  - rewrite length_take. lia.
  - intros l Hin. apply sortByStrength_In.
    apply list_elem_of_In. apply list_elem_of_In in Hin.
    eapply subseteq_take. exact Hin.
  - intros Hlen. rewrite take_ge by (rewrite sortByStrength_length; exact Hlen).
    apply sortByStrength_Permutation.
Qed.

Lemma detectLevels_at_most_5_witness :
  detectLevels (Some bookA) (Some bookB) (Some bookC) SideBids "BTC"
  ≡ₚ scoredLevels (Some bookA) (Some bookB) (Some bookC) SideBids "BTC".
Proof.
  apply (proj2 (proj2 (detectLevels_at_most_5 (Some bookA) (Some bookB) (Some bookC)
                         SideBids "BTC"))).
  apply Nat.leb_le. vm_compute. reflexivity.
Defined.


(** A property of buckets that every added order re-establishes holds for
    every bucket of the map. *)
Lemma addOrder_invariant (P : Bucket -> Prop) (Q : num * num -> Prop)
    (roundTo : num) (v : Venue) (levels : list (num * Bucket)) (o : num * num) :
  (forall ob sz, Q (fst o, sz) -> (forall b, ob = Some b -> P b) -> P (bump v ob sz)) ->
  Q o -> Forall (fun e => P (snd e)) levels ->
  Forall (fun e => P (snd e)) (addOrder roundTo v levels o).
Proof.
  intros Hstep Ho HF. unfold addOrder.
  apply (map_set_Forall (fun e => P (snd e))); [|exact HF].
  intros k'. cbn [snd].
  change (P (bump v (map_get (roundedPrice roundTo (fst o)) levels) (snd o))).
  apply Hstep; [destruct o; exact Ho|].
  intros b Hb. apply map_get_Some_In in Hb as (k0 & Hin & _).
  rewrite List.Forall_forall in HF. exact (HF _ Hin).
Qed.

Lemma collectLevels_invariant (P : Bucket -> Prop) (Q : num * num -> Prop)
    (hlBook okxBook krakenBook : option OrderBook) (s : BookSide) (asset0 : string) :
  (forall v ob o, Q o -> (forall b, ob = Some b -> P b) -> P (bump v ob (snd o))) ->
  Forall Q (allOrders hlBook okxBook krakenBook s) ->
  Forall (fun e => P (snd e)) (collectLevels hlBook okxBook krakenBook s asset0).
Proof.
  intros Hstep HQ. unfold allOrders in HQ.
  apply Forall_app in HQ as [H1 HQ]. apply Forall_app in HQ as [H2 H3].
  assert (Hbook : forall v book levels,
            Forall Q (ordersOf s book) -> Forall (fun e => P (snd e)) levels ->
            Forall (fun e => P (snd e)) (addBook (roundToOf asset0) s v book levels)).
  { intros v [b|] levels; cbn; [|auto].
    generalize (sideOrders s b). intros os Hos. revert levels.
    induction Hos as [|o os Ho Hos IH]; intros levels HF; cbn; [exact HF|].
    apply IH. apply (addOrder_invariant P Q); [|exact Ho|exact HF].
    intros ob sz Hq Hob. apply (Hstep v ob (fst o, sz) Hq Hob). }
  unfold collectLevels. cbv zeta.
  apply Hbook; [exact H3|]. apply Hbook; [exact H2|]. apply Hbook; [exact H1|].
  constructor.
Qed.

Lemma collectLevels_nonneg
    (hlBook okxBook krakenBook : option OrderBook) (s : BookSide) (asset0 : string) :
  Forall nonnegSize (allOrders hlBook okxBook krakenBook s) ->
  Forall (fun e => nonnegBucket (snd e)) (collectLevels hlBook okxBook krakenBook s asset0).
Proof.
  apply collectLevels_invariant.
  intros v ob o (q & Hq & Hq0) Hob. rewrite Hq.
  assert (He : exists e, b_size (default freshBucket ob) = Fin e /\ 0 <= e).
  { destruct ob as [b|]; cbn; [apply Hob; reflexivity|].
    exists 0. split; [reflexivity|lra]. }
  destruct He as (e & He & He0).
  unfold nonnegBucket, bump. cbv zeta.
  destruct v; cbn; rewrite He; cbn; exists (e + q); (split; [reflexivity|lra]).
Qed.

Lemma collectLevels_flagged
    (hlBook okxBook krakenBook : option OrderBook) (s : BookSide) (asset0 : string) :
  Forall (fun e => flagged (snd e)) (collectLevels hlBook okxBook krakenBook s asset0).
Proof.
  apply (collectLevels_invariant flagged (fun _ => True)).
  - intros v ob o _ _. unfold flagged, bump. cbv zeta.
    destruct v; cbn; rewrite ?orb_true_r; reflexivity.
  - apply List.Forall_forall. auto.
Qed.

(** The score of one bucket whose size is finite and not negative. *)
Lemma scoreLevel_strength_range (asset0 : string) (k : num) (b : Bucket) :
  nonnegBucket b ->
  exists z : Z, sl_strength (scoreLevel asset0 k b) = JS.ofZ z /\ (0 <= z <= 100)%Z.
Proof.
  intros (q & Hq & Hq0). unfold scoreLevel. cbv zeta. cbn [sl_strength]. rewrite Hq.
  assert (H0 : exists x, JS.add JS.zero
                 (JS.min (Fin 50) (JS.mul (JS.div (Fin q) (sizeThresholdOf asset0)) (Fin 50)))
               = Fin x /\ 0 <= x <= 50).
  { unfold sizeThresholdOf. destruct (String.eqb asset0 "BTC").
    - change (JS.div (Fin q) (Fin 10)) with (Fin (q / 10)). cbn.
      destruct (JS.Qlt_bool (q / 10 * 50) 50) eqn:E; cbn; eexists; (split; [reflexivity|]).
      + apply Qlt_bool_iff in E. split; [|lra].
        assert (0 <= q / 10) by (apply Qle_shift_div_l; lra). lra.
      + lra.
    - change (JS.div (Fin q) (Fin 100)) with (Fin (q / 100)). cbn.
      destruct (JS.Qlt_bool (q / 100 * 50) 50) eqn:E; cbn; eexists; (split; [reflexivity|]).
      + apply Qlt_bool_iff in E. split; [|lra].
        assert (0 <= q / 100) by (apply Qle_shift_div_l; lra). lra.
      + lra. }
  destruct H0 as (x & -> & Hx).
  set (n := (b2n (hasHL b) + b2n (hasOKX b) + b2n (hasKraken b))%nat).
  set (rn := if String.eqb asset0 "BTC" then _ else _).
  assert (H1 : exists y,
             (if rn then JS.add (if (n =? 3)%nat
                                 then JS.add (if (2 <=? n)%nat then JS.add (Fin x) (Fin 15)
                                              else Fin x) (Fin 15)
                                 else if (2 <=? n)%nat then JS.add (Fin x) (Fin 15) else Fin x)
                                (Fin 30)
              else if (n =? 3)%nat
                   then JS.add (if (2 <=? n)%nat then JS.add (Fin x) (Fin 15) else Fin x) (Fin 15)
                   else if (2 <=? n)%nat then JS.add (Fin x) (Fin 15) else Fin x)
             = Fin y /\ 0 <= y <= 110).
  { destruct rn, (n =? 3)%nat, (2 <=? n)%nat; cbn; eexists; (split; [reflexivity|lra]). }
  destruct H1 as (y & -> & Hy).
  destruct (round_within 0 110 (Fin y)) as (z & Hz & Hr).
  { cbn [JS.within]. change (inject_Z 0) with 0. change (inject_Z 110) with 110. lra. }
  rewrite Hz. unfold JS.ofZ. cbn [JS.min JS.lt].
  destruct (JS.Qlt_bool (inject_Z z) 100) eqn:E.
  - exists z. split; [reflexivity|].
    apply Qlt_bool_iff in E. change 100 with (inject_Z 100) in E.
    rewrite <- Zlt_Qlt in E. lia.
  - exists 100%Z. split; [reflexivity|lia].
Qed.

(** Every returned level is the score of a bucket of the map that passed the
    5% filter. *)
Lemma detectLevels_In
    (hlBook okxBook krakenBook : option OrderBook) (s : BookSide) (asset0 : string)
    (l : SupportLevel) :
  In l (detectLevels hlBook okxBook krakenBook s asset0) ->
  exists k b, In (k, b) (collectLevels hlBook okxBook krakenBook s asset0) /\
              tooFar (referencePrice hlBook okxBook krakenBook) k = false /\
              l = scoreLevel asset0 k b.
Proof.
  intros Hin. unfold detectLevels in Hin. cbv zeta in Hin.
  apply list_elem_of_In, (subseteq_take 5), list_elem_of_In in Hin.
  apply (proj1 (sortByStrength_In _ _)) in Hin.
  unfold scoreLevels in Hin.
  apply in_map_iff in Hin as ([k b] & <- & Hin).
  apply filter_In in Hin as [Hin Hfar]. cbn in Hfar.
  exists k, b. split; [exact Hin|]. split; [|reflexivity].
  destruct (tooFar _ k); [discriminate|reflexivity].
Qed.

(** X5: when the order sizes are finite and not negative, the strength of
    every returned level is an integer between 0 and 100. *)
Theorem detectLevels_strength_range
    (hlBook okxBook krakenBook : option OrderBook) (s : BookSide) (asset0 : string) :
  Forall nonnegSize (allOrders hlBook okxBook krakenBook s) ->
  Forall (fun l => exists z : Z, sl_strength l = JS.ofZ z /\ (0 <= z <= 100)%Z)
         (detectLevels hlBook okxBook krakenBook s asset0).
Proof.
  intros Hsz. apply List.Forall_forall. intros l Hin.
  apply detectLevels_In in Hin as (k & b & Hin & _ & ->).
  apply scoreLevel_strength_range.
  pose proof (collectLevels_nonneg hlBook okxBook krakenBook s asset0 Hsz) as HF.
  rewrite List.Forall_forall in HF. exact (HF _ Hin).
Qed.

Lemma bookABC_nonneg :
  Forall nonnegSize (allOrders (Some bookA) (Some bookB) (Some bookC) SideBids).
Proof.
  repeat constructor; eexists; (split; [reflexivity|]); cbn; lra.
Qed.

Lemma detectLevels_strength_range_witness :
  Forall (fun l => exists z : Z, sl_strength l = JS.ofZ z /\ (0 <= z <= 100)%Z)
         (detectLevels (Some bookA) (Some bookB) (Some bookC) SideBids "BTC").
Proof.
  exact (detectLevels_strength_range (Some bookA) (Some bookB) (Some bookC) SideBids "BTC"
           bookABC_nonneg).
Defined.

(** X6: every returned level counts between one and three venues. *)
Theorem detectLevels_exchangeCount_range
    (hlBook okxBook krakenBook : option OrderBook) (s : BookSide) (asset0 : string) :
  Forall (fun l => (1 <= exchangeCount l <= 3)%nat)
         (detectLevels hlBook okxBook krakenBook s asset0).
Proof.
  apply List.Forall_forall. intros l Hin. apply detectLevels_In in Hin as (k & b & Hin & _ & ->).
  pose proof (collectLevels_flagged hlBook okxBook krakenBook s asset0) as HF.
  rewrite List.Forall_forall in HF. specialize (HF _ Hin). cbn in HF.
  unfold flagged in HF. cbn [exchangeCount scoreLevel].
  destruct (hasHL b), (hasOKX b), (hasKraken b); cbn in *; try discriminate; lia.
Qed.

(** X7: when the reference price is a positive number, every returned
    level has a price within 5% of it, or the price NaN (a bucket whose
    price is not a number passes the distance test); no returned level has
    an infinite price. *)
Theorem detectLevels_within_5_percent
    (hlBook okxBook krakenBook : option OrderBook) (s : BookSide) (asset0 : string)
    (m : Q) :
  referencePrice hlBook okxBook krakenBook = Fin m -> 0 < m ->
  Forall (fun l => sl_price l = NaN \/
                   exists p, sl_price l = Fin p /\ Qabs (p - m) <= m * (5 # 100))
         (detectLevels hlBook okxBook krakenBook s asset0).
Proof.
  intros Hm Hpos. apply List.Forall_forall. intros l Hin.
  apply detectLevels_In in Hin as (k & b & _ & Hfar & ->).
  cbn [sl_price scoreLevel]. rewrite Hm in Hfar. unfold tooFar in Hfar.
  assert (Hgt : JS.gt (Fin m) JS.zero = true) by (cbn; apply Qlt_bool_iff; exact Hpos).
  rewrite Hgt in Hfar. cbn [andb] in Hfar.
  unfold JS.sub, JS.neg, JS.add, JS.abs, JS.div in Hfar.
  destruct (Qeq_bool m 0) eqn:E; [apply Qeq_bool_iff in E; lra|].
  destruct k as [p| | |].
  - right. exists p. split; [reflexivity|].
    cbn in Hfar. apply Qlt_bool_false in Hfar.
    apply (Qmult_le_r _ _ _ Hpos) in Hfar.
    assert (E2 : Qabs (p + - m) / m * m == Qabs (p + - m)) by (field; lra).
    rewrite E2 in Hfar. unfold Qminus. lra.
  - exfalso. assert (Hc : (m ?= 0) = Gt) by (apply Qgt_alt; exact Hpos).
    cbn in Hfar. rewrite Hc in Hfar. discriminate.
  - exfalso. assert (Hc : (m ?= 0) = Gt) by (apply Qgt_alt; exact Hpos).
    cbn in Hfar. rewrite Hc in Hfar. discriminate.
  - left. reflexivity.
Qed.

Lemma detectLevels_within_5_percent_witness :
  Forall (fun l => sl_price l = NaN \/
                   exists p, sl_price l = Fin p /\ Qabs (p - 96020) <= 96020 * (5 # 100))
         (detectLevels (Some bookA) (Some bookB) (Some bookC) SideBids "BTC").
Proof.
  apply (detectLevels_within_5_percent (Some bookA) (Some bookB) (Some bookC)
           SideBids "BTC" 96020); reflexivity.
Defined.

Lemma insertLevel_descending (x : SupportLevel) (l : list SupportLevel) :
  finiteStrength x -> Forall finiteStrength l -> descending l ->
  descending (insertLevel x l).
Proof.
  unfold descending. intros Hx Hl Hs. induction Hs as [|y l Hs IH Hy]; cbn [insertLevel].
  - constructor; constructor.
  - inversion Hl as [|? ? Hfy Hl']; subst.
    destruct (JS.gt (compareStrength x y) JS.zero) eqn:E.
    + apply (compareStrength_gt x y Hx Hfy) in E.
      constructor; [apply IH; exact Hl'|].
      apply List.Forall_forall. intros b Hb. apply insertLevel_In in Hb as [->|Hb]; [lra|].
      rewrite List.Forall_forall in Hy. exact (Hy _ Hb).
    + assert (Hle : strengthQ y <= strengthQ x).
      { apply Qnot_lt_le. intros Hlt. apply (compareStrength_gt x y Hx Hfy) in Hlt.
        congruence. }
      constructor; [constructor; assumption|].
      constructor; [exact Hle|].
      rewrite List.Forall_forall in *. intros b Hb. specialize (Hy _ Hb). lra.
Qed.

Lemma sortByStrength_descending (l : list SupportLevel) :
  Forall finiteStrength l -> descending (sortByStrength l).
Proof.
  intros Hl. induction Hl as [|x l Hx Hl IH]; cbn [sortByStrength]; [constructor|].
  apply insertLevel_descending; [exact Hx| |exact IH].
  apply sortByStrength_finite. exact Hl.
Qed.

Lemma take_descending (n : nat) (l : list SupportLevel) :
  descending l -> descending (take n l).
Proof.
  unfold descending. intros Hs. revert n.
  induction Hs as [|x l Hs IH Hx]; intros [|n]; cbn; try constructor.
  - apply IH.
  - rewrite List.Forall_forall in *. intros b Hb. apply Hx.
    apply list_elem_of_In. apply list_elem_of_In in Hb. eapply subseteq_take. exact Hb.
Qed.

(** X8: when the order sizes are finite and not negative, the returned
    levels are in descending order of strength. *)
Theorem detectLevels_descending
    (hlBook okxBook krakenBook : option OrderBook) (s : BookSide) (asset0 : string) :
  Forall nonnegSize (allOrders hlBook okxBook krakenBook s) ->
  descending (detectLevels hlBook okxBook krakenBook s asset0).
Proof.
  intros Hsz. unfold detectLevels. cbv zeta.
  apply take_descending, sortByStrength_descending.
  apply List.Forall_forall. intros l Hin.
  unfold scoreLevels in Hin. apply in_map_iff in Hin as ([k b] & <- & Hin).
  apply filter_In in Hin as [Hin _].
  pose proof (collectLevels_nonneg hlBook okxBook krakenBook s asset0 Hsz) as HF.
  rewrite List.Forall_forall in HF. specialize (HF _ Hin).
  destruct (scoreLevel_strength_range asset0 k b HF) as (z & Hz & _).
  exists (inject_Z z). exact Hz.
Qed.

Lemma detectLevels_descending_witness :
  descending (detectLevels (Some bookA) (Some bookB) (Some bookC) SideBids "BTC").
Proof.
  exact (detectLevels_descending (Some bookA) (Some bookB) (Some bookC) SideBids "BTC"
           bookABC_nonneg).
Defined.


Lemma StronglySorted_take {A : Type} (R : A -> A -> Prop) (n : nat) (l : list A) :
  StronglySorted R l -> StronglySorted R (take n l).
Proof.
  intros Hs. revert n.
  induction Hs as [|x l Hs IH Hx]; intros [|n]; cbn; try constructor.
  - apply IH.
  - rewrite List.Forall_forall in *. intros b Hb. apply Hx.
    apply list_elem_of_In. apply list_elem_of_In in Hb. eapply subseteq_take. exact Hb.
Qed.

Lemma StronglySorted_filter {A : Type} (R : A -> A -> Prop) (p : A -> bool) (l : list A) :
  StronglySorted R l -> StronglySorted R (List.filter p l).
Proof.
  induction 1 as [|x l Hs IH Hx]; cbn; [constructor|].
  destruct (p x); [|exact IH]. constructor; [exact IH|].
  rewrite List.Forall_forall in *. intros b Hb. apply Hx.
  apply filter_In in Hb. tauto.
Qed.

Lemma map_set_In {V : Type} (k : num) (v : V) (m : list (num * V)) (e : num * V) :
  In e (map_set k v m) -> In (fst e) (map fst m) \/ fst e = k.
Proof.
  intros Hin. apply (in_map fst) in Hin. apply map_set_keys in Hin. exact Hin.
Qed.

(** [set] keeps the keys of the map pairwise different. *)
Lemma map_set_distinct {V : Type} (k : num) (v : V) (m : list (num * V)) :
  distinctKeys m -> distinctKeys (map_set k v m).
Proof.
  unfold distinctKeys. induction 1 as [|[k0 v0] m Hs IH Hk]; cbn.
  - constructor; constructor.
  - destruct (JS.sameb k0 k) eqn:E.
    + constructor; [exact Hs|exact Hk].
    + constructor; [exact IH|].
      apply List.Forall_forall. intros e He. cbn [fst].
      apply map_set_In in He as [He| ->]; [|exact E].
      apply in_map_iff in He as (e' & Ee & He').
      rewrite List.Forall_forall in Hk. specialize (Hk _ He'). cbn in Hk.
      rewrite <- Ee. exact Hk.
Qed.

Lemma collectLevels_distinct
    (hlBook okxBook krakenBook : option OrderBook) (s : BookSide) (asset0 : string) :
  distinctKeys (collectLevels hlBook okxBook krakenBook s asset0).
Proof.
  assert (Hbook : forall v book levels,
            distinctKeys levels ->
            distinctKeys (addBook (roundToOf asset0) s v book levels)).
  { intros v [b|] levels; cbn; [|auto].
    generalize (sideOrders s b). intros os. revert levels.
    induction os as [|o os IH]; intros levels Hd; cbn; [exact Hd|].
    apply IH. unfold addOrder. apply map_set_distinct. exact Hd. }
  unfold collectLevels. cbv zeta. repeat apply Hbook. constructor.
Qed.

Lemma insertLevel_distinct (x : SupportLevel) (l : list SupportLevel) :
  distinctPrices (x :: l) -> distinctPrices (insertLevel x l).
Proof.
  unfold distinctPrices. revert x. induction l as [|y l IH]; intros x Hs; cbn [insertLevel].
  - exact Hs.
  - destruct (JS.gt (compareStrength x y) JS.zero); [|exact Hs].
    inversion Hs as [|? ? Hyl Hx]; subst.
    inversion Hyl as [|? ? Hl Hy]; subst.
    inversion Hx as [|? ? Hxy Hxl]; subst.
    constructor.
    + apply IH. constructor; assumption.
    + apply List.Forall_forall. intros b Hb.
      apply insertLevel_In in Hb as [->|Hb].
      * rewrite sameb_sym. exact Hxy.
      * rewrite List.Forall_forall in Hy. exact (Hy _ Hb).
Qed.

Lemma sortByStrength_distinct (l : list SupportLevel) :
  distinctPrices l -> distinctPrices (sortByStrength l).
Proof.
  unfold distinctPrices. induction 1 as [|x l Hs IH Hx]; cbn [sortByStrength]; [constructor|].
  apply insertLevel_distinct. constructor; [exact IH|].
  rewrite List.Forall_forall in *. intros b Hb. apply Hx. apply sortByStrength_In. exact Hb.
Qed.

(** X9: no two returned levels have the same price. *)
Theorem detectLevels_distinct_prices
    (hlBook okxBook krakenBook : option OrderBook) (s : BookSide) (asset0 : string) :
  distinctPrices (detectLevels hlBook okxBook krakenBook s asset0) /\
  forall i j li lj,
    i <> j ->
    detectLevels hlBook okxBook krakenBook s asset0 !! i = Some li ->
    detectLevels hlBook okxBook krakenBook s asset0 !! j = Some lj ->
    JS.eq (sl_price li) (sl_price lj) = false.
Proof.
  assert (Hd : distinctPrices (detectLevels hlBook okxBook krakenBook s asset0)).
  { unfold detectLevels. cbv zeta.
    apply StronglySorted_take, sortByStrength_distinct.
    unfold scoreLevels.
    pose proof (collectLevels_distinct hlBook okxBook krakenBook s asset0) as Hk.
    apply (StronglySorted_filter _
             (fun e => negb (tooFar (referencePrice hlBook okxBook krakenBook) (fst e)))) in Hk.
    induction Hk as [|e m Hs IH He]; cbn; [constructor|].
    constructor; [exact IH|].
    apply List.Forall_forall. intros b Hb. apply in_map_iff in Hb as (e' & <- & He').
    rewrite List.Forall_forall in He. exact (He _ He'). }
  split; [exact Hd|].
  assert (Hpair : forall (l : list SupportLevel) i j li lj,
            distinctPrices l -> (i < j)%nat -> l !! i = Some li -> l !! j = Some lj ->
            JS.sameb (sl_price li) (sl_price lj) = false).
  { intros l i j li lj Hs. revert i j.
    induction Hs as [|x l Hs IH Hx]; intros i j Hij Hi Hj; [discriminate|].
    destruct j as [|j]; [lia|]. cbn in Hj.
    destruct i as [|i]; cbn in Hi.
    - injection Hi as <-. rewrite List.Forall_forall in Hx. apply Hx.
      apply list_elem_of_In. eapply list_elem_of_lookup_2. exact Hj.
    - apply (IH i j); [lia|assumption|assumption]. }
  assert (Heq : forall a b, JS.sameb a b = false -> JS.eq a b = false).
  { intros [x| | |] [y| | |]; cbn; congruence. }
  intros i j li lj Hij Hi Hj. apply Heq.
  destruct (Nat.lt_ge_cases i j) as [Hlt|Hge].
  - exact (Hpair _ i j li lj Hd Hlt Hi Hj).
  - rewrite sameb_sym. apply (Hpair _ j i lj li Hd); [lia|assumption|assumption].
Qed.


(** ** Whale Consensus Scorer *)

(** When the total is positive, a ratio that passes a comparison is finite. *)
Lemma ratio_gt_finite (bs az : num) (t : Q) :
  JS.gt (JS.add bs az) JS.zero = true ->
  JS.gt (JS.div bs (JS.add bs az)) (Fin t) = true ->
  exists r, JS.div bs (JS.add bs az) = Fin r /\ t < r.
Proof.
  destruct bs as [x| | |], az as [y| | |]; cbn; try discriminate.
  - intros Hpos. apply Qlt_bool_iff in Hpos.
    destruct (Qeq_bool (x + y) 0) eqn:E; [apply Qeq_bool_iff in E; lra|].
    cbn. intros H. apply Qlt_bool_iff in H. eauto.
  - intros _ H. apply Qlt_bool_iff in H. eauto.
Qed.

Lemma ratio_lt_finite (bs az : num) (t : Q) :
  JS.gt (JS.add bs az) JS.zero = true ->
  JS.lt (JS.div bs (JS.add bs az)) (Fin t) = true ->
  exists r, JS.div bs (JS.add bs az) = Fin r /\ r < t.
Proof.
  destruct bs as [x| | |], az as [y| | |]; cbn; try discriminate.
  - intros Hpos. apply Qlt_bool_iff in Hpos.
    destruct (Qeq_bool (x + y) 0) eqn:E; [apply Qeq_bool_iff in E; lra|].
    cbn. intros H. apply Qlt_bool_iff in H. eauto.
  - intros _ H. apply Qlt_bool_iff in H. eauto.
Qed.

(** [Math.min(100, Math.round(y))] for [y >= lo]. *)
Lemma min100_round (lo : Z) (y : Q) :
  inject_Z lo <= y -> (lo <= 100)%Z ->
  exists z : Z, JS.min (Fin 100) (JS.round (Fin y)) = JS.ofZ z /\ (lo <= z <= 100)%Z.
Proof.
  intros Hlo H100. unfold JS.round, JS.ofZ. cbn [JS.min JS.lt].
  assert (Hz : (lo <= Qfloor (y + (1 # 2)))%Z).
  { rewrite <- (Qfloor_Z lo). apply Qfloor_resp_le. lra. }
  destruct (JS.Qlt_bool (inject_Z (Qfloor (y + (1 # 2)))) 100) eqn:E.
  - eexists. split; [reflexivity|]. apply Qlt_bool_iff in E.
    change 100 with (inject_Z 100) in E. rewrite <- Zlt_Qlt in E. lia.
  - exists 100%Z. split; [reflexivity|lia].
Qed.

(** [Math.min(100, s + 15)] on an integer [s]. *)
Lemma min100_plus15 (z : Z) :
  (z <= 100)%Z ->
  exists q z', JS.min (Fin 100) (JS.add (JS.ofZ z) (Fin 15)) = Fin q /\
               q == inject_Z z' /\ (z <= z' <= 100)%Z.
Proof.
  intros Hz. unfold JS.ofZ. cbn [JS.add JS.min JS.lt].
  destruct (JS.Qlt_bool (inject_Z z + 15) 100) eqn:E.
  - exists (inject_Z z + 15), (z + 15)%Z. split; [reflexivity|].
    apply Qlt_bool_iff in E. split.
    + rewrite inject_Z_plus. reflexivity.
    + assert (H : inject_Z (z + 15) < inject_Z 100).
      { rewrite inject_Z_plus. exact E. }
      rewrite <- Zlt_Qlt in H. lia.
  - exists 100, 100%Z. split; [reflexivity|]. split; [reflexivity|lia].
Qed.

(** X10: the consensus strength is always an integer between 0 and 100, and
    at least 40 when the signal is LONG or SHORT. *)
Theorem whale_strength_range (ws : list WhaleOrder) :
  let c := calculateWhaleConsensus ws in
  exists (q : Q) (z : Z),
    wc_strength c = Fin q /\ q == inject_Z z /\ (0 <= z <= 100)%Z /\
    (signal c <> BiasNEUTRAL -> (40 <= z)%Z).
Proof.
  unfold calculateWhaleConsensus.
  set (bs := whaleSize (whaleBids ws)). set (az := whaleSize (whaleAsks ws)).
  set (vb := venueCount (whaleBids ws)). set (va := venueCount (whaleAsks ws)).
  set (nb := length (whaleBids ws)). set (na := length (whaleAsks ws)).
  assert (Hneutral : exists (q : Q) (z : Z),
             JS.zero = Fin q /\ q == inject_Z z /\ (0 <= z <= 100)%Z /\
             (BiasNEUTRAL <> BiasNEUTRAL -> (40 <= z)%Z)).
  { exists 0, 0%Z. repeat split; try reflexivity; try lia. intros H. elim H. reflexivity. }
  destruct (JS.gt (JS.add bs az) JS.zero) eqn:Htot; js_cbn; [|exact Hneutral].
  destruct (JS.gt (JS.div bs (JS.add bs az)) (Fin (6 # 10))) eqn:Hr;
    [destruct (2 <=? vb)%nat eqn:Hvb|]; js_cbn.
  - (* LONG *)
    destruct (ratio_gt_finite bs az _ Htot Hr) as (r & -> & Hlt).
    apply Nat.leb_le in Hvb.
    assert (Hb : exists y, JS.add (JS.add (JS.mul (JS.sub (Fin r) (Fin (5 # 10))) (Fin 100))
                                          (JS.mul (JS.ofZ (Z.of_nat vb)) (Fin 15)))
                                  (bonus3 nb) = Fin y /\ inject_Z 40 <= y).
    { unfold bonus3, JS.ofZ. 
      assert (Hv : inject_Z 2 <= inject_Z (Z.of_nat vb)) by (rewrite <- Zle_Qle; lia).
      change (inject_Z 2) with 2 in Hv. change (inject_Z 40) with 40.
      destruct (3 <=? nb)%nat; cbn; eexists; (split; [reflexivity|]); lra. }
    destruct Hb as (y & -> & Hy).
    destruct (min100_round 40 y Hy) as (z & -> & Hz); [lia|].
    destruct (vb =? 3)%nat.
    + destruct (min100_plus15 z) as (q & z' & -> & Hq & Hz'); [lia|].
      exists q, z'. repeat split; try assumption; lia.
    + exists (inject_Z z), z. repeat split; try reflexivity; lia.
  - (* ratio above 0.6 but a single venue: the SHORT test *)
    assert (Hl : JS.lt (JS.div bs (JS.add bs az)) (Fin (4 # 10)) = false).
    { destruct (ratio_gt_finite bs az _ Htot Hr) as (r & -> & Hlt).
      cbn. apply Qlt_bool_false. lra. }
    rewrite Hl. js_cbn. exact Hneutral.
  - destruct (JS.lt (JS.div bs (JS.add bs az)) (Fin (4 # 10))) eqn:Hl;
      [destruct (2 <=? va)%nat eqn:Hva|]; js_cbn; try exact Hneutral.
    (* SHORT *)
    destruct (ratio_lt_finite bs az _ Htot Hl) as (r & -> & Hlt).
    apply Nat.leb_le in Hva.
    assert (Hb : exists y, JS.add (JS.add (JS.mul (JS.sub (Fin (5 # 10)) (Fin r)) (Fin 100))
                                          (JS.mul (JS.ofZ (Z.of_nat va)) (Fin 15)))
                                  (bonus3 na) = Fin y /\ inject_Z 40 <= y).
    { unfold bonus3, JS.ofZ.
      assert (Hv : inject_Z 2 <= inject_Z (Z.of_nat va)) by (rewrite <- Zle_Qle; lia).
      change (inject_Z 2) with 2 in Hv. change (inject_Z 40) with 40.
      destruct (3 <=? na)%nat; cbn; eexists; (split; [reflexivity|]); lra. }
    destruct Hb as (y & -> & Hy).
    destruct (min100_round 40 y Hy) as (z & -> & Hz); [lia|].
    destruct (va =? 3)%nat.
    + destruct (min100_plus15 z) as (q & z' & -> & Hq & Hz'); [lia|].
      exists q, z'. repeat split; try assumption; lia.
    + exists (inject_Z z), z. repeat split; try reflexivity; lia.
Qed.


Lemma whale_consensus_lengths (ws : list WhaleOrder) :
  bidCount (calculateWhaleConsensus ws) = length (whaleBids ws) /\
  askCount (calculateWhaleConsensus ws) = length (whaleAsks ws).
Proof.
  unfold calculateWhaleConsensus.
  destruct (JS.gt _ JS.zero); [|split; reflexivity].
  destruct (_ && _); [split; reflexivity|].
  destruct (_ && _); split; reflexivity.
Qed.

Lemma venueCount_le_length (ws : list WhaleOrder) : (venueCount ws <= length ws)%nat.
Proof.
  unfold venueCount. induction ws as [|w ws IH]; cbn [map list_to_set length].
  - rewrite size_empty. lia.
  - rewrite size_union_alt, size_singleton.
    assert (H : (size (list_to_set (map exchange ws) ∖ {[exchange w]} : gset string)
                 <= size (list_to_set (map exchange ws) : gset string))%nat).
    { apply subseteq_size. apply subseteq_difference_l. reflexivity. }
    lia.
Qed.

Lemma whale_partition (ws : list WhaleOrder) :
  (length (whaleBids ws) + length (whaleAsks ws) = length ws)%nat.
Proof.
  unfold whaleBids, whaleAsks, isBid, isAsk.
  induction ws as [|w ws IH]; cbn; [reflexivity|].
  destruct (side w); cbn; lia.
Qed.

(** X11: the two whale counts add up to the number of whale orders, and a
    side never has more venues than whale orders (none when it has no
    order). *)
Theorem whale_counts (ws : list WhaleOrder) :
  let c := calculateWhaleConsensus ws in
  (bidCount c + askCount c = length ws)%nat /\
  (exchangesWithBids c <= bidCount c)%nat /\
  (exchangesWithAsks c <= askCount c)%nat.
Proof.
  intros c. subst c.
  destruct (whale_consensus_lengths ws) as [-> ->].
  destruct (whale_consensus_counts ws) as [-> ->].
  split; [apply whale_partition|]. split; apply venueCount_le_length.
Qed.

Lemma venueCount_le_3 (ws : list WhaleOrder) :
  Forall (fun w => In (exchange w) venueNames) ws -> (venueCount ws <= 3)%nat.
Proof.
  intros HF. unfold venueCount.
  assert (Hsub : (list_to_set (map exchange ws) : gset string)
                 ⊆ list_to_set venueNames).
  { intros x Hx. rewrite elem_of_list_to_set in Hx. rewrite elem_of_list_to_set.
    apply list_elem_of_In in Hx. apply in_map_iff in Hx as (w & <- & Hw).
    apply list_elem_of_In. rewrite List.Forall_forall in HF. exact (HF _ Hw). }
  apply subseteq_size in Hsub.
  assert (H3 : size (list_to_set venueNames : gset string) = 3%nat) by (vm_compute; reflexivity).
  lia.
Qed.

Lemma taggedWhales_In (name : string) (book : option OrderBook) (threshold : num)
    (w : WhaleOrder) :
  In w (taggedWhales name (analyze book threshold)) ->
  exchange w = name /\ JS.ge (wo_size w) threshold = true.
Proof.
  destruct book as [b|]; cbn; [|tauto].
  intros Hin. apply in_map_iff in Hin as (w0 & <- & Hin). cbn.
  split; [reflexivity|].
  apply in_app_or in Hin as [Hin|Hin];
    apply in_whalesOf in Hin as (p & sz & _ & Hge & ->); exact Hge.
Qed.

Lemma collectWhales_tagged (b1 b2 b3 : option OrderBook) (threshold : num) :
  whalesTagged threshold
    (collectWhales (analyze b1 threshold) (analyze b2 threshold) (analyze b3 threshold)).
Proof.
  unfold whalesTagged, collectWhales. apply List.Forall_forall. intros w Hin.
  apply in_app_or in Hin as [Hin|Hin]; [|apply in_app_or in Hin as [Hin|Hin]];
    apply taggedWhales_In in Hin as [-> Hge]; (split; [|exact Hge]); cbn; auto.
Qed.

Lemma whalesTagged_venues (threshold : num) (ws : list WhaleOrder) :
  whalesTagged threshold ws -> atMostThreeVenues (calculateWhaleConsensus ws).
Proof.
  intros HF. unfold atMostThreeVenues.
  destruct (whale_consensus_counts ws) as [-> ->].
  unfold whalesTagged in HF. rewrite List.Forall_forall in HF.
  split; apply venueCount_le_3; apply List.Forall_forall; intros w Hw;
    apply filter_In in Hw as [Hw _]; exact (proj1 (HF _ Hw)).
Qed.

(** X12: in the signals of a polling cycle and of the REST fallback, every
    whale order carries one of the three venue names and reaches the
    threshold of its asset (5 for BTC, 50 for ETH), and the consensus counts
    at most three venues per side. *)
Theorem pipeline_whales_tagged (f : Fetched) (clk : CycleClock)
    (history : list ImbalanceEntry) (tBtc tEth : Z) :
  let sp := fst (fetchWithTrend f clk history) in
  let sp' := fetchAllData f tBtc tEth in
  (whalesTagged (Fin 5) (whaleOrders (sp_btc sp)) /\
   whalesTagged (Fin 50) (whaleOrders (sp_eth sp)) /\
   atMostThreeVenues (whaleConsensus (sp_btc sp)) /\
   atMostThreeVenues (whaleConsensus (sp_eth sp))) /\
  (whalesTagged (Fin 5) (whaleOrders (sp_btc sp')) /\
   whalesTagged (Fin 50) (whaleOrders (sp_eth sp')) /\
   atMostThreeVenues (whaleConsensus (sp_btc sp')) /\
   atMostThreeVenues (whaleConsensus (sp_eth sp'))).
Proof.
  intros sp sp'. subst sp sp'. unfold fetchWithTrend, fetchAllData. cbv zeta.
  cbn [fst sp_btc sp_eth].
  repeat match goal with
  | |- context [whaleOrders (generateSignal ?n ?a ?h ?o ?k ?w ?s ?r ?i ?t)] =>
      rewrite (proj1 (proj2 (proj2 (generateSignal_passthrough n a h o k w s r i t))))
  | |- context [whaleConsensus (generateSignal ?n ?a ?h ?o ?k ?w ?s ?r ?i ?t)] =>
      rewrite (proj1 (proj2 (proj2 (proj2 (generateSignal_passthrough n a h o k w s r i t)))))
  end.
  pose proof (collectWhales_tagged (hlBtc f) (okxBtc f) (krakenBtc f) (Fin 5)) as Hb.
  pose proof (collectWhales_tagged (hlEth f) (okxEth f) (krakenEth f) (Fin 50)) as He.
  pose proof (whalesTagged_venues _ _ Hb) as Vb.
  pose proof (whalesTagged_venues _ _ He) as Ve.
  tauto.
Qed.


(** ** Signal Synthesizer *)

Lemma generateSignal_action
    (now : Z) (asset0 : string) (hlData okxData krakenData : option ExchangeData)
    (ws : list WhaleOrder) (sup res : list SupportLevel) (avg : num) (tr : Trend) :
  action (generateSignal now asset0 hlData okxData krakenData ws sup res avg tr) =
    if isTrend tr BULLISH && JS.gt avg (Fin (10 # 100)) then LONG
    else if isTrend tr BEARISH && JS.lt avg (Fin (-10 # 100)) then SHORT
    else WAIT.
Proof.
  unfold generateSignal. cbv zeta.
  destruct (isTrend tr BULLISH && _); [reflexivity|].
  destruct (isTrend tr BEARISH && _); reflexivity.
Qed.

(** X13: the action is LONG exactly when the trend is BULLISH and the
    15-minute average exceeds 0.10, SHORT exactly when the trend is BEARISH
    and the average is below -0.10, and WAIT in every other case (so also
    when the average is NaN); the venue data never changes the action. *)
Theorem generateSignal_action_iff
    (now : Z) (asset0 : string) (hlData okxData krakenData : option ExchangeData)
    (ws : list WhaleOrder) (sup res : list SupportLevel) (avg : num) (tr : Trend) :
  let s := generateSignal now asset0 hlData okxData krakenData ws sup res avg tr in
  (action s = LONG <-> tr = BULLISH /\ JS.gt avg (Fin (10 # 100)) = true) /\
  (action s = SHORT <-> tr = BEARISH /\ JS.lt avg (Fin (-10 # 100)) = true) /\
  (action s = WAIT <->
     ~ (tr = BULLISH /\ JS.gt avg (Fin (10 # 100)) = true) /\
     ~ (tr = BEARISH /\ JS.lt avg (Fin (-10 # 100)) = true)) /\
  (avg = NaN -> action s = WAIT).
Proof.
  intros s. subst s. rewrite generateSignal_action.
  assert (HN : avg = NaN -> JS.gt avg (Fin (10 # 100)) = false /\
                            JS.lt avg (Fin (-10 # 100)) = false).
  { intros ->. split; reflexivity. }
  destruct tr; cbn [isTrend andb];
    destruct (JS.gt avg (Fin (10 # 100))) eqn:G;
    destruct (JS.lt avg (Fin (-10 # 100))) eqn:L;
    intuition (try congruence; try discriminate).
Qed.

(** The three derived numbers of a signal. *)
Lemma generateSignal_derived
    (now : Z) (asset0 : string) (hlData okxData krakenData : option ExchangeData)
    (ws : list WhaleOrder) (sup res : list SupportLevel) (avg : num) (tr : Trend) :
  let s := generateSignal now asset0 hlData okxData krakenData ws sup res avg tr in
  let emptyData := mkExchangeData JS.zero JS.zero JS.zero JS.zero now in
  let hl := default emptyData hlData in
  let ok := default emptyData okxData in
  crossExchangeSpread s =
    JS.div (JS.round (JS.mul
      (if JS.gt (price hl) JS.zero && JS.gt (price ok) JS.zero
       then JS.mul (JS.div (JS.sub (price hl) (price ok)) (price ok)) (Fin 10000)
       else JS.zero) (Fin 10))) (Fin 10) /\
  combinedImbalance s =
    JS.div (JS.round (JS.mul
      (averageOr0 (map imbalance (omap id [hlData; okxData; krakenData])))
      (Fin 1000))) (Fin 1000) /\
  imbalance15m s = JS.div (JS.round (JS.mul avg (Fin 1000))) (Fin 1000).
Proof.
  unfold generateSignal. cbv zeta.
  destruct (isTrend tr BULLISH && _); [repeat split|].
  destruct (isTrend tr BEARISH && _); repeat split.
Qed.

(** X14: the cross-venue spread is 0 as soon as Hyperliquid or OKX is absent
    or has no positive price. *)
Theorem generateSignal_spread_zero
    (now : Z) (asset0 : string) (hlData okxData krakenData : option ExchangeData)
    (ws : list WhaleOrder) (sup res : list SupportLevel) (avg : num) (tr : Trend) :
  noPrice hlData \/ noPrice okxData ->
  JS.eq (crossExchangeSpread
           (generateSignal now asset0 hlData okxData krakenData ws sup res avg tr))
        JS.zero = true.
Proof.
  intros H.
  destruct (generateSignal_derived now asset0 hlData okxData krakenData ws sup res avg tr)
    as (-> & _).
  assert (E : JS.gt (price (default (mkExchangeData JS.zero JS.zero JS.zero JS.zero now) hlData))
                    JS.zero
              && JS.gt (price (default (mkExchangeData JS.zero JS.zero JS.zero JS.zero now) okxData))
                       JS.zero = false).
  { destruct H as [H|H].
    - destruct hlData as [d|]; cbn in *; [rewrite H|]; reflexivity.
    - apply andb_false_iff. right. destruct okxData as [d|]; cbn in *; [exact H|reflexivity]. }
  rewrite E. reflexivity.
Qed.

Lemma generateSignal_spread_zero_witness :
  JS.eq (crossExchangeSpread
           (generateSignal 0 "BTC" (Some bullishVenue) None (Some bearishVenue)
                           [] [] [] JS.zero NEUTRAL))
        JS.zero = true.
Proof.
  apply generateSignal_spread_zero. right. exact I.
Defined.

(** Sums and means of numbers in [-1, 1]. *)
Lemma sum_in_unit_range (xs : list num) (s : Q) :
  Forall (JS.within (-1) 1) xs ->
  exists t, fold_left JS.add xs (Fin s) = Fin t /\
            s - inject_Z (Z.of_nat (length xs)) <= t <= s + inject_Z (Z.of_nat (length xs)).
Proof.
  intros HF. revert s. induction HF as [|x xs Hx _ IH]; intros s.
  - exists s. split; [reflexivity|]. cbn [length]. change (inject_Z (Z.of_nat 0)) with 0. lra.
  - destruct x as [q| | |]; cbn in Hx; try contradiction.
    cbn [fold_left JS.add]. destruct (IH (s + q)) as (t & -> & Ht).
    exists t. split; [reflexivity|].
    cbn [length]. rewrite Nat2Z.inj_succ, <- Z.add_1_r, inject_Z_plus.
    change (inject_Z 1) with 1. lra.
Qed.

Lemma averageOr0_in_unit_range (xs : list num) :
  Forall (JS.within (-1) 1) xs -> JS.within (-1) 1 (averageOr0 xs).
Proof.
  intros HF. destruct xs as [|x xs]; [cbn; lra|].
  unfold averageOr0, JS.sum, JS.zero.
  destruct (sum_in_unit_range (x :: xs) 0 HF) as (t & -> & Ht).
  set (n := inject_Z (Z.of_nat (length (x :: xs)))) in *.
  assert (Hn : 0 < n).
  { subst n. change 0 with (inject_Z 0). rewrite <- Zlt_Qlt. cbn [length]. lia. }
  unfold JS.div, JS.ofZ. fold n.
  destruct (Qeq_bool n 0) eqn:E; [apply Qeq_bool_iff in E; lra|].
  cbn [JS.within]. split.
  - apply Qle_shift_div_l; [exact Hn|]. lra.
  - apply Qle_shift_div_r; [exact Hn|]. lra.
Qed.

(** Rounding to three decimals keeps a number in [-1, 1]. *)
Lemma round3_in_unit_range (x : num) :
  JS.within (-1) 1 x ->
  JS.within (-1) 1 (JS.div (JS.round (JS.mul x (Fin 1000))) (Fin 1000)).
Proof.
  destruct x as [q| | |]; cbn [JS.within]; try tauto. intros Hq.
  destruct (round_within (-1000) 1000 (JS.mul (Fin q) (Fin 1000))) as (z & Hz & Hr).
  { cbn [JS.mul JS.within]. change (inject_Z (-1000)) with (-1000).
    change (inject_Z 1000) with 1000. lra. }
  rewrite Hz. unfold JS.ofZ.
  change (JS.div (Fin (inject_Z z)) (Fin 1000)) with (Fin (inject_Z z / 1000)).
  cbn [JS.within].
  assert (H1 : inject_Z (-1000) <= inject_Z z) by (rewrite <- Zle_Qle; lia).
  assert (H2 : inject_Z z <= inject_Z 1000) by (rewrite <- Zle_Qle; lia).
  change (inject_Z (-1000)) with (-1000) in H1. change (inject_Z 1000) with 1000 in H2.
  split.
  - apply Qle_shift_div_l; lra.
  - apply Qle_shift_div_r; lra.
Qed.

(** X15: when the imbalance of every venue that is present lies in [-1, 1],
    so does the combined imbalance of the signal; when no venue is present
    the combined imbalance is 0. *)
Theorem generateSignal_combined_in_range
    (now : Z) (asset0 : string) (hlData okxData krakenData : option ExchangeData)
    (ws : list WhaleOrder) (sup res : list SupportLevel) (avg : num) (tr : Trend) :
  imbalanceInRange hlData -> imbalanceInRange okxData -> imbalanceInRange krakenData ->
  let s := generateSignal now asset0 hlData okxData krakenData ws sup res avg tr in
  JS.within (-1) 1 (combinedImbalance s) /\
  (hlData = None -> okxData = None -> krakenData = None ->
   JS.eq (combinedImbalance s) JS.zero = true).
Proof.
  intros Hh Ho Hk s. subst s.
  destruct (generateSignal_derived now asset0 hlData okxData krakenData ws sup res avg tr)
    as (_ & -> & _).
  split.
  - apply round3_in_unit_range, averageOr0_in_unit_range.
    destruct hlData, okxData, krakenData; cbn in *; repeat constructor; assumption.
  - intros -> -> ->. vm_compute. reflexivity.
Qed.

Lemma generateSignal_combined_in_range_witness :
  JS.within (-1) 1
    (combinedImbalance
       (generateSignal 0 "BTC" (Some bullishVenue) None (Some bearishVenue)
                       [] [] [] JS.zero NEUTRAL)) /\
  JS.eq (combinedImbalance
           (generateSignal 0 "BTC" None None None [] [] [] (Fin (1 # 2)) BULLISH))
        JS.zero = true.
Proof.
  split.
  - apply generateSignal_combined_in_range; cbn; try exact I; lra.
  - apply (generateSignal_combined_in_range 0 "BTC" None None None [] [] []
             (Fin (1 # 2)) BULLISH I I I); reflexivity.
Defined.


(** ** Trend Tracker *)

(** The tracker only looks at the 15-minute window. *)
Lemma calculateTrend_of_window (now : Z) (h1 h2 : list ImbalanceEntry) (a : AssetKey) :
  recentWindow now h1 = recentWindow now h2 ->
  calculateTrend now h1 a = calculateTrend now h2 a.
Proof.
  intros E.
  destruct (recentWindow now h1) as [|e w] eqn:E1.
  - rewrite (calculateTrend_empty_window _ _ _ E1).
    symmetry in E. rewrite (calculateTrend_empty_window _ _ _ E). reflexivity.
  - assert (N1 : recentWindow now h1 <> []) by (rewrite E1; discriminate).
    assert (N2 : recentWindow now h2 <> []) by (rewrite <- E; discriminate).
    rewrite (calculateTrend_window _ _ _ N1), (calculateTrend_window _ _ _ N2).
    unfold windowMean, windowReadings. rewrite E1, <- E. reflexivity.
Qed.

(** X16: readings older than 15 minutes never influence the result: two
    histories with the same 15-minute window give the same average and
    trend, in particular a history and its own window. *)
Theorem calculateTrend_ignores_old_readings
    (now : Z) (old history : list ImbalanceEntry) (a : AssetKey) :
  Forall (fun h => (ie_timestamp h <= now - 15 * 60 * 1000)%Z) old ->
  calculateTrend now (old ++ history) a = calculateTrend now history a /\
  calculateTrend now (history ++ old) a = calculateTrend now history a /\
  calculateTrend now (recentWindow now history) a = calculateTrend now history a.
Proof.
  intros Hold.
  assert (Eold : recentWindow now old = []).
  { unfold recentWindow. induction Hold as [|h old Hh _ IH]; cbn; [reflexivity|].
    destruct (now - 15 * 60 * 1000 <? ie_timestamp h)%Z eqn:E; [|exact IH].
    apply Z.ltb_lt in E. lia. }
  split; [|split]; apply calculateTrend_of_window; unfold recentWindow in *.
  - rewrite List.filter_app, Eold. reflexivity.
  - rewrite List.filter_app, Eold, app_nil_r. reflexivity.
  - induction history as [|h hs IH]; cbn; [reflexivity|].
    destruct (now - 15 * 60 * 1000 <? ie_timestamp h)%Z eqn:E; cbn; [rewrite E, IH|]; 
      [reflexivity|exact IH].
Qed.

Lemma calculateTrend_ignores_old_readings_witness :
  calculateTrend 2000000 staleThenBullish btc
  = calculateTrend 2000000 (historyOf 1990000 [8 # 100; 8 # 100; 8 # 100]) btc.
Proof.
  refine (proj1 (calculateTrend_ignores_old_readings 2000000
                   (historyOf 1000 [-9 # 10; -9 # 10])
                   (historyOf 1990000 [8 # 100; 8 # 100; 8 # 100]) btc _)).
  repeat constructor; cbn; lia.
Defined.

(** X17: when every reading of the 15-minute window lies in [-1, 1], so does
    the average; it is above 0.05 when the trend is BULLISH and below -0.05
    when it is BEARISH. *)
Theorem calculateTrend_average_range
    (now : Z) (history : list ImbalanceEntry) (a : AssetKey) :
  Forall (fun h => JS.within (-1) 1 (reading a h)) (recentWindow now history) ->
  exists q, fst (calculateTrend now history a) = Fin q /\ -1 <= q <= 1 /\
            (snd (calculateTrend now history a) = BULLISH -> 5 # 100 < q) /\
            (snd (calculateTrend now history a) = BEARISH -> q < -5 # 100).
Proof.
  intros HF.
  destruct (recentWindow now history) as [|e w] eqn:Ew.
  - rewrite (calculateTrend_empty_window _ _ _ Ew). exists 0. cbn.
    repeat split; try lra; try reflexivity; discriminate.
  - assert (Hne : recentWindow now history <> []) by (rewrite Ew; discriminate).
    rewrite (calculateTrend_window _ _ _ Hne). cbn [fst snd].
    assert (Hm : JS.within (-1) 1 (windowMean now history a)).
    { unfold windowMean, windowReadings. rewrite Ew.
      change (JS.within (-1) 1 (averageOr0 (map (reading a) (e :: w)))).
      apply averageOr0_in_unit_range. apply Forall_map. exact HF. }
    destruct (windowMean now history a) as [q| | |]; cbn in Hm; try contradiction.
    exists q. split; [reflexivity|]. split; [exact Hm|].
    destruct (JS.gt (Fin q) (Fin (5 # 100))) eqn:G;
      destruct (JS.lt (Fin q) (Fin (-5 # 100))) eqn:L;
      rewrite ?andb_true_r, ?andb_false_r;
      cbn in G, L;
      try apply Qlt_bool_iff in G; try apply Qlt_bool_iff in L;
      repeat match goal with |- context [if ?c then _ else _] => destruct c end;
      split; intros; try discriminate; assumption.
Qed.

Lemma calculateTrend_average_range_witness :
  exists q, fst (calculateTrend 1000500 bullishHistory btc) = Fin q /\ -1 <= q <= 1.
Proof.
  destruct (calculateTrend_average_range 1000500 bullishHistory btc) as (q & Hq & Hr & _).
  - repeat constructor; cbn; lra.
  - exists q. split; assumption.
Defined.


(** ** One fetch-and-synthesize pass *)

(** X18: the REST fallback never proposes a trade: whatever the venues
    return, both signals of [fetchAllData] have action WAIT, confidence 0,
    trend NEUTRAL and a 15-minute average of 0. *)
Theorem fetchAllData_never_trades (f : Fetched) (tBtc tEth : Z) :
  noTrade (sp_btc (fetchAllData f tBtc tEth)) /\
  noTrade (sp_eth (fetchAllData f tBtc tEth)).
Proof.
  unfold fetchAllData, noTrade. cbv zeta. cbn [sp_btc sp_eth].
  split; repeat split; reflexivity.
Qed.

(** X19: on the same venue results, a polling cycle and the REST fallback
    agree on everything that does not depend on the trend or the clock:
    spread, combined imbalance, whale orders, whale consensus, support and
    resistance levels. *)
Theorem fetchWithTrend_same_market_view (f : Fetched) (clk : CycleClock)
    (history : list ImbalanceEntry) (tBtc tEth : Z) :
  sameMarketView (sp_btc (fst (fetchWithTrend f clk history)))
                 (sp_btc (fetchAllData f tBtc tEth)) /\
  sameMarketView (sp_eth (fst (fetchWithTrend f clk history)))
                 (sp_eth (fetchAllData f tBtc tEth)).
Proof.
  assert (H : forall now now' asset0 h o k ws sup res avg tr avg' tr',
             sameMarketView (generateSignal now asset0 h o k ws sup res avg tr)
                            (generateSignal now' asset0 h o k ws sup res avg' tr')).
  { intros. unfold sameMarketView.
    destruct (generateSignal_derived now asset0 h o k ws sup res avg tr) as (-> & -> & _).
    destruct (generateSignal_derived now' asset0 h o k ws sup res avg' tr') as (-> & -> & _).
    destruct (generateSignal_passthrough now asset0 h o k ws sup res avg tr)
      as (_ & _ & -> & -> & -> & -> & _).
    destruct (generateSignal_passthrough now' asset0 h o k ws sup res avg' tr')
      as (_ & _ & -> & -> & -> & -> & _).
    destruct h, o; repeat split; reflexivity. }
  unfold fetchWithTrend, fetchAllData. cbv zeta. cbn [fst sp_btc sp_eth].
  split; apply H.
Qed.

(** ** The aggregation actor: reads *)

(** A cycle stores the pair its fetch returns, and no other. *)
Lemma pollCycle_lastData
    (body : CycleInput -> list ImbalanceEntry -> Outcome SignalPair * list ImbalanceEntry)
    (stringify : SignalPair -> Outcome unit) (inp : CycleInput) (st : OrderFlowDO) :
  match body inp (imbalanceHistory st) with
  | (Returned d, _) => lastData (fst (pollCycle body stringify inp st)) = Some d
  | (Thrown _, _) => lastData (fst (pollCycle body stringify inp st)) = lastData st
  end.
Proof.
  unfold pollCycle, broadcastCall.
  destruct (body inp (imbalanceHistory st)) as [[d|e] h]; [|reflexivity].
  destruct (stringify d); reflexivity.
Qed.

(** Once a pair is stored, a pair is stored after any number of cycles: the
    same one, or one that the fetch of a cycle returned. *)
Lemma startPolling_lastData
    (body : CycleInput -> list ImbalanceEntry -> Outcome SignalPair * list ImbalanceEntry)
    (stringify : SignalPair -> Outcome unit) (cycles : list CycleInput)
    (st : OrderFlowDO) (d0 : SignalPair) :
  lastData st = Some d0 ->
  exists d, lastData (fst (startPolling body stringify cycles st)) = Some d /\
    (d = d0 \/ exists inp h h', In inp cycles /\ body inp h = (Returned d, h')).
Proof.
  revert st d0. induction cycles as [|inp rest IH]; intros st d0 H0.
  - exists d0. split; [exact H0|left; reflexivity].
  - rewrite startPolling_cons. cbn [fst].
    pose proof (pollCycle_lastData body stringify inp st) as Hc.
    destruct (body inp (imbalanceHistory st)) as [[d1|e] h] eqn:Eb.
    + destruct (IH _ d1 Hc) as (d & Hd & Hfrom). exists d. split; [exact Hd|].
      right. destruct Hfrom as [-> | (i & h1 & h2 & Hi & Hr)].
      * exists inp, (imbalanceHistory st), h. split; [left; reflexivity|exact Eb].
      * exists i, h1, h2. split; [right; exact Hi|exact Hr].
    + rewrite H0 in Hc. destruct (IH _ d0 Hc) as (d & Hd & Hfrom). exists d.
      split; [exact Hd|].
      destruct Hfrom as [-> | (i & h1 & h2 & Hi & Hr)]; [left; reflexivity|right].
      exists i, h1, h2. split; [right; exact Hi|exact Hr].
Qed.

(** Cycles whose fetch throws leave the stored pair alone. *)
Lemma startPolling_failing_keeps_lastData
    (body : CycleInput -> list ImbalanceEntry -> Outcome SignalPair * list ImbalanceEntry)
    (stringify : SignalPair -> Outcome unit) (cycles : list CycleInput) (st : OrderFlowDO) :
  Forall (fun inp => forall h, exists e h', body inp h = (Thrown e, h')) cycles ->
  lastData (fst (startPolling body stringify cycles st)) = lastData st.
Proof.
  intros HF. revert st. induction HF as [|inp rest Hinp _ IH]; intros st; [reflexivity|].
  rewrite startPolling_cons. cbn [fst]. rewrite IH.
  pose proof (pollCycle_lastData body stringify inp st) as Hc.
  destruct (Hinp (imbalanceHistory st)) as (e & h' & Eb). rewrite Eb in Hc. exact Hc.
Qed.

(** X20: a REST read fetches from the venues only once.  After the first
    REST read of an actor without a stored pair, and any number of polling
    cycles, a REST read changes nothing and returns the stored pair,
    whatever the venues would return by then: this pair is the answer of the
    first read or a pair returned by the fetch of one of the cycles in
    between, and it is the answer of the first read when every such fetch
    threw (in particular when no cycle ran in between). *)
Theorem rest_read_is_cached
    (body : CycleInput -> list ImbalanceEntry -> Outcome SignalPair * list ImbalanceEntry)
    (stringify : SignalPair -> Outcome unit)
    (f1 f2 : Fetched) (t1 t1' t2 t2' : Z) (cycles : list CycleInput) (st : OrderFlowDO) :
  lastData st = None ->
  let r1 := OrderFlowDO_fetch Rest f1 t1 t1' st in
  let st2 := fst (startPolling body stringify cycles (snd r1)) in
  let r2 := OrderFlowDO_fetch Rest f2 t2 t2' st2 in
  fst r1 = Json (fetchAllData f1 t1 t1') /\
  snd r2 = st2 /\
  (exists d, fst r2 = Json d /\ lastData st2 = Some d /\
     (d = fetchAllData f1 t1 t1' \/
      exists inp h h', In inp cycles /\ body inp h = (Returned d, h'))) /\
  (Forall (fun inp => forall h, exists e h', body inp h = (Thrown e, h')) cycles ->
   fst r2 = fst r1).
Proof.
  intros Hnone r1 st2 r2.
  assert (E1 : r1 = (Json (fetchAllData f1 t1 t1'),
                     mkOrderFlowDO (sessions st) (Some (fetchAllData f1 t1 t1'))
                                   (imbalanceHistory st))).
  { subst r1. unfold OrderFlowDO_fetch. rewrite Hnone. reflexivity. }
  assert (H1 : lastData (snd r1) = Some (fetchAllData f1 t1 t1')) by (rewrite E1; reflexivity).
  destruct (startPolling_lastData body stringify cycles _ _ H1) as (d & Hd & Hfrom).
  fold st2 in Hd.
  assert (E2 : r2 = (Json d, st2)).
  { subst r2. apply rest_read_with_snapshot. exact Hd. }
  split; [rewrite E1; reflexivity|]. split; [rewrite E2; reflexivity|].
  split.
  - exists d. split; [rewrite E2; reflexivity|]. split; [exact Hd|exact Hfrom].
  - intros HF.
    pose proof (startPolling_failing_keeps_lastData body stringify cycles (snd r1) HF) as Hk.
    fold st2 in Hk. rewrite Hd, H1 in Hk. injection Hk as ->.
    rewrite E2, E1. reflexivity.
Qed.

Lemma rest_read_is_cached_witness :
  fst (OrderFlowDO_fetch Rest fetchedABC 9000 9001
         (fst (startPolling failingBody stringifySignals [quietCycle 5000; quietCycle 7000]
                 (snd (OrderFlowDO_fetch Rest allAbsent 1000 1001 idleActor)))))
  = Json (fetchAllData allAbsent 1000 1001).
Proof.
  destruct (rest_read_is_cached failingBody stringifySignals allAbsent fetchedABC
              1000 1001 9000 9001 [quietCycle 5000; quietCycle 7000] idleActor eq_refl)
    as (H1 & _ & _ & H4).
  rewrite H4; [exact H1|].
  repeat constructor; intros h; exists "synthesis bug", h; reflexivity.
Defined.


(** X21: the life of a subscriber.  A WebSocket upgrade registers the new
    socket and pushes the stored pair, if there is one; the socket is then
    served by a broadcast whenever its [send] succeeds; closing it (or an
    error on it) restores the actor state from before the upgrade, and no
    later broadcast serves it. *)
Theorem websocket_lifecycle (server : nat) (f : Fetched) (tBtc tEth : Z)
    (st : OrderFlowDO) (sendOk : nat -> bool) (data : SignalPair) :
  server ∉ sessions st ->
  let r := OrderFlowDO_fetch (UpgradeWebSocket server) f tBtc tEth st in
  fst r = SwitchingProtocols (lastData st) /\
  server ∈ sessions (snd r) /\
  lastData (snd r) = lastData st /\ imbalanceHistory (snd r) = imbalanceHistory st /\
  (server ∈ snd (broadcast sendOk data (snd r)) <-> sendOk server = true) /\
  webSocketClose server (snd r) = st /\
  webSocketError server (snd r) = st /\
  server ∉ snd (broadcast sendOk data (webSocketClose server (snd r))).
Proof.
  intros Hfresh r. subst r. destruct st as [ss ld hist]. cbn in *.
  assert (Hmem : server ∈ ({[server]} ∪ ss : gset nat)).
  { apply elem_of_union_l, elem_of_singleton. reflexivity. }
  assert (Eset : ({[server]} ∪ ss) ∖ {[server]} = ss).
  { rewrite difference_union_distr_l_L, difference_diag_L, union_empty_l_L.
    apply difference_disjoint_L, disjoint_singleton_r. exact Hfresh. }
  repeat split; try reflexivity.
  - exact Hmem.
  - intros H. apply elem_of_filter in H. tauto.
  - intros H. apply elem_of_filter. split; [exact H|exact Hmem].
  - unfold webSocketClose. cbn. rewrite Eset. reflexivity.
  - unfold webSocketError. cbn. rewrite Eset. reflexivity.
  - rewrite Eset. intros H. apply elem_of_filter in H. tauto.
Qed.

Lemma websocket_lifecycle_witness :
  webSocketClose 3 (snd (OrderFlowDO_fetch (UpgradeWebSocket 3) allAbsent 0 0 servingActor))
  = servingActor.
Proof.
  refine (proj1 (proj2 (proj2 (proj2 (proj2 (proj2
    (websocket_lifecycle 3 allAbsent 0 0 servingActor (fun _ => true)
       (fetchAllData allAbsent 0 0) _))))))).
  cbn. apply not_elem_of_singleton. lia.
Defined.

(** ** The aggregation actor: the imbalance history *)

Lemma fetchWithTrend_history (f : Fetched) (clk : CycleClock)
    (history : list ImbalanceEntry) :
  snd (fetchWithTrend f clk history)
  = trimmed (t_record clk) (history ++ [recordedEntry f clk]).
Proof. reflexivity. Qed.

Lemma trimmed_record (f : Fetched) (clk : CycleClock) (history : list ImbalanceEntry) :
  trimmed (t_record clk) (history ++ [recordedEntry f clk])
  = trimmed (t_record clk) history ++ [recordedEntry f clk].
Proof.
  unfold trimmed. rewrite List.filter_app. cbn [List.filter recordedEntry ie_timestamp].
  assert (E : (t_record clk - 20 * 60 * 1000 <? t_record clk)%Z = true)
    by (apply Z.ltb_lt; lia).
  rewrite E. reflexivity.
Qed.

(** X22: after a cycle the history consists of the earlier entries that are
    younger than 20 minutes, in their order, followed by the entry of this
    cycle; so no entry is 20 minutes old or older, the newest entry is last
    and the history has grown by at most one entry. *)
Theorem fetchWithTrend_history_window (f : Fetched) (clk : CycleClock)
    (history : list ImbalanceEntry) :
  let h' := snd (fetchWithTrend f clk history) in
  h' = trimmed (t_record clk) history ++ [recordedEntry f clk] /\
  Forall (fun e => (t_record clk - 1200000 < ie_timestamp e)%Z) h' /\
  last h' = Some (recordedEntry f clk) /\
  (length h' <= length history + 1)%nat /\
  (forall e, In e history -> (t_record clk - 1200000 < ie_timestamp e)%Z -> In e h').
Proof.
  intros h'. subst h'. rewrite fetchWithTrend_history, trimmed_record.
  split; [reflexivity|]. split; [|split; [|split]].
  - apply Forall_app. split.
    + apply List.Forall_forall. intros e He. unfold trimmed in He.
      apply filter_In in He as [_ He]. apply Z.ltb_lt in He. lia.
    + constructor; [cbn; lia|constructor].
  - apply last_snoc.
  - rewrite length_app. cbn [length]. unfold trimmed.
    pose proof (List.filter_length_le
                  (fun h => (t_record clk - 20 * 60 * 1000 <? ie_timestamp h)%Z) history).
    lia.
  - intros e He Ht. apply in_or_app. left. unfold trimmed. apply filter_In.
    split; [exact He|]. apply Z.ltb_lt. lia.
Qed.

Lemma spaced_span (hi : Z) (x : ImbalanceEntry) (l : list ImbalanceEntry) :
  spaced 2000 (x :: l) -> Forall (fun e => (ie_timestamp e <= hi)%Z) (x :: l) ->
  (ie_timestamp x + 2000 * Z.of_nat (length l) <= hi)%Z.
Proof.
  unfold spaced. revert x. induction l as [|y l IH]; intros x Hs Hhi.
  - inversion Hhi; subst. cbn. lia.
  - inversion Hs as [|? ? Hs' Hx]; subst. inversion Hx as [|? ? Hxy _]; subst.
    inversion Hhi as [|? ? _ Hhi']; subst.
    specialize (IH y Hs' Hhi'). cbn [length]. lia.
Qed.

(** X23: when every cycle starts at least 2 seconds after the previous
    entry was recorded, the history stays spaced by 2 seconds and never
    holds more than 600 entries. *)
Theorem fetchWithTrend_history_bounded (f : Fetched) (clk : CycleClock)
    (history : list ImbalanceEntry) :
  spaced 2000 history ->
  Forall (fun e => (ie_timestamp e + 2000 <= t_record clk)%Z) history ->
  let h' := snd (fetchWithTrend f clk history) in
  spaced 2000 h' /\
  Forall (fun e => (ie_timestamp e <= t_record clk)%Z) h' /\
  (length h' <= 600)%nat.
Proof.
  intros Hs Hold h'. subst h'. rewrite fetchWithTrend_history, trimmed_record.
  assert (Hin : forall e, In e (trimmed (t_record clk) history) ->
                          In e history /\ (t_record clk - 1200000 < ie_timestamp e)%Z).
  { intros e He. unfold trimmed in He. apply filter_In in He as [He Ht].
    apply Z.ltb_lt in Ht. split; [exact He|lia]. }
  rewrite List.Forall_forall in Hold.
  assert (Hsp : spaced 2000 (trimmed (t_record clk) history ++ [recordedEntry f clk])).
  { unfold spaced, trimmed in *.
    apply (StronglySorted_filter _
             (fun h => (t_record clk - 20 * 60 * 1000 <? ie_timestamp h)%Z)) in Hs.
    induction Hs as [|x l Hs IH Hx]; cbn [app].
    - constructor; constructor.
    - constructor.
      + apply IH. intros e He. apply Hin. right. exact He.
      + apply Forall_app. split; [exact Hx|].
        constructor; [|constructor]. cbn [recordedEntry ie_timestamp].
        apply Hold. apply (Hin x). left. reflexivity. }
  assert (Hhi : Forall (fun e => (ie_timestamp e <= t_record clk)%Z)
                       (trimmed (t_record clk) history ++ [recordedEntry f clk])).
  { apply Forall_app. split.
    - apply List.Forall_forall. intros e He. apply Hin in He as [He _].
      specialize (Hold _ He). lia.
    - constructor; [cbn; lia|constructor]. }
  split; [exact Hsp|]. split; [exact Hhi|].
  destruct (trimmed (t_record clk) history ++ [recordedEntry f clk]) as [|x l] eqn:E.
  - cbn. lia.
  - pose proof (spaced_span _ x l Hsp Hhi) as Hspan.
    assert (Hx : (t_record clk - 1200000 < ie_timestamp x)%Z).
    { destruct (trimmed (t_record clk) history) as [|y l'] eqn:Et.
      - cbn in E. injection E as <- <-. cbn. lia.
      - cbn in E. injection E as <- <-. apply (Hin y). left. reflexivity. }
    cbn [length]. lia.
Qed.

Lemma fetchWithTrend_history_bounded_witness :
  (length (snd (fetchWithTrend allAbsent (clockAt 2000000) steadyHistory)) <= 600)%nat.
Proof.
  refine (proj2 (proj2
    (fetchWithTrend_history_bounded allAbsent (clockAt 2000000) steadyHistory _ _))).
  - repeat constructor; cbn; lia.
  - repeat constructor; cbn; lia.
Defined.


(** ** The aggregation actor: the polling loop with the cycle body of the source *)

Lemma pollCycle_source (inp : CycleInput) (st : OrderFlowDO) :
  pollCycle fetchWithTrendBody stringifySignals inp st =
    (mkOrderFlowDO (filter (fun ws => ci_sendOk inp ws = true) (sessions st))
       (Some (fst (fetchWithTrend (ci_fetched inp) (ci_clock inp) (imbalanceHistory st))))
       (snd (fetchWithTrend (ci_fetched inp) (ci_clock inp) (imbalanceHistory st))),
     [EvBroadcast (fst (fetchWithTrend (ci_fetched inp) (ci_clock inp) (imbalanceHistory st)))
                  (filter (fun ws => ci_sendOk inp ws = true) (sessions st));
      EvSleep 2000]).
Proof.
  unfold pollCycle, broadcastCall, stringifySignals, fetchWithTrendBody.
  destruct (fetchWithTrend (ci_fetched inp) (ci_clock inp) (imbalanceHistory st)) as [d h].
  reflexivity.
Qed.

(** X24: with the cycle body of the source the catch branch is never taken:
    every cycle broadcasts once and logs no error; after the first cycle a
    signal pair is stored; without new registrations the served sets only
    shrink ([b ⊆ a] for every later set [b]), stay within the initial
    registry, and the last one is the final registry. *)
Theorem startPolling_source_trace (inputs : list CycleInput) (st : OrderFlowDO) :
  let r := startPolling fetchWithTrendBody stringifySignals inputs st in
  List.filter isError (snd r) = [] /\
  length (servedSets (snd r)) = length inputs /\
  (inputs <> [] -> is_Some (lastData (fst r))) /\
  sessions (fst r) ⊆ sessions st /\
  Forall (fun served => served ⊆ sessions st) (servedSets (snd r)) /\
  StronglySorted (fun a b => b ⊆ a) (servedSets (snd r)) /\
  (inputs <> [] -> last (servedSets (snd r)) = Some (sessions (fst r))).
Proof.
  revert st. induction inputs as [|inp rest IH]; intros st.
  - cbn. repeat split; try reflexivity; try constructor; intros H; elim H; reflexivity.
  - cbn [startPolling]. rewrite pollCycle_source.
    set (d := fst (fetchWithTrend _ _ _)). set (h := snd (fetchWithTrend _ _ _)).
    set (alive := filter (fun ws => ci_sendOk inp ws = true) (sessions st)).
    assert (Halive : alive ⊆ sessions st).
    { intros ws Hws. subst alive. apply elem_of_filter in Hws. tauto. }
    specialize (IH (mkOrderFlowDO alive (Some d) h)).
    destruct (startPolling fetchWithTrendBody stringifySignals rest (mkOrderFlowDO alive (Some d) h))
      as [st2 ev2] eqn:E.
    cbn [fst snd] in *. cbn [sessions] in IH.
    destruct IH as (I1 & I2 & I3 & I4 & I5 & I6 & I7).
    change (servedSets ([EvBroadcast d alive; EvSleep 2000] ++ ev2))
      with (alive :: servedSets ev2).
    change (List.filter isError ([EvBroadcast d alive; EvSleep 2000] ++ ev2))
      with (List.filter isError ev2).
    split; [exact I1|]. split; [cbn [length]; rewrite I2; reflexivity|].
    split.
    { intros _. destruct rest as [|i2 rest'].
      - cbn in E. injection E as <- <-. cbn. eauto.
      - apply I3. discriminate. }
    split; [etransitivity; eassumption|].
    split.
    { constructor; [exact Halive|].
      eapply Forall_impl; [exact I5|]. cbn. intros a Ha. etransitivity; eassumption. }
    split; [constructor; assumption|].
    intros _. destruct rest as [|i2 rest'].
    + cbn in E. injection E as <- <-. reflexivity.
    + destruct (servedSets ev2) as [|s0 ss] eqn:Es.
      * cbn in I2. discriminate.
      * cbn [last]. rewrite <- I7 by discriminate. reflexivity.
Qed.

Lemma startPolling_source_trace_witness :
  length (servedSets (snd (startPolling fetchWithTrendBody stringifySignals threeCycles twoSubscribers))) = 3%nat
  /\ is_Some (lastData (fst (startPolling fetchWithTrendBody stringifySignals threeCycles twoSubscribers))).
Proof.
  destruct (startPolling_source_trace threeCycles twoSubscribers) as (_ & H2 & H3 & _).
  split; [exact H2|]. apply H3. discriminate.
Defined.

(** ** Well-formed books keep every imbalance figure in [-1, 1] *)

Lemma analyze_in_range (book : option OrderBook) (threshold : num) :
  wellFormedBook book ->
  match analyze book threshold with
  | Some a => JS.within (-1) 1 (an_imbalance a)
  | None => True
  end.
Proof.
  destruct book as [b|]; cbn; [|tauto]. intros (Hb & Ha & Hne).
  destruct (analyzeOrderBook_imbalance_range b threshold
              (boundedSizes_positive _ Hb) (boundedSizes_positive _ Ha) Hne)
    as (bd & ad & _ & _ & _ & _ & H).
  exact H.
Qed.

(** The depths of a well-formed book do not leave the range of a double. *)
Lemma exchangeData_depths_bounded (book : option OrderBook) (threshold : num) (now : Z) :
  wellFormedBook book ->
  let d := default (mkExchangeData JS.zero JS.zero JS.zero JS.zero now)
                   (exchangeData book (analyze book threshold)) in
  depthBounded (bidDepth d) /\ depthBounded (askDepth d).
Proof.
  pose proof sizeBound_nonneg as HB.
  destruct book as [b|]; cbn.
  - intros (Hb & Ha & _). unfold analyzeOrderBook. cbn [an_bidDepth an_askDepth].
    destruct (depth_bounded _ Hb) as (bd & Eb & Hb0 & Hb1 & _).
    destruct (depth_bounded _ Ha) as (ad & Ea & Ha0 & Ha1 & _).
    split; [exists bd|exists ad]; auto.
  - intros _. split; exists 0; (split; [reflexivity|split; lra]).
Qed.


Lemma definedImbalances_in_range (b1 b2 b3 : option OrderBook) (threshold : num) :
  wellFormedBook b1 -> wellFormedBook b2 -> wellFormedBook b3 ->
  JS.within (-1) 1
    (averageOr0 (definedImbalances (analyze b1 threshold) (analyze b2 threshold)
                                   (analyze b3 threshold))).
Proof.
  intros H1 H2 H3. apply averageOr0_in_unit_range.
  apply (analyze_in_range _ threshold) in H1, H2, H3.
  unfold definedImbalances.
  destruct (analyze b1 threshold), (analyze b2 threshold), (analyze b3 threshold);
    cbn; repeat constructor; assumption.
Qed.

Lemma exchangeData_in_range (book : option OrderBook) (threshold : num) :
  wellFormedBook book ->
  imbalanceInRange (exchangeData book (analyze book threshold)).
Proof.
  intros H. pose proof (analyze_in_range book threshold H) as Ha.
  destruct book as [b|]; cbn in *; [exact Ha|exact I].
Qed.

Lemma calculateTrend_avg_in_range (now : Z) (history : list ImbalanceEntry) (a : AssetKey) :
  readingsInRange history -> JS.within (-1) 1 (fst (calculateTrend now history a)).
Proof.
  intros HR.
  destruct (recentWindow now history) as [|e w] eqn:Ew.
  - rewrite (calculateTrend_empty_window _ _ _ Ew). cbn. lra.
  - assert (Hne : recentWindow now history <> []) by (rewrite Ew; discriminate).
    rewrite (calculateTrend_window _ _ _ Hne). cbn [fst].
    unfold windowMean, windowReadings. rewrite Ew.
    change (JS.within (-1) 1 (averageOr0 (map (reading a) (e :: w)))).
    apply averageOr0_in_unit_range. apply Forall_map.
    apply List.Forall_forall. intros x Hx.
    assert (Hin : In x history).
    { rewrite <- Ew in Hx. unfold recentWindow in Hx. apply filter_In in Hx. tauto. }
    unfold readingsInRange in HR. rewrite List.Forall_forall in HR.
    destruct (HR _ Hin) as [Hb He]. destruct a; assumption.
Qed.

Lemma generateSignal_imbalances_in_range
    (now : Z) (asset0 : string) (hlData okxData krakenData : option ExchangeData)
    (ws : list WhaleOrder) (sup res : list SupportLevel) (avg : num) (tr : Trend) :
  imbalanceInRange hlData -> imbalanceInRange okxData -> imbalanceInRange krakenData ->
  JS.within (-1) 1 avg ->
  imbalancesInRange (generateSignal now asset0 hlData okxData krakenData ws sup res avg tr).
Proof.
  intros Hh Ho Hk Havg. unfold imbalancesInRange.
  destruct (generateSignal_derived now asset0 hlData okxData krakenData ws sup res avg tr)
    as (_ & -> & ->).
  destruct (generateSignal_passthrough now asset0 hlData okxData krakenData ws sup res avg tr)
    as (_ & _ & _ & _ & _ & _ & _ & -> & -> & ->).
  split; [|split; [|split; [|split]]].
  - apply round3_in_unit_range, averageOr0_in_unit_range.
    destruct hlData, okxData, krakenData; cbn in *; repeat constructor; assumption.
  - apply round3_in_unit_range. exact Havg.
  - destruct hlData; cbn in *; [exact Hh|lra].
  - destruct okxData; cbn in *; [exact Ho|lra].
  - destruct krakenData; cbn in *; [exact Hk|lra].
Qed.

Lemma generateSignal_depths_bounded
    (now : Z) (asset0 : string) (hlData okxData krakenData : option ExchangeData)
    (ws : list WhaleOrder) (sup res : list SupportLevel) (avg : num) (tr : Trend) :
  let emptyData := mkExchangeData JS.zero JS.zero JS.zero JS.zero now in
  depthBounded (bidDepth (default emptyData hlData)) /\
    depthBounded (askDepth (default emptyData hlData)) ->
  depthBounded (bidDepth (default emptyData okxData)) /\
    depthBounded (askDepth (default emptyData okxData)) ->
  depthBounded (bidDepth (default emptyData krakenData)) /\
    depthBounded (askDepth (default emptyData krakenData)) ->
  depthsBounded (generateSignal now asset0 hlData okxData krakenData ws sup res avg tr).
Proof.
  intros emptyData Hh Ho Hk. unfold depthsBounded.
  destruct (generateSignal_passthrough now asset0 hlData okxData krakenData ws sup res avg tr)
    as (_ & _ & _ & _ & _ & _ & _ & -> & -> & ->).
  apply List.Forall_cons; [exact Hh|]. apply List.Forall_cons; [exact Ho|].
  apply List.Forall_cons; [exact Hk|]. apply List.Forall_nil.
Qed.

(** X25: when every book that a cycle receives is well formed (positive
    sizes of at most [sizeBound], at least one level) and the readings of
    the history lie in [-1, 1], then no depth of the two new signals exceeds
    ten times [sizeBound], and the readings of the new history and every
    imbalance figure of the two new signals lie in [-1, 1]. *)
Theorem fetchWithTrend_imbalances_in_range (f : Fetched) (clk : CycleClock)
    (history : list ImbalanceEntry) :
  wellFormedFetch f -> readingsInRange history ->
  let r := fetchWithTrend f clk history in
  readingsInRange (snd r) /\
  imbalancesInRange (sp_btc (fst r)) /\
  imbalancesInRange (sp_eth (fst r)) /\
  depthsBounded (sp_btc (fst r)) /\
  depthsBounded (sp_eth (fst r)).
Proof.
  intros (W1 & W2 & W3 & W4 & W5 & W6) HR r. subst r.
  assert (HR' : readingsInRange (snd (fetchWithTrend f clk history))).
  { rewrite fetchWithTrend_history. unfold readingsInRange, trimmed.
    apply List.Forall_forall. intros e He. apply filter_In in He as [He _].
    apply in_app_or in He as [He|[<-|[]]].
    - unfold readingsInRange in HR. rewrite List.Forall_forall in HR. exact (HR _ He).
    - cbn [recordedEntry btcImbalance ethImbalance].
      split; apply definedImbalances_in_range; assumption. }
  split; [exact HR'|].
  rewrite fetchWithTrend_history in HR'.
  unfold fetchWithTrend. cbv zeta. cbn [fst sp_btc sp_eth].
  split; [|split; [|split]].
  - apply generateSignal_imbalances_in_range;
      try (apply exchangeData_in_range; assumption);
      apply calculateTrend_avg_in_range; exact HR'.
  - apply generateSignal_imbalances_in_range;
      try (apply exchangeData_in_range; assumption);
      apply calculateTrend_avg_in_range; exact HR'.
  - apply generateSignal_depths_bounded; apply exchangeData_depths_bounded; assumption.
  - apply generateSignal_depths_bounded; apply exchangeData_depths_bounded; assumption.
Qed.

Lemma fetchedABC_wellFormed : wellFormedFetch fetchedABC.
Proof.
  unfold wellFormedFetch, fetchedABC, wellFormedBook; cbn.
  repeat split;
    try (left; discriminate);
    repeat constructor; eexists;
    (split; [reflexivity|split; [reflexivity|apply Qle_bool_iff; vm_compute; reflexivity]]).
Qed.

Lemma fetchWithTrend_imbalances_in_range_witness :
  imbalancesInRange (sp_btc (fst (fetchWithTrend fetchedABC (clockAt 1000500) bullishHistory))).
Proof.
  refine (proj1 (proj2
    (fetchWithTrend_imbalances_in_range fetchedABC (clockAt 1000500) bullishHistory
       fetchedABC_wellFormed _))).
  repeat constructor; cbn; lra.
Defined.


(** ** Enrichment feeds *)

Lemma or_else_not_NaN (a : option num) (b : num) : b <> NaN -> JS.or_else a b <> NaN.
Proof.
  intros Hb. destruct a as [[x| | |]|]; cbn; try exact Hb; try discriminate.
  destruct (negb (Qeq_bool x 0)); [discriminate|exact Hb].
Qed.



Lemma or_else_finite (a : option num) :
  a <> Some JS.PInf -> a <> Some JS.NInf -> exists q, JS.or_else a JS.zero = Fin q.
Proof.
  intros HP HN. destruct a as [[x| | |]|]; cbn; try congruence; try (eexists; reflexivity).
  destruct (negb (Qeq_bool x 0)); eexists; reflexivity.
Qed.



(** X27: what a later call returns after a refresh has stored a record.
    While the cache still holds the record (the write has a TTL of 300 s),
    the call returns it without a cache write when it is younger than a
    minute, and also when it is older and the remote delivers nothing.
    Once the cache entry is gone, a call whose remote delivers nothing
    returns null. *)
Theorem fetchMetalsData_served_again
    (cached : option MetalsData) (t0 : Z) (item : MetalsItem) (t1 t2 : Z)
    (remote' : Remote MetalsItem) (t3 : Z) :
  staleMetals cached t0 ->
  (t2 - t1 < 60000)%Z \/ delivered remote' = None ->
  exists metals,
    fetchMetalsData cached t0 (RemoteReply (Some item)) t1
      = (Some metals, Some (mkCachePut "metals_data" metals 300)) /\
    fetchMetalsData (Some metals) t2 remote' t3 = (Some metals, None) /\
    (delivered remote' = None -> fetchMetalsData None t2 remote' t3 = (None, None)).
Proof.
  intros Hstale Hlater. eexists. split; [|split].
  - unfold fetchMetalsData. destruct cached as [c|]; [|reflexivity].
    unfold staleMetals in Hstale.
    destruct (Z.ltb_spec (t0 - md_timestamp c) 60000); [lia|reflexivity].
  - unfold fetchMetalsData. cbn [md_timestamp].
    destruct (Z.ltb_spec (t2 - t1) 60000); [reflexivity|].
    destruct Hlater as [Hlt|Hnone]; [lia|].
    destruct remote' as [|[i|]]; [reflexivity|discriminate|reflexivity].
  - intros Hnone. destruct remote' as [|[i|]]; [reflexivity|discriminate|reflexivity].
Qed.

Lemma fetchMetalsData_served_again_witness :
  exists metals,
    fetchMetalsData (Some staleMetalsRecord) 70000 (RemoteReply (Some sampleItem)) 70100
      = (Some metals, Some (mkCachePut "metals_data" metals 300)) /\
    fetchMetalsData (Some metals) 200000 RemoteThrows 200100 = (Some metals, None) /\
    fetchMetalsData None 400000 RemoteThrows 400100 = (None, None).
Proof.
  destruct (fetchMetalsData_served_again (Some staleMetalsRecord) 70000 sampleItem 70100
              200000 RemoteThrows 200100) as (metals & H1 & H2 & _).
  - cbn. lia.
  - right. reflexivity.
  - exists metals. split; [exact H1|]. split; [exact H2|reflexivity].
Defined.

Section SortDescendingLaws.

Context {A : Type} (key : A -> num).

Lemma insertDescending_Permutation (x : A) (l : list A) :
  insertDescending key x l ≡ₚ x :: l.
Proof.
  induction l as [|y l IH]; cbn [insertDescending]; [reflexivity|].
  destruct (JS.gt (JS.sub (key y) (key x)) JS.zero); [|reflexivity].
  rewrite IH. apply Permutation_swap.
Qed.

Lemma sortDescending_Permutation (l : list A) : sortDescending key l ≡ₚ l.
Proof.
  induction l as [|x l IH]; cbn [sortDescending]; [reflexivity|].
  rewrite insertDescending_Permutation, IH. reflexivity.
Qed.

Lemma key_gt (x y : A) :
  finiteKey key x -> finiteKey key y ->
  (JS.gt (JS.sub (key y) (key x)) JS.zero = true <-> keyQ key x < keyQ key y).
Proof.
  intros [a Ha] [b Hb]. unfold keyQ. rewrite Ha, Hb. cbn.
  rewrite Qlt_bool_iff. split; intros H; lra.
Qed.

Lemma insertDescending_descending (x : A) (l : list A) :
  finiteKey key x -> Forall (finiteKey key) l -> descendingBy key l ->
  descendingBy key (insertDescending key x l).
Proof.
  unfold descendingBy. intros Hx Hl Hs.
  induction Hs as [|y l Hs IH Hy]; cbn [insertDescending].
  - constructor; constructor.
  - inversion Hl as [|? ? Hfy Hl']; subst.
    destruct (JS.gt (JS.sub (key y) (key x)) JS.zero) eqn:E.
    + apply (key_gt x y Hx Hfy) in E.
      constructor; [apply IH; exact Hl'|].
      apply List.Forall_forall. intros b Hb.
      apply (Permutation_in _ (insertDescending_Permutation x l)) in Hb.
      destruct Hb as [->|Hb]; [lra|].
      rewrite List.Forall_forall in Hy. exact (Hy _ Hb).
    + assert (Hle : keyQ key y <= keyQ key x).
      { apply Qnot_lt_le. intros Hlt. apply (key_gt x y Hx Hfy) in Hlt. congruence. }
      constructor; [constructor; assumption|].
      constructor; [exact Hle|].
      rewrite List.Forall_forall in *. intros b Hb. specialize (Hy _ Hb). lra.
Qed.

Lemma sortDescending_descending (l : list A) :
  Forall (finiteKey key) l -> descendingBy key (sortDescending key l).
Proof.
  intros Hl. induction Hl as [|x l Hx Hl IH]; cbn [sortDescending]; [constructor|].
  apply insertDescending_descending; [exact Hx| |exact IH].
  rewrite List.Forall_forall in *. intros b Hb. apply Hl.
  apply (Permutation_in _ (sortDescending_Permutation l)). exact Hb.
Qed.

End SortDescendingLaws.

(** What [fetchMinerCompanyData] returns for a code of [MINER_INFO]. *)
Lemma fetchMinerCompanyData_Some (code : string) (r : Remote MinerRow) (m : MinerCompanyData) :
  fetchMinerCompanyData code r = Some m ->
  exists d, delivered r = Some d /\
    (ticker m, name m) = default (toUpperCase code, code) (minerInfo code MINER_INFO) /\
    totalRewards m = JS.or_else (total_rewards d) JS.zero /\
    figuresNotNaN m.
Proof.
  destruct r as [|[d|]]; unfold fetchMinerCompanyData, delivered; try discriminate.
  cbv zeta. intros [= <-]. exists d. unfold figuresNotNaN.
  cbn [ticker name totalRewards monthlyRewards dailyRewardsUSD monthlyRewardsUSD
       activeAddresses].
  split; [reflexivity|]. split; [symmetry; apply surjective_pairing|].
  split; [reflexivity|].
  repeat split; apply or_else_not_NaN; discriminate.
Qed.

Lemma fetchMinerCompanyData_None (code : string) (r : Remote MinerRow) :
  fetchMinerCompanyData code r = None <-> delivered r = None.
Proof. destruct r as [|[d|]]; cbn; split; congruence. Qed.

Lemma fetchAllMinerData_Permutation (replies : string -> Remote MinerRow) :
  fetchAllMinerData replies
    ≡ₚ omap (fun code => fetchMinerCompanyData code (replies code)) (map fst MINER_INFO).
Proof.
  unfold fetchAllMinerData. cbv zeta. rewrite sortDescending_Permutation.
  induction (map fst MINER_INFO) as [|c cs IH]; [reflexivity|].
  cbn. destruct (fetchMinerCompanyData c (replies c)); cbn; rewrite IH; reflexivity.
Qed.

(** The companies of the result, code by code. *)
Lemma fetchAllMinerData_In (replies : string -> Remote MinerRow) (m : MinerCompanyData) :
  In m (fetchAllMinerData replies) <->
  exists code, In code (map fst MINER_INFO) /\
               fetchMinerCompanyData code (replies code) = Some m.
Proof.
  rewrite <- !list_elem_of_In, (fetchAllMinerData_Permutation replies), list_elem_of_omap.
  split; intros (c & H1 & H2); exists c; (split; [|exact H2]).
  - apply list_elem_of_In. exact H1.
  - apply list_elem_of_In. exact H1.
Qed.

Lemma omap_length_filter {A B : Type} (f : A -> option B) (l : list A) :
  length (omap f l) = length (List.filter (fun a => match f a with Some _ => true | None => false end) l).
Proof.
  induction l as [|a l IH]; [reflexivity|]. cbn. destruct (f a); cbn; rewrite IH; reflexivity.
Qed.

Lemma omap_tickers (replies : string -> Remote MinerRow) (cs : list string) :
  map ticker (omap (fun code => fetchMinerCompanyData code (replies code)) cs)
    `sublist_of` map (fun code => fst (default (toUpperCase code, code) (minerInfo code MINER_INFO))) cs.
Proof.
  induction cs as [|c cs IH]; [constructor|].
  cbn [omap list_omap map].
  destruct (fetchMinerCompanyData c (replies c)) as [m|] eqn:E.
  - apply fetchMinerCompanyData_Some in E as (d & _ & Hinfo & _).
    cbn [map]. rewrite <- Hinfo. cbn [fst]. apply sublist_skip. exact IH.
  - apply sublist_cons. exact IH.
Qed.

Lemma fetchAllMinerData_length (replies : string -> Remote MinerRow) :
  length (fetchAllMinerData replies) = length (deliveredMiners replies).
Proof.
  rewrite (Permutation_length (fetchAllMinerData_Permutation replies)), omap_length_filter.
  unfold deliveredMiners. f_equal. apply filter_ext. intros c.
  destruct (replies c) as [|[d|]]; reflexivity.
Qed.

(** X28: the miner list holds exactly the companies whose request delivered
    a row, each once: at most nine entries, every ticker and name an entry
    of MINER_INFO (the upper-case fallback is never used), no figure NaN,
    no ticker twice, and a company of MINER_INFO is listed if and only if
    its request delivered a row. *)
Theorem fetchAllMinerData_companies (replies : string -> Remote MinerRow) :
  let r := fetchAllMinerData replies in
  length r = length (deliveredMiners replies) /\
  (length r <= 9)%nat /\
  Forall knownMiner r /\
  Forall figuresNotNaN r /\
  NoDup (map ticker r) /\
  Forall (fun e => In (fst (snd e)) (map ticker r) <-> delivered (replies (fst e)) <> None)
         MINER_INFO.
Proof.
  cbv zeta. pose proof (fetchAllMinerData_length replies) as Hlen.
  split; [exact Hlen|]. split.
  { rewrite Hlen. unfold deliveredMiners.
    etransitivity; [apply List.filter_length_le|]. cbn. lia. }
  split.
  { apply List.Forall_forall. intros m Hm.
    apply fetchAllMinerData_In in Hm as (c & Hc & E).
    apply fetchMinerCompanyData_Some in E as (d & _ & Hinfo & _).
    unfold knownMiner. rewrite Hinfo. clear -Hc.
    cbn in Hc. repeat (destruct Hc as [<-|Hc]; [vm_compute; tauto|]). destruct Hc. }
  split.
  { apply List.Forall_forall. intros m Hm.
    apply fetchAllMinerData_In in Hm as (c & _ & E).
    apply fetchMinerCompanyData_Some in E as (d & _ & _ & _ & H). exact H. }
  split.
  { rewrite (fetchAllMinerData_Permutation replies).
    eapply sublist_NoDup; [|apply omap_tickers].
    apply (bool_decide_unpack _). vm_compute. reflexivity. }
  apply List.Forall_forall. intros [code [tk nm]] He. cbn [fst snd].
  rewrite in_map_iff. split.
  - intros (m & Hm & Hin). apply fetchAllMinerData_In in Hin as (c & Hc & E).
    apply fetchMinerCompanyData_Some in E as (d & Hd & Hinfo & _).
    assert (c = code) as ->; [|congruence].
    assert (Htk : fst (default (toUpperCase c, c) (minerInfo c MINER_INFO)) = tk).
    { rewrite <- Hinfo. exact Hm. }
    clear -Hc He Htk. cbn in Hc, He.
    repeat (destruct Hc as [<-|Hc];
            [vm_compute in Htk; subst tk;
             repeat (destruct He as [He|He]; [congruence|]); destruct He|]).
    destruct Hc.
  - intros Hd. destruct (fetchMinerCompanyData code (replies code)) as [m|] eqn:E.
    + exists m. split.
      * apply fetchMinerCompanyData_Some in E as (d & _ & Hinfo & _).
        change (ticker m) with (fst (ticker m, name m)). rewrite Hinfo. clear -He.
        cbn in He. repeat (destruct He as [[= <- <- <-]|He]; [reflexivity|]). destruct He.
      * apply fetchAllMinerData_In. exists code. split; [|exact E].
        apply in_map_iff. exists (code, (tk, nm)). split; [reflexivity|exact He].
    + apply fetchMinerCompanyData_None in E. contradiction.
Qed.

(** X29: when no reply reports an infinite reward figure, the miner list is
    in descending order of daily rewards. *)
Theorem fetchAllMinerData_descending (replies : string -> Remote MinerRow) :
  Forall (fun code => finiteRewards (replies code)) (map fst MINER_INFO) ->
  descendingBy totalRewards (fetchAllMinerData replies).
Proof.
  intros Hfin. unfold fetchAllMinerData. cbv zeta.
  apply sortDescending_descending.
  apply List.Forall_forall. intros m Hm.
  assert (Hin : In m (fetchAllMinerData replies)).
  { apply (Permutation_in _ (Permutation_sym (sortDescending_Permutation totalRewards _))).
    exact Hm. }
  apply fetchAllMinerData_In in Hin as (c & Hc & E).
  rewrite List.Forall_forall in Hfin. specialize (Hfin c Hc).
  apply fetchMinerCompanyData_Some in E as (d & Hd & _ & Htot & _).
  unfold finiteRewards in Hfin. rewrite Hd in Hfin. destruct Hfin as [HP HN].
  unfold finiteKey. rewrite Htot. apply or_else_finite; assumption.
Qed.

Lemma fetchAllMinerData_descending_witness :
  descendingBy totalRewards (fetchAllMinerData sampleReplies) /\
  map ticker (fetchAllMinerData sampleReplies) = ["RIOT"; "MARA"; "CLSK"].
Proof.
  split; [|reflexivity].
  apply (fetchAllMinerData_descending sampleReplies).
  repeat constructor; cbn; congruence.
Defined.



